(** * Sermon Helper bridges: the Broadlink bridge and the Impress controller

    A shallow embedding of

      - [src-tauri/scripts/broadlink_bridge.py]  (discover / learn / send / test)
      - [src-tauri/sidecars/impress_controller.py]  (open / get_status)

    Both scripts are sequential Python programs whose interesting behaviour is
    the order of their calls into an external library (python-broadlink, UNO,
    the operating system) and what they print.  They are embedded as
    computations in a small monad that threads the state of the outside world,
    records every external call, sleep and printed JSON value in a trace, and
    distinguishes a normal return from a raised [Exception] and from
    [sys.exit]. *)

From Stdlib Require Import String Ascii ZArith NArith List Bool Lia Morphisms Setoid.
From Stdlib Require Import Hexadecimal HexadecimalString.
From Stdlib Require Decimal DecimalString.
From Stdlib.Strings Require Import Byte.
Import ListNotations.

Local Open Scope string_scope.
Local Open Scope list_scope.

Set Warnings "-register-all".

(* ================================================================== *)
(** * Python values used by the scripts *)
(* ================================================================== *)

Module Py.

(** Python [bytes]. *)
Definition bytes := list byte.

(** The value handed to [json.dumps].  A [dict] keeps insertion order, so an
    object is an association list. *)
Inductive json : Type :=
| JNull
| JBool (b : bool)
| JInt (z : Z)
| JStr (s : string)
| JArr (items : list json)
| JObj (fields : list (string * json)).

(** Exception classes the scripts tell apart.  Every value of [exn] is an
    instance of Python's [Exception]; [SystemExit] is not (it derives from
    [BaseException]) and is the [Exit] outcome below. *)
Inductive exn_class : Type :=
| StorageError      (* broadlink.exceptions.StorageError *)
| ReadError         (* broadlink.exceptions.ReadError *)
| SocketTimeout     (* socket.timeout *)
| ValueError
| OtherException.

Record exn : Type := mkExn { exn_class_of : exn_class; str : string }.

Definition result (A : Type) : Type := (exn + A)%type.

(** ** [str.lower], [str.replace] with a one-character pattern and the empty
    replacement, [str.startswith], [str.join]

    A [string] holds the bytes of the text.  [lower] is [str.lower] on ASCII
    text: it maps [A]-[Z] to [a]-[z] and keeps every other byte, so on text
    with characters outside ASCII (which Python may lower as well) it says
    nothing about the script; [isascii] is [str.isascii]. *)

Definition lower_ascii (c : ascii) : ascii :=
  let n := N_of_ascii c in
  if ((65 <=? n) && (n <=? 90))%N then ascii_of_N (n + 32) else c.

Fixpoint lower (s : string) : string :=
  match s with
  | EmptyString => EmptyString
  | String c s' => String (lower_ascii c) (lower s')
  end.

Fixpoint isascii (s : string) : bool :=
  match s with
  | EmptyString => true
  | String c s' => (N_of_ascii c <? 128)%N && isascii s'
  end.

Fixpoint remove_char (x : ascii) (s : string) : string :=
  match s with
  | EmptyString => EmptyString
  | String c s' => if Ascii.eqb c x then remove_char x s' else String c (remove_char x s')
  end.

Definition startswith (s p : string) : bool := String.prefix p s.

Fixpoint join (sep : string) (parts : list string) : string :=
  match parts with
  | [] => ""
  | [p] => p
  | p :: rest => p ++ sep ++ join sep rest
  end.

(** ** [bytes.hex] and [format(x, '02x')] *)

Definition hexdigit (n : N) : ascii :=
  if (n <? 10)%N then ascii_of_N (48 + n) else ascii_of_N (87 + n).

Definition byte_hex (b : byte) : string :=
  let n := Byte.to_N b in
  String (hexdigit (n / 16)) (String (hexdigit (n mod 16)) EmptyString).

Fixpoint bytes_hex (bs : bytes) : string :=
  match bs with
  | [] => ""
  | b :: bs' => byte_hex b ++ bytes_hex bs'
  end.

(** The characters [bytes.hex] writes. *)
Definition is_lower_hexdigit (c : ascii) : bool :=
  let n := N_of_ascii c in
  (((48 <=? n) && (n <=? 57)) || ((97 <=? n) && (n <=? 102)))%N.

Fixpoint all_chars (p : ascii -> bool) (s : string) : bool :=
  match s with
  | EmptyString => true
  | String c s' => p c && all_chars p s'
  end.

(** ** [bytes.fromhex]

    CPython skips ASCII whitespace in front of a byte, then wants two
    hexadecimal digits of either case; anything else (also a lone last digit,
    or whitespace between the two digits) is a [ValueError], here [None]. *)

Definition is_space (c : ascii) : bool :=
  let n := N_of_ascii c in ((n =? 32) || ((9 <=? n) && (n <=? 13)))%N.

Definition digit_value (c : ascii) : option N :=
  let n := N_of_ascii c in
  if ((48 <=? n) && (n <=? 57))%N then Some (n - 48)%N
  else if ((97 <=? n) && (n <=? 102))%N then Some (n - 87)%N
  else if ((65 <=? n) && (n <=? 70))%N then Some (n - 55)%N
  else None.

Definition byte_of_nibbles (top bot : N) : byte :=
  byte_of_ascii (ascii_of_N (top * 16 + bot)).

Fixpoint fromhex (s : string) : option bytes :=
  match s with
  | EmptyString => Some []
  | String c s' =>
      if is_space c then fromhex s'
      else
        match digit_value c, s' with
        | Some top, String c' s'' =>
            match digit_value c' with
            | Some bot => option_map (cons (byte_of_nibbles top bot)) (fromhex s'')
            | None => None
            end
        | _, _ => None
        end
  end.

(** ** [hex] of an integer *)

Definition hex (z : Z) : string :=
  (if (z <? 0)%Z then "-" else "") ++ "0x" ++ NilZero.string_of_uint (N.to_hex_uint (Z.abs_N z)).

(** ** Outcomes and the monad

    A computation runs from a state of the outside world [W]; it yields the
    events it caused (type [E], oldest first), the world afterwards and how it
    ended. *)

Inductive outcome (A : Type) : Type :=
| Ret (a : A)            (* ran to its end *)
| Raise (e : exn)        (* an Exception is propagating *)
| Exit (code : Z).       (* sys.exit(code): SystemExit is propagating *)

Arguments Ret {A} a.
Arguments Raise {A} e.
Arguments Exit {A} code.

Definition M (W E A : Type) : Type := W -> list E * W * outcome A.

Section Monad.
Context {W E : Type}.

Definition run {A} (m : M W E A) (w : W) : list E * W * outcome A := m w.

Definition ret {A} (a : A) : M W E A := fun w => ([], w, Ret a).

Definition bind {A B} (m : M W E A) (k : A -> M W E B) : M W E B :=
  fun w =>
    match m w with
    | (t1, w1, Ret a) => let '(t2, w2, o) := k a w1 in (t1 ++ t2, w2, o)
    | (t1, w1, Raise e) => (t1, w1, Raise e)
    | (t1, w1, Exit c) => (t1, w1, Exit c)
    end.

(** [raise e] *)
Definition raise {A} (e : exn) : M W E A := fun w => ([], w, Raise e).

(** [sys.exit(code)] *)
Definition sys_exit {A} (code : Z) : M W E A := fun w => ([], w, Exit code).

(** [try: m  except Exception as e: handler e].  [SystemExit] passes. *)
Definition try_except {A} (m : M W E A) (handler : exn -> M W E A) : M W E A :=
  fun w =>
    match m w with
    | (t1, w1, Raise e) => let '(t2, w2, o) := handler e w1 in (t1 ++ t2, w2, o)
    | r => r
    end.

(** An effect that cannot fail and only leaves an event. *)
Definition emit (e : E) : M W E unit := fun w => ([e], w, Ret tt).

(** A call into the outside world: [f] says what the world answers and how it
    changes, [ev] builds the event from the exception the call raised, if
    any. *)
Definition invoke {A} (ev : option exn -> E) (f : W -> result A * W) : M W E A :=
  fun w =>
    match f w with
    | (inl e, w') => ([ev (Some e)], w', Raise e)
    | (inr a, w') => ([ev None], w', Ret a)
    end.

(** Reading the world without changing it. *)
Definition observe {A} (f : W -> A) : M W E A := fun w => ([], w, Ret (f w)).

(** The exception in a result, if it is one. *)
Definition raised_of {A} (r : result A) : option exn :=
  match r with inl e => Some e | inr _ => None end.

(** A pure operation of the runtime that may raise. *)
Definition lift {A} (r : result A) : M W E A :=
  match r with
  | inl e => raise e
  | inr a => ret a
  end.

(** The exit status the operating system sees: an exception that nobody
    caught ends the interpreter with status 1. *)
Definition exit_status {A} (o : outcome A) : Z :=
  match o with
  | Ret _ => 0
  | Raise _ => 1
  | Exit c => c
  end.

(** Two computations that run alike from every state. *)
Definition equiv {A} (m m' : M W E A) : Prop := forall w, run m w = run m' w.

(** Every event a computation can cause passes the test [P]. *)
Definition emits (P : E -> bool) {A} (m : M W E A) : Prop :=
  forall w, forallb P (fst (fst (run m w))) = true.

End Monad.

Declare Scope py_scope.
Delimit Scope py_scope with py.
Notation "x <- m ;; k" := (bind m (fun x => k))
  (at level 100, m at next level, right associativity) : py_scope.
Notation "m ;; k" := (bind m (fun _ => k))
  (at level 100, right associativity) : py_scope.

End Py.

(* ================================================================== *)
(** * scripts/broadlink_bridge.py *)
(* ================================================================== *)

Module Broadlink.
Import Py.
Local Open Scope py_scope.

(** A device object of python-broadlink, as far as the script reads or writes
    its attributes.  [model] and [name] are [None] when [getattr] would fall
    back to its default (for [name] also when the attribute holds [None]). *)
Record device : Type := mkDevice {
  devtype : Z;
  host : string * Z;
  mac : bytes;
  timeout : Z;
  model : option string;
  name : option string
}.

Definition set_timeout (d : device) (t : Z) : device :=
  mkDevice (devtype d) (host d) (mac d) t (model d) (name d).

(** Calls into python-broadlink. *)
Inductive call : Type :=
| CDiscover (timeout : Z)
| CGendevice (devtype : Z) (host : string * Z) (mac : bytes)
| CAuth (d : device)
| CSweepFrequency (d : device)
| CCheckFrequency (d : device)
| CCancelSweepFrequency (d : device)
| CFindRfPacket (d : device)
| CEnterLearning (d : device)
| CCheckData (d : device)
| CSendData (d : device) (code : bytes).

Inductive event : Type :=
| Called (c : call) (raised : option exn)   (* a library call and what it raised *)
| Slept (seconds : Z)                       (* time.sleep *)
| Printed (j : json).                       (* print(json.dumps(j)) *)

(** Reading a trace. *)
Definition printed (t : list event) : list json :=
  flat_map (fun ev => match ev with Printed j => [j] | _ => [] end) t.

Definition calls (t : list event) : list call :=
  flat_map (fun ev => match ev with Called c _ => [c] | _ => [] end) t.

Definition count_calls (p : call -> bool) (t : list event) : nat :=
  List.length (filter p (calls t)).

(** Index of the first event that satisfies [p]. *)
Fixpoint position (p : event -> bool) (t : list event) : option nat :=
  match t with
  | [] => None
  | ev :: t' => if p ev then Some O else option_map S (position p t')
  end.

Definition is_check_data (c : call) : bool :=
  match c with CCheckData _ => true | _ => false end.

Definition is_cancel_sweep (c : call) : bool :=
  match c with CCancelSweepFrequency _ => true | _ => false end.

Definition is_rf_call (c : call) : bool :=
  match c with
  | CSweepFrequency _ | CCheckFrequency _ | CCancelSweepFrequency _ | CFindRfPacket _ => true
  | _ => false
  end.

Definition is_cancel_event (ev : event) : bool :=
  match ev with Called c _ => is_cancel_sweep c | _ => false end.

Definition prints_error (msg : string) (ev : event) : bool :=
  match ev with
  | Printed (JObj [(key, JStr m)]) => String.eqb key "error" && String.eqb m msg
  | _ => false
  end.

(** "The sweep is cancelled before the frequency-timeout response is
    printed": the first cancellation comes earlier in the trace than the first
    such response. *)
Definition cancel_precedes_response (t : list event) : Prop :=
  exists i j,
    position is_cancel_event t = Some i /\
    position (prints_error "No RF frequency found") t = Some j /\
    (i < j)%nat.

(** The devices [auth] was called on, and those it succeeded on, in order. *)
Definition auth_attempts (t : list event) : list device :=
  flat_map (fun ev => match ev with Called (CAuth d) _ => [d] | _ => [] end) t.

Definition authenticated (t : list event) : list device :=
  flat_map (fun ev => match ev with Called (CAuth d) None => [d] | _ => [] end) t.

(** Traces without output, capture polls or cancellations. *)
Definition quiet_call (c : call) : bool := negb (is_check_data c) && negb (is_cancel_sweep c).

Definition quiet (t : list event) : Prop :=
  printed t = [] /\ forallb quiet_call (calls t) = true.

(** Events of an infrared run: no call of the rf part of the library. *)
Definition ir_event (ev : event) : bool :=
  match ev with
  | Called c _ => negb (is_rf_call c)
  | _ => true
  end.

(** The two offline responses of [test]. *)
Definition offline : json := JObj [("online", JBool false)].
Definition offline_with (msg : string) : json :=
  JObj [("online", JBool false); ("error", JStr msg)].

(** What the script is run against: the Python builtins it does not define
    itself, and the python-broadlink library talking to the network, whose
    state is [W].  [check_frequency] answers with the truth value the script
    tests; [check_data] with the captured bytes. *)
Class Endpoint (W : Type) : Type := {
  int : string -> Z -> result Z;                 (* int(text, base) *)
  fromhex_error : string -> exn;                 (* what bytes.fromhex raises *)
  broadlink_discover : Z -> W -> result (list device) * W;
  broadlink_gendevice : Z -> string * Z -> bytes -> W -> result device * W;
  device_auth : device -> W -> result unit * W;
  device_sweep_frequency : device -> W -> result unit * W;
  device_check_frequency : device -> W -> result bool * W;
  device_cancel_sweep_frequency : device -> W -> result unit * W;
  device_find_rf_packet : device -> W -> result unit * W;
  device_enter_learning : device -> W -> result unit * W;
  device_check_data : device -> W -> result bytes * W;
  device_send_data : device -> bytes -> W -> result unit * W
}.

Section Script.
Context {W : Type} {EP : Endpoint W}.

Local Abbreviation M := (Py.M W event).

Definition print (j : json) : M unit := emit (Printed j).
Definition sleep (seconds : Z) : M unit := emit (Slept seconds).

Definition discover_devices (t : Z) : M (list device) :=
  invoke (Called (CDiscover t)) (broadlink_discover t).
Definition gendevice (dt : Z) (h : string * Z) (m : bytes) : M device :=
  invoke (Called (CGendevice dt h m)) (broadlink_gendevice dt h m).
Definition auth (d : device) : M unit :=
  invoke (Called (CAuth d)) (device_auth d).
Definition sweep_frequency (d : device) : M unit :=
  invoke (Called (CSweepFrequency d)) (device_sweep_frequency d).
Definition check_frequency (d : device) : M bool :=
  invoke (Called (CCheckFrequency d)) (device_check_frequency d).
Definition cancel_sweep_frequency (d : device) : M unit :=
  invoke (Called (CCancelSweepFrequency d)) (device_cancel_sweep_frequency d).
Definition find_rf_packet (d : device) : M unit :=
  invoke (Called (CFindRfPacket d)) (device_find_rf_packet d).
Definition enter_learning (d : device) : M unit :=
  invoke (Called (CEnterLearning d)) (device_enter_learning d).
Definition check_data (d : device) : M bytes :=
  invoke (Called (CCheckData d)) (device_check_data d).
Definition send_data (d : device) (code : bytes) : M unit :=
  invoke (Called (CSendData d code)) (device_send_data d code).

(** [bytes.fromhex(s)] as the script calls it. *)
Definition bytes_fromhex (s : string) : result bytes :=
  match fromhex s with
  | Some b => inr b
  | None => inl (fromhex_error s)
  end.

(** [mac_str_to_bytes], lines 29-32. *)
Definition mac_str_to_bytes (mac_str : string) : result bytes :=
  let mac_str := remove_char "-" (remove_char ":" mac_str) in
  bytes_fromhex mac_str.

(** The three lines every command but [discover] starts with:
      devtype_int = int(devtype, 16) if devtype.startswith('0x') else int(devtype)
      mac_bytes = mac_str_to_bytes(mac)
      device = broadlink.gendevice(devtype_int, (host, 80), mac_bytes) *)
Definition create_device (host mac devtype : string) : M device :=
  devtype_int <- lift (if startswith devtype "0x" then int devtype 16 else int devtype 10) ;;
  mac_bytes <- lift (mac_str_to_bytes mac) ;;
  gendevice devtype_int (host, 80%Z) mac_bytes.

(** ** [discover], lines 35-58 *)

Definition device_entry (d : device) : json :=
  JObj [ ("type", JStr (hex (devtype d)));
         ("model", JStr (match model d with Some m => m | None => "Unknown" end));
         ("host", JStr (fst (host d)));
         ("mac", JStr (join ":" (map byte_hex (mac d))));
         ("name", JStr (match name d with
                        | Some (String c n) => String c n
                        | _ => match model d with Some m => m | None => "Broadlink Device" end
                        end)) ].

(** The [for device in devices] loop; [result] is the list built so far. *)
Fixpoint discover_loop (devices : list device) (result : list json) : M (list json) :=
  match devices with
  | [] => ret result
  | d :: rest =>
      result' <- try_except
                   (auth d ;; ret (result ++ [device_entry d]))
                   (fun _ => ret result) ;;      (* skip devices that fail auth *)
      discover_loop rest result'
  end.

Definition error_response (msg : string) : json := JObj [("error", JStr msg)].

Definition discover (t : Z) : M unit :=
  try_except
    (devices <- discover_devices t ;;
     result <- discover_loop devices [] ;;
     print (JArr result))
    (fun e => print (error_response (str e)) ;; sys_exit 1).

(** ** [learn], lines 61-127 *)

(** [for _ in range(n)] of lines 78-82; the value is [found]. *)
Fixpoint seek_loop (n : nat) (d : device) : M bool :=
  match n with
  | O => ret false
  | S n' =>
      sleep 1 ;;
      f <- check_frequency d ;;
      if f then ret true else seek_loop n' d
  end.

(** The [except (StorageError, ReadError)] clause. *)
Definition not_ready (e : exn) : bool :=
  match exn_class_of e with
  | StorageError | ReadError => true
  | _ => false
  end.

Definition code_response (data : bytes) : json := JObj [("code", JStr (bytes_hex data))].

(** One round of the capture loops (lines 94-101 and 112-120); [true] when the
    function printed the code and returned. *)
Definition capture_poll (d : device) : M bool :=
  sleep 1 ;;
  try_except
    (data <- check_data d ;;
     match data with
     | _ :: _ => print (code_response data) ;; ret true
     | [] => ret false
     end)
    (fun e => if not_ready e then ret false else raise e).

(** [for _ in range(n)] of lines 93-101 and 111-120. *)
Fixpoint capture_loop (n : nat) (d : device) : M bool :=
  match n with
  | O => ret false
  | S n' =>
      returned <- capture_poll d ;;
      if returned then ret true else capture_loop n' d
  end.

Definition is_rf (signal_type : string) : bool := String.eqb (lower signal_type) "rf".

Definition learn (host mac devtype signal_type : string) : M unit :=
  try_except
    (d <- create_device host mac devtype ;;
     auth d ;;
     if is_rf signal_type then
       sweep_frequency d ;;
       found <- seek_loop 30 d ;;
       (if negb found then
          print (error_response "No RF frequency found") ;;
          cancel_sweep_frequency d ;;
          sys_exit 1
        else ret tt) ;;
       find_rf_packet d ;;
       returned <- capture_loop 30 d ;;
       if returned then ret tt
       else print (error_response "RF learning timeout") ;; sys_exit 1
     else
       enter_learning d ;;
       returned <- capture_loop 30 d ;;
       if returned then ret tt
       else print (error_response "IR learning timeout") ;; sys_exit 1)
    (fun e => print (error_response (str e)) ;; sys_exit 1).

(** ** [send], lines 130-149 *)

Definition send (host mac devtype code : string) : M unit :=
  try_except
    (d <- create_device host mac devtype ;;
     auth d ;;
     code_bytes <- lift (bytes_fromhex code) ;;
     send_data d code_bytes ;;
     print (JObj [("success", JBool true)]))
    (fun e => print (JObj [("success", JBool false); ("error", JStr (str e))]) ;; sys_exit 1).

(** ** [test], lines 152-171 *)

Definition test (host mac devtype : string) : M unit :=
  try_except
    (d <- create_device host mac devtype ;;
     let d := set_timeout d 5 in
     auth d ;;
     print (JObj [("online", JBool true)]))
    (fun e =>
       match exn_class_of e with
       | SocketTimeout => print (JObj [("online", JBool false)])
       | _ => print (JObj [("online", JBool false); ("error", JStr (str e))])
       end).

(** ** [main], lines 174-216 *)

Definition argv_at (argv : list string) (i : nat) : string := nth i argv "".

Definition main (argv : list string) : M unit :=
  if (length argv <? 2)%nat then
    print (error_response "Usage: broadlink_bridge.py <command> [args...]") ;; sys_exit 1
  else
    let command := lower (argv_at argv 1) in
    if String.eqb command "discover" then
      t <- (if (2 <? length argv)%nat then lift (int (argv_at argv 2) 10) else ret 5%Z) ;;
      discover t
    else if String.eqb command "learn" then
      if (length argv <? 5)%nat then
        print (error_response "Usage: learn <host> <mac> <devtype> [ir|rf]") ;; sys_exit 1
      else
        learn (argv_at argv 2) (argv_at argv 3) (argv_at argv 4)
              (if (5 <? length argv)%nat then argv_at argv 5 else "ir")
    else if String.eqb command "send" then
      if (length argv <? 6)%nat then
        print (error_response "Usage: send <host> <mac> <devtype> <code>") ;; sys_exit 1
      else
        send (argv_at argv 2) (argv_at argv 3) (argv_at argv 4) (argv_at argv 5)
    else if String.eqb command "test" then
      if (length argv <? 5)%nat then
        print (error_response "Usage: test <host> <mac> <devtype>") ;; sys_exit 1
      else
        test (argv_at argv 2) (argv_at argv 3) (argv_at argv 4)
    else
      print (error_response ("Unknown command: " ++ command)%string) ;; sys_exit 1.

(** The handler of [learn] and [discover]: lines 125-127 and 56-58. *)
Definition failure (e : exn) : M unit :=
  print (error_response (str e)) ;; sys_exit 1.

(** ** Describing a run

    The part of [learn] in front of its capture loop: lines 65-70 and 108 for
    infrared, lines 65-90 for radio frequency.  It yields the device the
    capture loop then polls. *)
Definition capture_start (host mac devtype signal_type : string) : M device :=
  d <- create_device host mac devtype ;;
  auth d ;;
  (if is_rf signal_type then
     sweep_frequency d ;;
     found <- seek_loop 30 d ;;
     (if negb found then
        print (error_response "No RF frequency found") ;;
        cancel_sweep_frequency d ;;
        sys_exit 1
      else ret tt) ;;
     find_rf_packet d
   else enter_learning d) ;;
  ret d.

(** Creating the device and authenticating, as [learn] (lines 65-70) and
    [send] (lines 134-139) start. *)
Definition session (host mac devtype : string) : M device :=
  d <- create_device host mac devtype ;;
  auth d ;;
  ret d.

(** The part of an rf [learn] in front of its frequency loop, lines 65-74. *)
Definition seek_start (host mac devtype : string) : M device :=
  d <- create_device host mac devtype ;;
  auth d ;;
  sweep_frequency d ;;
  ret d.

Definition timeout_message (signal_type : string) : string :=
  if is_rf signal_type then "RF learning timeout" else "IR learning timeout".

(** The endpoint answers [k] [check_data] calls in a row, starting in [w],
    with a recognised not-ready error; the result is the world afterwards. *)
Fixpoint not_ready_polls (k : nat) (d : device) (w : W) : option W :=
  match k with
  | O => Some w
  | S k' =>
      match device_check_data d w with
      | (inl e, w') => if not_ready e then not_ready_polls k' d w' else None
      | (inr _, _) => None
      end
  end.

(** The same with an empty payload counted as no answer too: [k] polls after
    which the capture loop goes on. *)
Fixpoint idle_polls (k : nat) (d : device) (w : W) : option W :=
  match k with
  | O => Some w
  | S k' =>
      match device_check_data d w with
      | (inl e, w') => if not_ready e then idle_polls k' d w' else None
      | (inr [], w') => idle_polls k' d w'
      | (inr (_ :: _), _) => None
      end
  end.

(** The endpoint answers [k] [check_frequency] calls in a row with false. *)
Fixpoint no_frequency_polls (k : nat) (d : device) (w : W) : option W :=
  match k with
  | O => Some w
  | S k' =>
      match device_check_frequency d w with
      | (inr false, w') => no_frequency_polls k' d w'
      | _ => None
      end
  end.

(** The events of [k] unsuccessful rounds of the frequency loop. *)
Fixpoint seek_rounds (k : nat) (d : device) : list event :=
  match k with
  | O => []
  | S k' => Slept 1 :: Called (CCheckFrequency d) None :: seek_rounds k' d
  end.

End Script.

(** ** A scripted endpoint for concrete runs

    The state of the fake network is the list of answers still to be given by
    [auth], [check_frequency], [cancel_sweep_frequency] and [check_data]; a
    call takes the next answer, or the default when none is left. *)
Module Fake.

Record state : Type := mkState {
  found_devices : result (list device);
  auth_answers : list (result unit);
  frequency_answers : list (result bool);
  cancel_answers : list (result unit);
  data_answers : list (result bytes)
}.

Definition next {A} (default : result A) (answers : list (result A))
  : result A * list (result A) :=
  match answers with
  | [] => (default, [])
  | a :: rest => (a, rest)
  end.

Definition storage_error : exn := mkExn StorageError "the storage is full".
Definition read_error : exn := mkExn ReadError "failed to read".
Definition network_error : exn := mkExn OtherException "network unreachable".
Definition timed_out : exn := mkExn SocketTimeout "timed out".

(** [int(text, base)] on the plain literals the runs below use: with base 16
    the digits after [0x], with any other base decimal digits. *)
Definition read_int (text : string) (base : Z) : result Z :=
  if (base =? 16)%Z then
    match text with
    | String "0" (String "x" (String c digits)) =>
        match NilZero.uint_of_string (String c digits) with
        | Some u => inr (Z.of_N (N.of_hex_uint u))
        | None => inl (mkExn ValueError "invalid literal for int() with base 16")
        end
    | _ => inl (mkExn ValueError "invalid literal for int() with base 16")
    end
  else
    match text with
    | String c digits =>
        match DecimalString.NilZero.uint_of_string (String c digits) with
        | Some u => inr (Z.of_N (N.of_uint u))
        | None => inl (mkExn ValueError "invalid literal for int() with base 10")
        end
    | EmptyString => inl (mkExn ValueError "invalid literal for int() with base 10")
    end.

#[export] Instance endpoint : Endpoint state := {|
  int := read_int;
  fromhex_error := fun _ => mkExn ValueError "non-hexadecimal number found in fromhex() arg";
  broadlink_discover := fun _ w => (found_devices w, w);
  broadlink_gendevice := fun dt h m w => (inr (mkDevice dt h m 10 (Some "RM4 mini") (Some "")), w);
  device_auth := fun _ w =>
    let '(a, rest) := next (inr tt) (auth_answers w) in
    (a, mkState (found_devices w) rest (frequency_answers w) (cancel_answers w) (data_answers w));
  device_sweep_frequency := fun _ w => (inr tt, w);
  device_check_frequency := fun _ w =>
    let '(a, rest) := next (inr false) (frequency_answers w) in
    (a, mkState (found_devices w) (auth_answers w) rest (cancel_answers w) (data_answers w));
  device_cancel_sweep_frequency := fun _ w =>
    let '(a, rest) := next (inr tt) (cancel_answers w) in
    (a, mkState (found_devices w) (auth_answers w) (frequency_answers w) rest (data_answers w));
  device_find_rf_packet := fun _ w => (inr tt, w);
  device_enter_learning := fun _ w => (inr tt, w);
  device_check_data := fun _ w =>
    let '(a, rest) := next (inl storage_error) (data_answers w) in
    (a, mkState (found_devices w) (auth_answers w) (frequency_answers w) (cancel_answers w) rest);
  device_send_data := fun _ _ w => (inr tt, w)
|}.

(** A network with no device answering anything yet. *)
Definition silent : state := mkState (inr []) [] [] [] [].

Definition with_data (answers : list (result bytes)) : state :=
  mkState (inr []) [] [] [] answers.

Definition with_frequency (answers : list (result bool)) (data : list (result bytes)) : state :=
  mkState (inr []) [] answers [] data.

Definition address : string := "192.168.1.20".
Definition mac_text : string := "a0:43:b0:11:22:33".
Definition devtype_text : string := "0x2737".

Definition remote : device :=
  mkDevice 10039 (address, 80%Z) [xa0; x43; xb0; x11; x22; x33] 10 (Some "RM4 mini") (Some "").

Definition button : bytes := [x26; x00; x0c; xab; xff].


(** Three devices answer a broadcast. *)
Definition plug : device :=
  mkDevice 30000 ("192.168.1.21", 80%Z) [x01; x02; x03; x04; x05; x0f] 10 None None.

Definition living_room : state :=
  mkState (inr [remote; plug; remote]) [inr tt; inl timed_out; inl network_error] [] [] [].


(** The same network behind an interpreter whose [int] reads only ["10"]. *)
Definition picky : Endpoint state := {|
  int := fun text _ =>
    if String.eqb text "10" then inr 10%Z
    else inl (mkExn ValueError "invalid literal for int() with base 10");
  fromhex_error := fromhex_error (Endpoint := endpoint);
  broadlink_discover := broadlink_discover (Endpoint := endpoint);
  broadlink_gendevice := broadlink_gendevice (Endpoint := endpoint);
  device_auth := device_auth (Endpoint := endpoint);
  device_sweep_frequency := device_sweep_frequency (Endpoint := endpoint);
  device_check_frequency := device_check_frequency (Endpoint := endpoint);
  device_cancel_sweep_frequency := device_cancel_sweep_frequency (Endpoint := endpoint);
  device_find_rf_packet := device_find_rf_packet (Endpoint := endpoint);
  device_enter_learning := device_enter_learning (Endpoint := endpoint);
  device_check_data := device_check_data (Endpoint := endpoint);
  device_send_data := device_send_data (Endpoint := endpoint)
|}.

(** Nothing answers the broadcast: the socket cannot be opened. *)
Definition offline_network : state := mkState (inl network_error) [] [] [] [].

(** The device cannot stop its sweep. *)
Definition stuck_sweep : state := mkState (inr []) [] [] [inl network_error] [].

End Fake.

End Broadlink.

(* ================================================================== *)
(** * sidecars/impress_controller.py *)
(* ================================================================== *)

Module Impress.
Import Py.
Local Open Scope py_scope.

(** UNO objects are opaque handles. *)
Inductive context : Type := Context (id : nat).
Inductive desktop : Type := Desktop (id : nat).
Inductive document : Type := Document (id : nat).
Inductive draw_pages : Type := DrawPages (id : nat).
Inductive presentation : Type := Presentation (id : nat).
Inductive controller : Type := Controller (id : nat).

(** Calls that leave the process: UNO and [subprocess.Popen]. *)
Inductive call : Type :=
| CResolve
| CCreateDesktop (ctx : context)
| CPopen (cmd : list string)
| CLoadComponentFromURL (d : desktop) (url : string)
| CGetCurrentComponent (d : desktop)
| CGetDrawPages (doc : document)
| CGetCount (pages : draw_pages)
| CGetPresentation (doc : document)
| CIsRunning (p : presentation)
| CGetController (p : presentation)
| CStart (p : presentation)
| CEnd (p : presentation)
| CGotoSlideIndex (c : controller) (index : Z)
| CGotoNextSlide (c : controller)
| CGotoPreviousSlide (c : controller)
| CBlankScreen (c : controller) (color : Z)
| CResume (c : controller)
| CGetCurrentSlideIndex (c : controller)
| CIsPaused (c : controller).

Inductive event : Type :=
| Called (c : call) (raised : option exn)
| Slept (milliseconds : Z)
| Printed (j : json).                       (* print(json.dumps(j), flush=True) *)

(** The machine the sidecar runs on: whether [import uno] worked, the file
    system, the UNO bridge and process creation.  [uno_resolve] stands for
    lines 47-53 (local context, resolver, [resolve]); [uno_create_desktop]
    for the body of [get_desktop]. *)
Class Office (W : Type) : Type := {
  HAS_UNO : bool;
  file_present : string -> W -> bool;
  uno_resolve : W -> result context * W;
  uno_create_desktop : context -> W -> result desktop * W;
  subprocess_Popen : list string -> W -> result unit * W;
  uno_loadComponentFromURL : desktop -> string -> W -> result unit * W;
  uno_getCurrentComponent : desktop -> W -> result (option document) * W;
  uno_getDrawPages : document -> W -> result draw_pages * W;
  uno_getCount : draw_pages -> W -> result Z * W;
  uno_getPresentation : document -> W -> result (option presentation) * W;
  uno_isRunning : presentation -> W -> result bool * W;
  uno_getController : presentation -> W -> result (option controller) * W;
  uno_start : presentation -> W -> result unit * W;
  uno_end : presentation -> W -> result unit * W;
  uno_gotoSlideIndex : controller -> Z -> W -> result unit * W;
  uno_gotoNextSlide : controller -> W -> result unit * W;
  uno_gotoPreviousSlide : controller -> W -> result unit * W;
  uno_blankScreen : controller -> Z -> W -> result unit * W;
  uno_resume : controller -> W -> result unit * W;
  uno_getCurrentSlideIndex : controller -> W -> result Z * W;
  uno_isPaused : controller -> W -> result bool * W
}.

(** One request line after [json.loads]: the keys [handle_command] reads, with
    the types the protocol gives them.  [file_path] is a string when present
    ([None]: the key is missing), [from_slide] and [slide_number] are integers
    when present.  A request that holds a value of another type under one of
    these keys (a null or a number as [file_path], a string as a slide
    number) has no [cmd_data], and nothing below speaks about it. *)
Record cmd_data : Type := mkCmd {
  command : string;                 (* cmd_data.get("command", "") *)
  file_path : option string;
  from_slide : option Z;            (* None: missing or null *)
  slide_number : option Z
}.

Section Script.
Context {W : Type} {OF : Office W}.

Local Abbreviation M := (Py.M W event).

Definition UNO_PORT : string := "2002".

(** [os.path.exists] on a string: the empty path never exists. *)
Definition path_exists (path : string) (w : W) : bool :=
  match path with
  | EmptyString => false
  | _ => file_present path w
  end.

Definition os_path_exists (path : string) : M bool := observe (path_exists path).

(** [get_uno_context], lines 42-56. *)
Definition get_uno_context : M (option context) :=
  if negb HAS_UNO then ret None
  else try_except
         (ctx <- invoke (Called CResolve) uno_resolve ;; ret (Some ctx))
         (fun _ => ret None).

(** [get_desktop], lines 59-63. *)
Definition get_desktop (ctx : context) : M desktop :=
  invoke (Called (CCreateDesktop ctx)) (uno_create_desktop ctx).

Definition getCurrentComponent (d : desktop) : M (option document) :=
  invoke (Called (CGetCurrentComponent d)) (uno_getCurrentComponent d).
Definition getPresentation (doc : document) : M (option presentation) :=
  invoke (Called (CGetPresentation doc)) (uno_getPresentation doc).
Definition isRunning (p : presentation) : M bool :=
  invoke (Called (CIsRunning p)) (uno_isRunning p).
Definition getController (p : presentation) : M (option controller) :=
  invoke (Called (CGetController p)) (uno_getController p).

(** [get_slideshow_controller], lines 66-77. *)
Definition get_slideshow_controller (d : desktop) : M (option controller) :=
  try_except
    (doc <- getCurrentComponent d ;;
     match doc with
     | None => ret None
     | Some doc =>
         p <- getPresentation doc ;;
         match p with
         | None => ret None
         | Some p =>
             running <- isRunning p ;;
             if negb running then ret None else getController p
         end
     end)
    (fun _ => ret None).

(** [get_presentation], lines 80-88. *)
Definition get_presentation (d : desktop) : M (option presentation) :=
  try_except
    (doc <- getCurrentComponent d ;;
     match doc with
     | None => ret None
     | Some doc => getPresentation doc
     end)
    (fun _ => ret None).

(** [respond], lines 91-97.  [error] is left out when it is [None] or the
    empty string; the keyword arguments never repeat a key. *)
Definition respond (success : bool) (error : option string) (kwargs : list (string * json))
  : M unit :=
  emit (Printed (JObj (("success", JBool success)
                       :: match error with
                          | Some (String c e) => [("error", JStr (String c e))]
                          | _ => []
                          end
                       ++ kwargs))).

(** [launch_libreoffice_with_socket], lines 100-113. *)
Definition launch_command (file_path : string) : list string :=
  let cmd := ["soffice"; "--impress";
              ("--accept=socket,host=localhost,port=" ++ UNO_PORT ++ ";urp;")%string] in
  match file_path with
  | EmptyString => cmd
  | _ => cmd ++ [file_path]
  end.

Definition launch_libreoffice_with_socket (file_path : string) : M bool :=
  let cmd := launch_command file_path in
  try_except
    (invoke (Called (CPopen cmd)) (subprocess_Popen cmd) ;; ret true)
    (fun _ => ret false).

Definition no_slideshow : M unit := respond false (Some "No slideshow active") [].

(** The shape shared by [next], [previous], [goto_slide], [blank_screen],
    [white_screen] and [unblank]: look the controller up, act on it. *)
Definition with_controller (d : desktop) (act : controller -> M unit) : M unit :=
  try_except
    (c <- get_slideshow_controller d ;;
     match c with
     | None => no_slideshow
     | Some c => act c ;; respond true None []
     end)
    (fun e => respond false (Some (str e)) []).

Definition of_option {A} (default : A) (o : option A) : A :=
  match o with Some a => a | None => default end.

(** [handle_command], lines 116-292. *)
Definition handle_command (cmd : cmd_data) : M unit :=
  if String.eqb (command cmd) "quit" then
    respond true None [] ;; sys_exit 0
  else if String.eqb (command cmd) "is_running" then
    ctx <- get_uno_context ;;
    respond true None [("running", JBool (match ctx with Some _ => true | None => false end))]
  else if String.eqb (command cmd) "open" then
    let file_path := of_option "" (file_path cmd) in
    present <- os_path_exists file_path ;;
    if negb present then
      respond false (Some ("File not found: " ++ file_path)%string) []
    else
      ctx <- get_uno_context ;;
      match ctx with
      | None =>
          launched <- launch_libreoffice_with_socket file_path ;;
          if launched then respond true None []
          else respond false (Some "Failed to launch LibreOffice") []
      | Some ctx =>
          try_except
            (d <- get_desktop ctx ;;
             let url := ("file://" ++ file_path)%string in
             invoke (Called (CLoadComponentFromURL d url)) (uno_loadComponentFromURL d url) ;;
             respond true None [])
            (fun e => respond false (Some (str e)) [])
      end
  else
    ctx <- get_uno_context ;;
    match ctx with
    | None => respond false (Some "LibreOffice is not running or UNO socket not available") []
    | Some ctx =>
        d <- get_desktop ctx ;;
        if String.eqb (command cmd) "start_slideshow" then
          try_except
            (p <- get_presentation d ;;
             match p with
             | None => respond false (Some "No presentation document open") []
             | Some p =>
                 match from_slide cmd with
                 | Some n =>
                     invoke (Called (CStart p)) (uno_start p) ;;
                     emit (Slept 500) ;;
                     c <- get_slideshow_controller d ;;
                     match c with
                     | Some c => invoke (Called (CGotoSlideIndex c (n - 1)))
                                        (uno_gotoSlideIndex c (n - 1))
                     | None => ret tt
                     end
                 | None => invoke (Called (CStart p)) (uno_start p)
                 end ;;
                 respond true None []
             end)
            (fun e => respond false (Some (str e)) [])
        else if String.eqb (command cmd) "stop_slideshow" then
          try_except
            (p <- get_presentation d ;;
             match p with
             | Some p =>
                 running <- isRunning p ;;
                 if running then invoke (Called (CEnd p)) (uno_end p) else ret tt
             | None => ret tt
             end ;;
             respond true None [])
            (fun e => respond false (Some (str e)) [])
        else if String.eqb (command cmd) "next" then
          with_controller d (fun c => invoke (Called (CGotoNextSlide c)) (uno_gotoNextSlide c))
        else if String.eqb (command cmd) "previous" then
          with_controller d
            (fun c => invoke (Called (CGotoPreviousSlide c)) (uno_gotoPreviousSlide c))
        else if String.eqb (command cmd) "goto_slide" then
          with_controller d
            (fun c => let n := (of_option 1 (slide_number cmd) - 1)%Z in
                      invoke (Called (CGotoSlideIndex c n)) (uno_gotoSlideIndex c n))
        else if String.eqb (command cmd) "blank_screen" then
          with_controller d (fun c => invoke (Called (CBlankScreen c 0)) (uno_blankScreen c 0))
        else if String.eqb (command cmd) "white_screen" then
          with_controller d
            (fun c => invoke (Called (CBlankScreen c 16777215)) (uno_blankScreen c 16777215))
        else if String.eqb (command cmd) "unblank" then
          with_controller d (fun c => invoke (Called (CResume c)) (uno_resume c))
        else if String.eqb (command cmd) "get_status" then
          try_except
            (doc <- getCurrentComponent d ;;
             status <-
               match doc with
               | None => ret (false, None, None, false)
               | Some doc =>
                   total_slides <-
                     try_except
                       (pages <- invoke (Called (CGetDrawPages doc)) (uno_getDrawPages doc) ;;
                        n <- invoke (Called (CGetCount pages)) (uno_getCount pages) ;;
                        ret (Some n))
                       (fun _ => ret None) ;;
                   p <- get_presentation d ;;
                   running <- match p with
                              | Some p => isRunning p
                              | None => ret false
                              end ;;
                   if running then
                     c <- get_slideshow_controller d ;;
                     match c with
                     | Some c =>
                         i <- invoke (Called (CGetCurrentSlideIndex c))
                                     (uno_getCurrentSlideIndex c) ;;
                         paused <- invoke (Called (CIsPaused c)) (uno_isPaused c) ;;
                         ret (true, Some (i + 1)%Z, total_slides, paused)
                     | None => ret (true, None, total_slides, false)
                     end
                   else ret (false, None, total_slides, false)
               end ;;
             let '(slideshow_active, current_slide, total_slides, blanked) := status in
             respond true None
               [("data", JObj [("slideshow_active", JBool slideshow_active);
                               ("current_slide", match current_slide with
                                                 | Some n => JInt n | None => JNull end);
                               ("total_slides", match total_slides with
                                                | Some n => JInt n | None => JNull end);
                               ("blanked", JBool blanked)])])
            (fun e => respond false (Some (str e)) [])
        else
          respond false (Some ("Unknown command: " ++ command cmd)%string) []
    end.

End Script.

(** Reading a trace. *)
Definition printed (t : list event) : list json :=
  flat_map (fun ev => match ev with Printed j => [j] | _ => [] end) t.

Definition calls (t : list event) : list call :=
  flat_map (fun ev => match ev with Called c _ => [c] | _ => [] end) t.

(** What [json.loads] makes of a stripped input line: a request object, a
    [JSONDecodeError] with its text, or any other exception (raised by the
    decoder, or by the first [cmd_data.get] when the value is no object). *)
Inductive decoded : Type :=
| Object (cmd : cmd_data)
| JSONDecodeError (msg : string)
| OtherError (e : exn).

Section Main.
Context {W : Type} {OF : Office W}.
Variable strip : string -> string.      (* str.strip *)
Variable loads : string -> decoded.     (* json.loads *)

(** The body of the loop of [main] for one line that is not blank, lines
    301-307. *)
Definition serve_line (line : string) : Py.M W event unit :=
  match loads line with
  | Object cmd => try_except (handle_command cmd)
                    (fun e => respond false (Some ("Unexpected error: " ++ str e)%string) [])
  | JSONDecodeError msg => respond false (Some ("Invalid JSON: " ++ msg)%string) []
  | OtherError e => respond false (Some ("Unexpected error: " ++ str e)%string) []
  end.

(** [main], lines 295-307, on the lines standard input delivers. *)
Fixpoint main (lines : list string) : Py.M W event unit :=
  match lines with
  | [] => ret tt
  | line :: rest =>
      match strip line with
      | EmptyString => main rest
      | line => serve_line line ;; main rest
      end
  end.

(** The lines that get an answer, and whether a line asks to quit. *)
Definition is_blank (line : string) : bool :=
  match strip line with EmptyString => true | _ => false end.

Definition is_quit (line : string) : bool :=
  negb (is_blank line) &&
  match loads (strip line) with
  | Object cmd => String.eqb (command cmd) "quit"
  | _ => false
  end.

Definition answered (line : string) : bool := negb (is_blank line).
Definition goes_on (line : string) : bool := negb (is_quit line).

End Main.

(** The names [handle_command] knows. *)
Definition known_commands : list string :=
  ["quit"; "is_running"; "open"; "start_slideshow"; "stop_slideshow"; "next"; "previous";
   "goto_slide"; "blank_screen"; "white_screen"; "unblank"; "get_status"].

(** The six commands that act on the running slideshow. *)
Definition slideshow_commands : list string :=
  ["next"; "previous"; "goto_slide"; "blank_screen"; "white_screen"; "unblank"].

Definition not_running_response : json :=
  JObj [("success", JBool false);
        ("error", JStr "LibreOffice is not running or UNO socket not available")].

(** The response of [respond(False, error=msg)]: an empty message leaves the
    [error] key out. *)
Definition failure_response (msg : string) : json :=
  JObj (("success", JBool false)
        :: match msg with
           | EmptyString => []
           | _ => [("error", JStr msg)]
           end).

Definition success_response : json := JObj [("success", JBool true)].

(** The response of [open] when the spawn fails. *)
Definition launch_failure : json :=
  JObj [("success", JBool false); ("error", JStr "Failed to launch LibreOffice")].

(** A response [{"success": true, "data": ...}]. *)
Definition is_success_with_data (j : json) : Prop :=
  exists data, j = JObj [("success", JBool true); ("data", data)].

(** A status record: the four keys in order, position and total a number or
    null. *)
Definition status_record (active : bool) (current total : option Z) (blanked : bool) : json :=
  JObj [("slideshow_active", JBool active);
        ("current_slide", match current with Some n => JInt n | None => JNull end);
        ("total_slides", match total with Some n => JInt n | None => JNull end);
        ("blanked", JBool blanked)].

(** ** A scripted office for concrete runs

    A script fixes the answer of each call; the machine itself has no state
    that changes. *)
Module Fake.

Record script : Type := mkScript {
  files : list string;
  resolve_answer : result context;
  desktop_answer : result desktop;
  spawn_answer : result unit;
  component_answer : result (option document);
  pages_answer : result draw_pages;
  count_answer : result Z;
  presentation_answer : result (option presentation);
  running_answer : result bool;
  controller_answer : result (option controller);
  index_answer : result Z;
  paused_answer : result bool
}.

Definition office (s : script) : Office unit := {|
  HAS_UNO := true;
  file_present := fun path _ => existsb (String.eqb path) (files s);
  uno_resolve := fun w => (resolve_answer s, w);
  uno_create_desktop := fun _ w => (desktop_answer s, w);
  subprocess_Popen := fun _ w => (spawn_answer s, w);
  uno_loadComponentFromURL := fun _ _ w => (inr tt, w);
  uno_getCurrentComponent := fun _ w => (component_answer s, w);
  uno_getDrawPages := fun _ w => (pages_answer s, w);
  uno_getCount := fun _ w => (count_answer s, w);
  uno_getPresentation := fun _ w => (presentation_answer s, w);
  uno_isRunning := fun _ w => (running_answer s, w);
  uno_getController := fun _ w => (controller_answer s, w);
  uno_start := fun _ w => (inr tt, w);
  uno_end := fun _ w => (inr tt, w);
  uno_gotoSlideIndex := fun _ _ w => (inr tt, w);
  uno_gotoNextSlide := fun _ w => (inr tt, w);
  uno_gotoPreviousSlide := fun _ w => (inr tt, w);
  uno_blankScreen := fun _ _ w => (inr tt, w);
  uno_resume := fun _ w => (inr tt, w);
  uno_getCurrentSlideIndex := fun _ w => (index_answer s, w);
  uno_isPaused := fun _ w => (paused_answer s, w)
|}.

Definition disposed : exn := mkExn OtherException "Binary URP bridge disposed during call".
Definition no_connect : exn := mkExn OtherException "Connector : couldn't connect to socket".
Definition no_soffice : exn := mkExn OtherException "No such file or directory: 'soffice'".

Definition sermon : string := "/home/church/sermon.odp".

(** Impress runs a slideshow of 12 slides, showing the third. *)
Definition presenting : script :=
  mkScript [sermon] (inr (Context 1)) (inr (Desktop 2)) (inr tt)
          (inr (Some (Document 3))) (inr (DrawPages 4)) (inr 12%Z)
          (inr (Some (Presentation 5))) (inr true) (inr (Some (Controller 6)))
          (inr 2%Z) (inr false).

(** The same, but the document does not let its pages or its presentation be
    read. *)
Definition unreadable : script :=
  mkScript [sermon] (inr (Context 1)) (inr (Desktop 2)) (inr tt)
          (inr (Some (Document 3))) (inl disposed) (inr 12%Z)
          (inl disposed) (inr true) (inr (Some (Controller 6)))
          (inr 2%Z) (inr false).

(** The socket answers, but every read through it fails. *)
Definition failing : script :=
  mkScript [sermon] (inr (Context 1)) (inr (Desktop 2)) (inr tt)
          (inl disposed) (inl disposed) (inl disposed)
          (inl disposed) (inl disposed) (inl disposed)
          (inl disposed) (inl disposed).

(** A blanked slideshow on its third slide whose page count cannot be
    read. *)
Definition uncounted : script :=
  mkScript [sermon] (inr (Context 1)) (inr (Desktop 2)) (inr tt)
          (inr (Some (Document 3))) (inr (DrawPages 4)) (inl disposed)
          (inr (Some (Presentation 5))) (inr true) (inr (Some (Controller 6)))
          (inr 2%Z) (inr true).

(** A slideshow of 12 slides whose paused flag cannot be read. *)
Definition stalled : script :=
  mkScript [sermon] (inr (Context 1)) (inr (Desktop 2)) (inr tt)
          (inr (Some (Document 3))) (inr (DrawPages 4)) (inr 12%Z)
          (inr (Some (Presentation 5))) (inr true) (inr (Some (Controller 6)))
          (inr 2%Z) (inl disposed).

(** LibreOffice is not running. *)
Definition closed (spawn : result unit) : script :=
  mkScript [sermon] (inl no_connect) (inl no_connect) spawn
          (inl disposed) (inl disposed) (inl disposed)
          (inl disposed) (inl disposed) (inl disposed)
          (inl disposed) (inl disposed).

Definition request (name : string) (path : option string) : cmd_data :=
  mkCmd name path None None.

(** The trace and the outcome of one request on a scripted machine. *)
Definition serve (s : script) (cmd : cmd_data) : list event * outcome unit :=
  let '(t, _, o) := run (handle_command (OF := office s) cmd) tt in (t, o).


(** A presentation is open but no slideshow runs. *)
Definition idle : script :=
  mkScript [sermon] (inr (Context 1)) (inr (Desktop 2)) (inr tt)
           (inr (Some (Document 3))) (inr (DrawPages 4)) (inr 12%Z)
           (inr (Some (Presentation 5))) (inr false) (inr (Some (Controller 6)))
           (inr 0%Z) (inr false).

(** LibreOffice runs with no document. *)
Definition empty_desk : script :=
  mkScript [sermon] (inr (Context 1)) (inr (Desktop 2)) (inr tt)
           (inr None) (inl disposed) (inl disposed)
           (inl disposed) (inl disposed) (inl disposed)
           (inl disposed) (inl disposed).

(** The socket answers but hands out no desktop. *)
Definition no_desktop : script :=
  mkScript [sermon] (inr (Context 1)) (inl disposed) (inr tt)
           (inl disposed) (inl disposed) (inl disposed)
           (inl disposed) (inl disposed) (inl disposed)
           (inl disposed) (inl disposed).

(** Stand-ins for [str.strip] and [json.loads]: [trim] drops ASCII
    whitespace at both ends; [parse] reads a bare command name as the request
    with that command and rejects everything else. *)
Fixpoint lstrip (s : string) : string :=
  match s with
  | EmptyString => EmptyString
  | String c s' => if is_space c then lstrip s' else s
  end.

Fixpoint rstrip (s : string) : string :=
  match s with
  | EmptyString => EmptyString
  | String c s' =>
      match rstrip s' with
      | EmptyString => if is_space c then EmptyString else String c EmptyString
      | r => String c r
      end
  end.

Definition trim (s : string) : string := lstrip (rstrip s).

Definition parse (s : string) : decoded :=
  if existsb (String.eqb s) known_commands then Object (request s None)
  else JSONDecodeError "Expecting value: line 1 column 1 (char 0)".


(** Traces of the lookups on a machine that presents, and five input lines. *)
Definition lookup_trace : list event :=
  [Called (CGetCurrentComponent (Desktop 2)) None;
   Called (CGetPresentation (Document 3)) None;
   Called (CIsRunning (Presentation 5)) None;
   Called (CGetController (Presentation 5)) None].

Definition presentation_trace : list event :=
  [Called (CGetCurrentComponent (Desktop 2)) None;
   Called (CGetPresentation (Document 3)) None].

Definition service : list string := ["next"; ""; "   "; "{bad"; " get_status "].

End Fake.

End Impress.

(* ================================================================== *)
(** * Facts about the Python values and the monad *)
(* ================================================================== *)

Module PyFacts.
Import Py.
Local Open Scope py_scope.

Example hex_devtype : hex 10039 = "0x2737".
Proof. reflexivity. Qed.

Example hex_negative : hex (-255) = "-0xff".
Proof. reflexivity. Qed.

Example bytes_hex_sample : bytes_hex [x26; x00; xab; xff] = "2600abff".
Proof. reflexivity. Qed.

Example fromhex_mixed_case : fromhex "2600aBFf" = Some [x26; x00; xab; xff].
Proof. reflexivity. Qed.

Example fromhex_skips_spaces : fromhex " 26 00" = Some [x26; x00].
Proof. reflexivity. Qed.

Example fromhex_odd : fromhex "260" = None.
Proof. reflexivity. Qed.

Example fromhex_split_byte : fromhex "2 6" = None.
Proof. reflexivity. Qed.

Example lower_sample : lower "Rf" = "rf".
Proof. reflexivity. Qed.

Example mac_cleanup : remove_char "-" (remove_char ":" "a0:43-b0") = "a043b0".
Proof. reflexivity. Qed.

(** ** Hexadecimal digits *)

Lemma hexdigit_lower (n : N) : (n < 16)%N -> is_lower_hexdigit (hexdigit n) = true.
Proof.
  intros H.
  assert (Hn : exists k, (k < 16)%nat /\ n = N.of_nat k).
  { exists (N.to_nat n). split; [lia | now rewrite N2Nat.id]. }
  destruct Hn as (k & Hk & ->).
  do 16 (destruct k as [|k]; [reflexivity|]). lia.
Qed.

Lemma digit_value_hexdigit (n : N) : (n < 16)%N -> digit_value (hexdigit n) = Some n.
Proof.
  intros H.
  assert (Hn : exists k, (k < 16)%nat /\ n = N.of_nat k).
  { exists (N.to_nat n). split; [lia | now rewrite N2Nat.id]. }
  destruct Hn as (k & Hk & ->).
  do 16 (destruct k as [|k]; [reflexivity|]). lia.
Qed.

(** A character that lowers to a hexadecimal digit is no whitespace and has
    that digit's value. *)
Lemma digit_value_any_case (c : ascii) :
  is_lower_hexdigit (lower_ascii c) = true ->
  is_space c = false /\ digit_value c = digit_value (lower_ascii c).
Proof.
  destruct c as [[] [] [] [] [] [] [] []]; vm_compute; intros H;
    first [discriminate H | split; reflexivity].
Qed.

Lemma byte_nibbles (b : byte) :
  (Byte.to_N b / 16 < 16)%N /\ (Byte.to_N b mod 16 < 16)%N /\
  byte_of_nibbles (Byte.to_N b / 16) (Byte.to_N b mod 16) = b.
Proof. destruct b; vm_compute; repeat split. Qed.

Lemma lower_app (s t : string) : lower (s ++ t) = (lower s ++ lower t)%string.
Proof. induction s as [|c s IH]; simpl; [reflexivity | now rewrite IH]. Qed.

Lemma lower_hexdigit (n : N) : (n < 16)%N -> lower_ascii (hexdigit n) = hexdigit n.
Proof.
  intros H.
  assert (Hn : exists k, (k < 16)%nat /\ n = N.of_nat k).
  { exists (N.to_nat n). split; [lia | now rewrite N2Nat.id]. }
  destruct Hn as (k & Hk & ->).
  do 16 (destruct k as [|k]; [reflexivity|]). lia.
Qed.

Lemma bytes_hex_lowercase (bs : bytes) :
  all_chars is_lower_hexdigit (bytes_hex bs) = true /\
  lower (bytes_hex bs) = bytes_hex bs /\
  String.length (bytes_hex bs) = (2 * List.length bs)%nat.
Proof.
  induction bs as [|b bs (IH1 & IH2 & IH3)]; [repeat split|].
  destruct (byte_nibbles b) as (Ht & Hb & _).
  cbn [bytes_hex byte_hex String.append all_chars lower String.length List.length].
  rewrite !hexdigit_lower, !lower_hexdigit, IH1, IH2, IH3 by assumption.
  repeat split. lia.
Qed.

(** Reading back what [bytes.hex] wrote, in whatever case. *)
Lemma fromhex_hex_any_case (bs : bytes) (s : string) :
  lower s = bytes_hex bs -> fromhex s = Some bs.
Proof.
  revert s. induction bs as [|b bs IH]; intros s Hs.
  - destruct s; [reflexivity | discriminate Hs].
  - destruct (byte_nibbles b) as (Ht & Hb & Hbyte).
    cbn [bytes_hex byte_hex String.append] in Hs.
    destruct s as [|c1 [|c2 s]]; try discriminate Hs.
    cbn [lower] in Hs. injection Hs as H1 H2 Hrest.
    destruct (digit_value_any_case c1) as [Hsp1 Hd1];
      [rewrite H1; now apply hexdigit_lower|].
    destruct (digit_value_any_case c2) as [_ Hd2];
      [rewrite H2; now apply hexdigit_lower|].
    cbn [fromhex]. rewrite Hsp1, Hd1, Hd2, H1, H2.
    rewrite !digit_value_hexdigit by assumption.
    rewrite (IH s Hrest). cbn [option_map]. now rewrite Hbyte.
Qed.

(** ** Running computations *)

Section Run.
Context {W E : Type}.
Implicit Types (w : W) (t : list E).

Lemma run_bind {A B} (m : M W E A) (k : A -> M W E B) w :
  run (bind m k) w =
  match run m w with
  | (t1, w1, Ret a) => let '(t2, w2, o) := run (k a) w1 in (t1 ++ t2, w2, o)
  | (t1, w1, Raise e) => (t1, w1, Raise e)
  | (t1, w1, Exit c) => (t1, w1, Exit c)
  end.
Proof. reflexivity. Qed.

Lemma run_try_except {A} (m : M W E A) (h : exn -> M W E A) w :
  run (try_except m h) w =
  match run m w with
  | (t1, w1, Raise e) => let '(t2, w2, o) := run (h e) w1 in (t1 ++ t2, w2, o)
  | r => r
  end.
Proof. reflexivity. Qed.

Lemma run_bind_ret {A B} (m : M W E A) (k : A -> M W E B) w t1 w1 a :
  run m w = (t1, w1, Ret a) ->
  run (bind m k) w = let '(t2, w2, o) := run (k a) w1 in (t1 ++ t2, w2, o).
Proof. intros H. rewrite run_bind, H. reflexivity. Qed.

Lemma run_bind_inv {A B} (m : M W E A) (k : A -> M W E B) w t w' b :
  run (bind m k) w = (t, w', Ret b) ->
  exists t1 w1 a t2,
    run m w = (t1, w1, Ret a) /\ run (k a) w1 = (t2, w', Ret b) /\ t = t1 ++ t2.
Proof.
  rewrite run_bind. destruct (run m w) as [[t1 w1] [a|e|c]]; try discriminate.
  destruct (run (k a) w1) as [[t2 w2] o] eqn:Hk. intros H. injection H as <- <- ->.
  now exists t1, w1, a, t2.
Qed.

Lemma bind_assoc {A B C} (m : M W E A) (f : A -> M W E B) (g : B -> M W E C) w :
  run (bind (bind m f) g) w = run (bind m (fun a => bind (f a) g)) w.
Proof.
  unfold run, bind. destruct (m w) as [[t1 w1] [a|e|c]]; try reflexivity.
  destruct (f a w1) as [[t2 w2] [b|e|c]]; try reflexivity.
  destruct (g b w2) as [[t3 w3] o]. now rewrite app_assoc.
Qed.

Lemma run_invoke_ret {A} (ev : option exn -> E) (f : W -> result A * W) w t w' a :
  run (invoke ev f) w = (t, w', Ret a) -> f w = (inr a, w') /\ t = [ev None].
Proof.
  unfold run, invoke. destruct (f w) as [[e|a'] w1]; intros H; [discriminate|].
  injection H as <- <- <-. now split.
Qed.

Lemma run_invoke_trace {A} (ev : option exn -> E) (f : W -> result A * W) w t w' o :
  run (invoke ev f) w = (t, w', o) -> t = [ev (raised_of (fst (f w)))].
Proof.
  unfold run, invoke. destruct (f w) as [[e|a'] w1]; intros H; injection H as <- _ _; reflexivity.
Qed.

Lemma run_lift_ret {A} (r : result A) w t w' a :
  run (@lift W E A r) w = (t, w', Ret a) -> r = inr a /\ t = [] /\ w' = w.
Proof.
  destruct r as [e|a']; cbn; intros H; [discriminate|].
  injection H as <- <- <-. now repeat split.
Qed.

(** ** Computations that run alike, and the monad laws up to that *)

#[export] Instance equiv_equivalence {A} : Equivalence (@equiv W E A).
Proof.
  split.
  - intros m w. reflexivity.
  - intros m m' H w. symmetry. apply H.
  - intros m1 m2 m3 H1 H2 w. now rewrite H1, H2.
Qed.

#[export] Instance bind_proper {A B} :
  Proper (equiv ==> pointwise_relation A equiv ==> equiv) (@bind W E A B).
Proof.
  intros m m' Hm k k' Hk w. rewrite !run_bind, Hm.
  destruct (run m' w) as [[t1 w1] [a|e|c]]; try reflexivity.
  now rewrite (Hk a w1).
Qed.

#[export] Instance try_except_proper {A} :
  Proper (equiv ==> pointwise_relation exn equiv ==> equiv) (@try_except W E A).
Proof.
  intros m m' Hm h h' Hh w. rewrite !run_try_except, Hm.
  destruct (run m' w) as [[t1 w1] [a|e|c]]; try reflexivity.
  now rewrite (Hh e w1).
Qed.

Lemma bind_bind {A B C} (m : M W E A) (f : A -> M W E B) (g : B -> M W E C) :
  equiv (bind (bind m f) g) (bind m (fun a => bind (f a) g)).
Proof. intros w. apply bind_assoc. Qed.

Lemma ret_bind {A B} (a : A) (k : A -> M W E B) : equiv (bind (ret a) k) (k a).
Proof.
  intros w. unfold run, bind, ret. now destruct (k a w) as [[t2 w2] o].
Qed.

(** ** Computations all of whose events satisfy a test *)

Lemma emits_ret (P : E -> bool) {A} (a : A) : emits P (@ret W E A a).
Proof. intros w. reflexivity. Qed.

Lemma emits_raise (P : E -> bool) {A} (e : exn) : emits P (@raise W E A e).
Proof. intros w. reflexivity. Qed.

Lemma emits_sys_exit (P : E -> bool) {A} (c : Z) : emits P (@sys_exit W E A c).
Proof. intros w. reflexivity. Qed.

Lemma emits_lift (P : E -> bool) {A} (r : result A) : emits P (@lift W E A r).
Proof. destruct r; [apply emits_raise | apply emits_ret]. Qed.

Lemma emits_emit (P : E -> bool) (e : E) : P e = true -> emits P (@emit W E e).
Proof. intros H w. cbn. now rewrite H. Qed.

Lemma emits_invoke (P : E -> bool) {A} (ev : option exn -> E) (f : W -> result A * W) :
  (forall r, P (ev r) = true) -> emits P (@invoke W E A ev f).
Proof.
  intros H w. unfold run, invoke. destruct (f w) as [[e|a] w1]; cbn; now rewrite H.
Qed.

Lemma emits_bind (P : E -> bool) {A B} (m : M W E A) (k : A -> M W E B) :
  emits P m -> (forall a, emits P (k a)) -> emits P (bind m k).
Proof.
  intros Hm Hk w. specialize (Hm w). rewrite run_bind.
  destruct (run m w) as [[t1 w1] [a|e|c]]; cbn in *; try assumption.
  specialize (Hk a w1). destruct (run (k a) w1) as [[t2 w2] o]. cbn in *.
  now rewrite forallb_app, Hm, Hk.
Qed.

Lemma emits_try_except (P : E -> bool) {A} (m : M W E A) (h : exn -> M W E A) :
  emits P m -> (forall e, emits P (h e)) -> emits P (try_except m h).
Proof.
  intros Hm Hh w. specialize (Hm w). rewrite run_try_except.
  destruct (run m w) as [[t1 w1] [a|e|c]]; cbn in *; try assumption.
  specialize (Hh e w1). destruct (run (h e) w1) as [[t2 w2] o]. cbn in *.
  now rewrite forallb_app, Hm, Hh.
Qed.

End Run.

Create HintDb emits.

#[export] Hint Resolve emits_ret emits_raise emits_sys_exit emits_lift emits_emit
  emits_invoke emits_bind emits_try_except : emits.

End PyFacts.

(* ================================================================== *)
(** * The Broadlink bridge: properties *)
(* ================================================================== *)

Module BroadlinkFacts.
Import Py PyFacts Broadlink.
Local Open Scope py_scope.

Lemma printed_app (a b : list event) : printed (a ++ b) = printed a ++ printed b.
Proof. apply flat_map_app. Qed.

Lemma calls_app (a b : list event) : calls (a ++ b) = calls a ++ calls b.
Proof. apply flat_map_app. Qed.

Lemma count_calls_app (p : call -> bool) (a b : list event) :
  count_calls p (a ++ b) = (count_calls p a + count_calls p b)%nat.
Proof. unfold count_calls. now rewrite calls_app, filter_app, length_app. Qed.

Lemma auth_attempts_app (a b : list event) :
  auth_attempts (a ++ b) = auth_attempts a ++ auth_attempts b.
Proof. apply flat_map_app. Qed.

Lemma authenticated_app (a b : list event) :
  authenticated (a ++ b) = authenticated a ++ authenticated b.
Proof. apply flat_map_app. Qed.

Section Loops.
Context {W : Type} {EP : Endpoint W}.
Implicit Types (w : W) (d : device) (t : list event).

(** ** One round of the capture loop, by what the endpoint answers *)

Lemma capture_poll_not_ready d w e w' :
  device_check_data d w = (inl e, w') -> not_ready e = true ->
  run (capture_poll d) w = ([Slept 1; Called (CCheckData d) (Some e)], w', Ret false).
Proof.
  intros H Hn.
  unfold run, capture_poll, bind, try_except, sleep, emit, check_data, invoke.
  rewrite H. cbn. rewrite Hn. reflexivity.
Qed.

Lemma capture_poll_empty d w w' :
  device_check_data d w = (inr [], w') ->
  run (capture_poll d) w = ([Slept 1; Called (CCheckData d) None], w', Ret false).
Proof.
  intros H.
  unfold run, capture_poll, bind, try_except, sleep, emit, check_data, invoke.
  rewrite H. reflexivity.
Qed.

Lemma capture_poll_data d w data w' :
  device_check_data d w = (inr data, w') -> data <> [] ->
  run (capture_poll d) w =
  ([Slept 1; Called (CCheckData d) None; Printed (code_response data)], w', Ret true).
Proof.
  intros H Hd. destruct data as [|b bs]; [congruence|].
  unfold run, capture_poll, bind, try_except, sleep, emit, check_data, invoke.
  rewrite H. reflexivity.
Qed.

Lemma capture_poll_error d w e w' :
  device_check_data d w = (inl e, w') -> not_ready e = false ->
  run (capture_poll d) w = ([Slept 1; Called (CCheckData d) (Some e)], w', Raise e).
Proof.
  intros H Hn.
  unfold run, capture_poll, bind, try_except, sleep, emit, check_data, invoke.
  rewrite H. cbn. rewrite Hn. reflexivity.
Qed.

Lemma not_ready_polls_idle k d w w' :
  not_ready_polls k d w = Some w' -> idle_polls k d w = Some w'.
Proof.
  revert w. induction k as [|k IH]; intros w; cbn; [trivial|].
  destruct (device_check_data d w) as [[e|data] w1]; [|discriminate].
  destruct (not_ready e); [apply IH | discriminate].
Qed.

(** [k] idle polls are [k] rounds of the loop that print nothing. *)
Lemma capture_loop_idle k d w w' :
  idle_polls k d w = Some w' ->
  exists tk,
    printed tk = [] /\ count_calls is_check_data tk = k /\
    forall n, run (capture_loop (k + n) d) w =
              let '(t, w2, o) := run (capture_loop n d) w' in (tk ++ t, w2, o).
Proof.
  revert w. induction k as [|k IH]; intros w Hk.
  - injection Hk as <-. exists []. repeat split.
    intros n. cbn [Nat.add]. destruct (run (capture_loop n d) w) as [[t w2] o]. reflexivity.
  - cbn in Hk.
    assert (Hpoll : exists ev w1,
               run (capture_poll d) w = ([Slept 1; Called (CCheckData d) ev], w1, Ret false)
               /\ idle_polls k d w1 = Some w').
    { destruct (device_check_data d w) as [[e|[|b bs]] w1] eqn:Hc.
      - destruct (not_ready e) eqn:Hn; [|discriminate].
        exists (Some e), w1. split; [now apply capture_poll_not_ready | exact Hk].
      - exists None, w1. split; [now apply capture_poll_empty | exact Hk].
      - discriminate. }
    destruct Hpoll as (ev & w1 & Hrun & Hrest).
    destruct (IH w1 Hrest) as (tk & Hp & Hc & Hloop).
    exists ([Slept 1; Called (CCheckData d) ev] ++ tk). split; [|split].
    + rewrite printed_app, Hp. reflexivity.
    + rewrite count_calls_app, Hc. reflexivity.
    + intros n. cbn [Nat.add capture_loop].
      rewrite (run_bind_ret _ _ _ _ _ _ Hrun). cbn iota.
      rewrite (Hloop n). destruct (run (capture_loop n d) w') as [[t w2] o].
      now rewrite app_assoc.
Qed.

Lemma capture_loop_captures n k d w w2 data w3 :
  (k < n)%nat -> idle_polls k d w = Some w2 ->
  device_check_data d w2 = (inr data, w3) -> data <> [] ->
  exists t, run (capture_loop n d) w = (t, w3, Ret true) /\
            printed t = [code_response data] /\ count_calls is_check_data t = S k.
Proof.
  intros Hlt Hidle Hdata Hne.
  destruct (capture_loop_idle _ _ _ _ Hidle) as (tk & Hp & Hc & Hloop).
  replace n with (k + S (n - S k))%nat by lia.
  rewrite Hloop. cbn [capture_loop].
  rewrite (run_bind_ret _ _ _ _ _ _ (capture_poll_data _ _ _ _ Hdata Hne)). cbn.
  eexists. split; [reflexivity|]. split.
  - rewrite printed_app, Hp. reflexivity.
  - rewrite count_calls_app, Hc. cbn. lia.
Qed.

Lemma capture_loop_times_out n d w w2 :
  idle_polls n d w = Some w2 ->
  exists t, run (capture_loop n d) w = (t, w2, Ret false) /\
            printed t = [] /\ count_calls is_check_data t = n.
Proof.
  intros Hidle.
  destruct (capture_loop_idle _ _ _ _ Hidle) as (tk & Hp & Hc & Hloop).
  specialize (Hloop O). rewrite Nat.add_0_r in Hloop. rewrite Hloop. cbn.
  exists (tk ++ []). rewrite app_nil_r. now repeat split.
Qed.

Lemma capture_loop_aborts n k d w w2 e w3 :
  (k < n)%nat -> idle_polls k d w = Some w2 ->
  device_check_data d w2 = (inl e, w3) -> not_ready e = false ->
  exists t, run (capture_loop n d) w = (t ++ [Slept 1; Called (CCheckData d) (Some e)], w3, Raise e) /\
            printed t = [] /\ count_calls is_check_data t = k.
Proof.
  intros Hlt Hidle Herr Hn.
  destruct (capture_loop_idle _ _ _ _ Hidle) as (tk & Hp & Hc & Hloop).
  replace n with (k + S (n - S k))%nat by lia.
  rewrite Hloop. cbn [capture_loop].
  rewrite run_bind, (capture_poll_error _ _ _ _ Herr Hn).
  exists tk. now repeat split.
Qed.

(** ** [learn] from its capture loop on *)

Lemma learn_from_capture host mac devtype signal_type w :
  run (learn host mac devtype signal_type) w =
  run (try_except
         (d <- capture_start host mac devtype signal_type ;;
          returned <- capture_loop 30 d ;;
          if returned then ret tt
          else print (error_response (timeout_message signal_type)) ;; sys_exit 1)
         failure) w.
Proof.
  unfold learn, capture_start, timeout_message, failure.
  generalize 30%nat. intros n. revert w.
  match goal with |- forall w, run ?a w = run ?b w => change (equiv a b) end.
  apply try_except_proper; [|reflexivity].
  destruct (is_rf signal_type); repeat (setoid_rewrite bind_bind || setoid_rewrite ret_bind);
    reflexivity.
Qed.

Lemma learn_from_seek host mac devtype signal_type w :
  is_rf signal_type = true ->
  run (learn host mac devtype signal_type) w =
  run (try_except
         (d <- seek_start host mac devtype ;;
          found <- seek_loop 30 d ;;
          (if negb found then
             print (error_response "No RF frequency found") ;;
             cancel_sweep_frequency d ;;
             sys_exit 1
           else ret tt) ;;
          find_rf_packet d ;;
          returned <- capture_loop 30 d ;;
          if returned then ret tt
          else print (error_response "RF learning timeout") ;; sys_exit 1)
         failure) w.
Proof.
  intros Hrf. unfold learn, seek_start, failure. rewrite Hrf.
  generalize 30%nat. intros n. revert w.
  match goal with |- forall w, run ?a w = run ?b w => change (equiv a b) end.
  apply try_except_proper; [|reflexivity].
  repeat (setoid_rewrite bind_bind || setoid_rewrite ret_bind); reflexivity.
Qed.

(** ** Traces without output, capture polls or cancellations *)

Lemma quiet_nil : quiet [].
Proof. now split. Qed.

Lemma quiet_app t1 t2 : quiet t1 -> quiet t2 -> quiet (t1 ++ t2).
Proof.
  intros [Hp1 Hc1] [Hp2 Hc2]. split.
  - now rewrite printed_app, Hp1, Hp2.
  - now rewrite calls_app, forallb_app, Hc1, Hc2.
Qed.

Lemma quiet_called c r : quiet_call c = true -> quiet [Called c r].
Proof. intros H. split; cbn; [reflexivity | now rewrite H]. Qed.

Lemma quiet_slept n : quiet [Slept n].
Proof. now split. Qed.

Lemma quiet_counts t :
  quiet t ->
  printed t = [] /\ count_calls is_check_data t = O /\ count_calls is_cancel_sweep t = O.
Proof.
  intros [Hp Hc]. split; [exact Hp|]. unfold count_calls.
  induction (calls t) as [|c cs IH]; [now split|].
  cbn in Hc. apply andb_prop in Hc as [Hq Hcs]. destruct (IH Hcs) as [IH1 IH2].
  unfold quiet_call in Hq. apply andb_prop in Hq as [H1 H2].
  cbn. destruct (is_check_data c), (is_cancel_sweep c); try discriminate. now split.
Qed.

Lemma seek_loop_quiet n d w t w' o :
  run (seek_loop n d) w = (t, w', o) -> quiet t.
Proof.
  revert w t w' o. induction n as [|n IH]; intros w t w' o; cbn [seek_loop].
  - intros H. injection H as <- _ _. apply quiet_nil.
  - unfold run, bind, sleep, emit, check_frequency, invoke.
    destruct (device_check_frequency d w) as [[e|[|]] w1]; cbn.
    + intros H. injection H as <- _ _.
      apply (quiet_app [_] [_]); [apply quiet_slept | now apply quiet_called].
    + intros H. injection H as <- _ _.
      apply (quiet_app [_] [_]); [apply quiet_slept | now apply quiet_called].
    + destruct (seek_loop n d w1) as [[t1 w2] o1] eqn:Hrest. intros H. injection H as <- _ _.
      apply (quiet_app [_] (_ :: _)); [apply quiet_slept|].
      apply (quiet_app [_] t1); [now apply quiet_called | now apply (IH w1 t1 w2 o1)].
Qed.

Lemma seek_loop_never_found n d w w' :
  no_frequency_polls n d w = Some w' ->
  run (seek_loop n d) w = (seek_rounds n d, w', Ret false).
Proof.
  revert w. induction n as [|n IH]; intros w; cbn [no_frequency_polls seek_loop seek_rounds].
  - intros H. now injection H as <-.
  - unfold run, bind, sleep, emit, check_frequency, invoke.
    destruct (device_check_frequency d w) as [[e|[|]] w1]; try discriminate.
    intros H. apply IH in H. unfold run in H. cbn. now rewrite H.
Qed.

Lemma create_device_quiet host mac devtype w t w' d :
  run (create_device host mac devtype) w = (t, w', Ret d) -> quiet t.
Proof.
  unfold create_device. intros H.
  apply run_bind_inv in H as (t1 & w1 & dt & t2 & H1 & H & ->).
  apply run_lift_ret in H1 as (_ & -> & ->).
  apply run_bind_inv in H as (t1 & w2 & mb & t3 & H1 & H & ->).
  apply run_lift_ret in H1 as (_ & -> & ->).
  apply run_invoke_ret in H as (_ & ->). now apply quiet_called.
Qed.

Lemma seek_start_quiet host mac devtype w t w' d :
  run (seek_start host mac devtype) w = (t, w', Ret d) -> quiet t.
Proof.
  unfold seek_start. intros H.
  apply run_bind_inv in H as (t1 & w1 & d1 & t2 & H1 & H & ->).
  apply create_device_quiet in H1.
  apply run_bind_inv in H as (t3 & w2 & [] & t4 & H2 & H & ->).
  apply run_invoke_ret in H2 as (_ & ->).
  apply run_bind_inv in H as (t5 & w3 & [] & t6 & H3 & H & ->).
  apply run_invoke_ret in H3 as (_ & ->).
  injection H as <- _ _.
  repeat apply quiet_app; try assumption; try apply quiet_nil; now apply quiet_called.
Qed.

Lemma capture_start_quiet host mac devtype signal_type w t w' d :
  run (capture_start host mac devtype signal_type) w = (t, w', Ret d) -> quiet t.
Proof.
  unfold capture_start. intros H.
  apply run_bind_inv in H as (t1 & w1 & d1 & t2 & H1 & H & ->).
  apply create_device_quiet in H1.
  apply run_bind_inv in H as (t3 & w2 & [] & t4 & H2 & H & ->).
  apply run_invoke_ret in H2 as (_ & ->).
  apply run_bind_inv in H as (t5 & w3 & [] & t6 & H3 & H & ->).
  injection H as <- _ _.
  apply quiet_app; [assumption|].
  apply quiet_app; [now apply quiet_called|].
  apply quiet_app; [|apply quiet_nil].
  destruct (is_rf signal_type).
  - apply run_bind_inv in H3 as (t7 & w4 & [] & t8 & H4 & H3 & ->).
    apply run_invoke_ret in H4 as (_ & ->).
    apply run_bind_inv in H3 as (t9 & w5 & found & t10 & H5 & H3 & ->).
    apply seek_loop_quiet in H5.
    apply run_bind_inv in H3 as (t11 & w6 & [] & t12 & H6 & H3 & ->).
    apply run_invoke_ret in H3 as (_ & ->).
    assert (Hq : quiet t11).
    { destruct found; cbn [negb] in H6.
      - injection H6 as <- _. apply quiet_nil.
      - unfold run, bind, print, emit, cancel_sweep_frequency, invoke in H6.
        destruct (device_cancel_sweep_frequency d1 w5) as [[e|[]] w7]; discriminate H6. }
    repeat apply quiet_app; try assumption; now apply quiet_called.
  - apply run_invoke_ret in H3 as (_ & ->). now apply quiet_called.
Qed.

End Loops.

(** ** The learn command *)

Section Learn.
Context {W : Type} {EP : Endpoint W}.
Implicit Types (w : W) (d : device) (t : list event).

(** C2.  Once [learn] has reached its capture loop (infrared or radio
    frequency) with device [d]: if the endpoint raises a recognised not-ready
    error on the first [N-1] polls, [1 <= N <= 30], and hands out a non-empty
    payload on poll [N], the command prints exactly [{"code": <lowercase hex of
    that payload>}] after [N] polls and returns normally; if all 30 polls raise
    a recognised not-ready error, the command prints only
    [{"error": "IR learning timeout"}] (for rf, [{"error": "RF learning
    timeout"}]) and exits with status 1. *)
Theorem learn_capture_poll_loop host mac devtype signal_type w0 t0 d w1 :
  run (capture_start host mac devtype signal_type) w0 = (t0, w1, Ret d) ->
  (forall N payload w2 w3,
      (1 <= N <= 30)%nat ->
      not_ready_polls (N - 1) d w1 = Some w2 ->
      device_check_data d w2 = (inr payload, w3) ->
      payload <> [] ->
      exists t,
        run (learn host mac devtype signal_type) w0 = (t, w3, Ret tt) /\
        printed t = [JObj [("code", JStr (bytes_hex payload))]] /\
        count_calls is_check_data t = N)
  /\
  (forall w2,
      not_ready_polls 30 d w1 = Some w2 ->
      exists t,
        run (learn host mac devtype signal_type) w0 = (t, w2, Exit 1) /\
        (lower signal_type = "rf" ->
         printed t = [JObj [("error", JStr "RF learning timeout")]]) /\
        (lower signal_type <> "rf" ->
         printed t = [JObj [("error", JStr "IR learning timeout")]]) /\
        count_calls is_check_data t = 30%nat /\
        exit_status (snd (run (learn host mac devtype signal_type) w0)) <> 0%Z).
Proof.
  intros Hstart.
  destruct (quiet_counts _ (capture_start_quiet _ _ _ _ _ _ _ _ Hstart)) as (Hp0 & Hc0 & _).
  split.
  - intros N payload w2 w3 HN Hpolls Hdata Hne.
    apply not_ready_polls_idle in Hpolls.
    destruct (capture_loop_captures 30 (N - 1) d w1 w2 payload w3) as (t & Hrun & Hp & Hc);
      [lia | assumption | assumption | assumption |].
    exists (t0 ++ t ++ []). split; [|split].
    + rewrite learn_from_capture, run_try_except, (run_bind_ret _ _ _ _ _ _ Hstart).
      rewrite (run_bind_ret _ _ _ _ _ _ Hrun). reflexivity.
    + rewrite app_nil_r, printed_app, Hp0, Hp. reflexivity.
    + rewrite app_nil_r, count_calls_app, Hc0, Hc. lia.
  - intros w2 Hpolls.
    apply not_ready_polls_idle in Hpolls.
    destruct (capture_loop_times_out 30 d w1 w2 Hpolls) as (t & Hrun & Hp & Hc).
    assert (Hlearn : run (learn host mac devtype signal_type) w0 =
                     (t0 ++ t ++ [Printed (error_response (timeout_message signal_type))],
                      w2, Exit 1)).
    { rewrite learn_from_capture, run_try_except, (run_bind_ret _ _ _ _ _ _ Hstart).
      rewrite (run_bind_ret _ _ _ _ _ _ Hrun). reflexivity. }
    eexists. split; [exact Hlearn|]. split; [|split; [|split]].
    + intros Hrf. rewrite !printed_app, Hp0, Hp.
      unfold timeout_message, is_rf. rewrite Hrf. reflexivity.
    + intros Hir. rewrite !printed_app, Hp0, Hp.
      unfold timeout_message, is_rf. apply String.eqb_neq in Hir. rewrite Hir. reflexivity.
    + rewrite !count_calls_app, Hc0, Hc. cbn. lia.
    + rewrite Hlearn. cbn. discriminate.
Qed.

(** C4.  Once [learn] has reached its capture loop with device [d]: if the
    first [k < 30] polls let the loop go on and the next poll raises an error
    that is neither [StorageError] nor [ReadError], that poll is the last
    event before the response [{"error": str(e)}], the error's own text, and
    the command exits with status 1 after [k + 1] polls. *)
Theorem learn_poll_error_aborts host mac devtype signal_type w0 t0 d w1 k e w2 w3 :
  run (capture_start host mac devtype signal_type) w0 = (t0, w1, Ret d) ->
  (k < 30)%nat ->
  idle_polls k d w1 = Some w2 ->
  device_check_data d w2 = (inl e, w3) ->
  exn_class_of e <> StorageError ->
  exn_class_of e <> ReadError ->
  exists t,
    run (learn host mac devtype signal_type) w0 =
      (t ++ [Slept 1; Called (CCheckData d) (Some e);
             Printed (JObj [("error", JStr (str e))])],
       w3, Exit 1) /\
    printed t = [] /\
    count_calls is_check_data t = k.
Proof.
  intros Hstart Hk Hidle Herr Hs Hr.
  assert (Hn : not_ready e = false).
  { unfold not_ready. destruct (exn_class_of e); congruence. }
  destruct (quiet_counts _ (capture_start_quiet _ _ _ _ _ _ _ _ Hstart)) as (Hp0 & Hc0 & _).
  destruct (capture_loop_aborts 30 k d w1 w2 e w3 Hk Hidle Herr Hn) as (t & Hrun & Hp & Hc).
  exists (t0 ++ t). split; [|split].
  - rewrite learn_from_capture, run_try_except, (run_bind_ret _ _ _ _ _ _ Hstart).
    rewrite run_bind, Hrun. cbn. now rewrite <- !app_assoc.
  - rewrite printed_app, Hp0, Hp. reflexivity.
  - rewrite count_calls_app, Hc0, Hc. reflexivity.
Qed.

(** C1, as the code has it.  For an rf [learn] that reached its frequency
    loop with device [d]: if [check_frequency] answers false 30 times, the
    command prints the frequency-timeout error first, then calls
    [cancel_sweep_frequency] (once in the whole run), and exits with status 1;
    nothing was printed and nothing cancelled before. *)
Theorem learn_rf_frequency_timeout host mac devtype signal_type w0 t0 d w1 w2 r w3 :
  is_rf signal_type = true ->
  run (seek_start host mac devtype) w0 = (t0, w1, Ret d) ->
  no_frequency_polls 30 d w1 = Some w2 ->
  device_cancel_sweep_frequency d w2 = (r, w3) ->
  exists t_end,
    run (learn host mac devtype signal_type) w0 =
      (t0 ++ seek_rounds 30 d
          ++ [Printed (error_response "No RF frequency found");
              Called (CCancelSweepFrequency d) (raised_of r)]
          ++ t_end,
       w3, Exit 1) /\
    printed t0 = [] /\ count_calls is_cancel_sweep t0 = O /\
    count_calls is_cancel_sweep t_end = O /\
    count_calls is_cancel_sweep (fst (fst (run (learn host mac devtype signal_type) w0))) = 1%nat.
Proof.
  intros Hrf Hstart Hseek Hcancel.
  destruct (quiet_counts _ (seek_start_quiet _ _ _ _ _ _ _ Hstart)) as (Hp0 & _ & Hc0).
  apply seek_loop_never_found in Hseek.
  destruct (quiet_counts _ (seek_loop_quiet _ _ _ _ _ _ Hseek)) as (_ & _ & Hc1).
  exists (match r with inl e => [Printed (error_response (str e))] | inr _ => [] end).
  assert (Hlearn : run (learn host mac devtype signal_type) w0 =
    (t0 ++ seek_rounds 30 d
        ++ [Printed (error_response "No RF frequency found");
            Called (CCancelSweepFrequency d) (raised_of r)]
        ++ match r with inl e => [Printed (error_response (str e))] | inr _ => [] end,
     w3, Exit 1)).
  { rewrite (learn_from_seek _ _ _ _ _ Hrf), run_try_except.
    rewrite (run_bind_ret _ _ _ _ _ _ Hstart), (run_bind_ret _ _ _ _ _ _ Hseek).
    cbn [negb]. unfold run, bind, print, emit, cancel_sweep_frequency, invoke, failure.
    rewrite Hcancel. destruct r as [e|[]]; cbn; rewrite <- ?app_assoc; reflexivity. }
  split; [exact Hlearn|]. repeat split; try assumption.
  - now destruct r.
  - rewrite Hlearn. cbn [fst]. rewrite !count_calls_app, Hc0, Hc1. now destruct r.
Qed.

(** What a round of the capture loop that ended normally has done. *)
Lemma capture_poll_ret d w t w' (returned : bool) :
  run (capture_poll d) w = (t, w', Ret returned) ->
  if returned
  then exists data, data <> [] /\ device_check_data d w = (inr data, w') /\
                    printed t = [code_response data]
  else printed t = [].
Proof.
  unfold run, capture_poll, bind, try_except, sleep, emit, check_data, invoke.
  destruct (device_check_data d w) as [[e|[|b bs]] w1]; cbn.
  - destruct (not_ready e); cbn; intros H; [|discriminate]. now injection H as <- _ <-.
  - intros H. now injection H as <- _ <-.
  - intros H. injection H as <- <- <-. exists (b :: bs). now repeat split.
Qed.

Lemma capture_loop_ret n d w t w' (returned : bool) :
  run (capture_loop n d) w = (t, w', Ret returned) ->
  if returned
  then exists data w1, data <> [] /\ device_check_data d w1 = (inr data, w') /\
                       printed t = [code_response data]
  else printed t = [].
Proof.
  revert w t. induction n as [|n IH]; intros w t; cbn [capture_loop].
  - intros H. now injection H as <- _ <-.
  - intros H. apply run_bind_inv in H as (t1 & w1 & r1 & t2 & H1 & H & ->).
    apply capture_poll_ret in H1. destruct r1.
    + injection H as <- <- <-. destruct H1 as (data & Hne & Hdata & Hp).
      exists data, w. rewrite app_nil_r. now repeat split.
    + apply IH in H. rewrite printed_app, H1. exact H.
Qed.

(** A [learn] that returned normally printed one captured payload. *)
Lemma learn_ret host mac devtype signal_type w t w' :
  run (learn host mac devtype signal_type) w = (t, w', Ret tt) ->
  exists d w1 data,
    data <> [] /\ device_check_data d w1 = (inr data, w') /\ printed t = [code_response data].
Proof.
  rewrite learn_from_capture, run_try_except.
  match goal with |- context [run ?body w] => destruct (run body w) as [[tb wb] [[]|e|c]] eqn:Hbody end;
    [ | cbn; discriminate | discriminate ].
  intros H. injection H as <- <-.
  apply run_bind_inv in Hbody as (t0 & w0 & d & t1 & Hstart & Hbody & ->).
  apply run_bind_inv in Hbody as (t2 & w2 & returned & t3 & Hloop & Hbody & ->).
  destruct (quiet_counts _ (capture_start_quiet _ _ _ _ _ _ _ _ Hstart)) as (Hp0 & _).
  apply capture_loop_ret in Hloop. destruct returned; [|discriminate Hbody].
  injection Hbody as <- <-. destruct Hloop as (data & w1 & Hne & Hdata & Hp).
  exists d, w1, data. rewrite app_nil_r, printed_app, Hp0, Hp. now repeat split.
Qed.

Lemma send_from_session host mac devtype code w :
  run (send host mac devtype code) w =
  run (try_except
         (d <- session host mac devtype ;;
          code_bytes <- lift (bytes_fromhex code) ;;
          send_data d code_bytes ;;
          print (JObj [("success", JBool true)]))
         (fun e => print (JObj [("success", JBool false); ("error", JStr (str e))]) ;;
                   sys_exit 1)) w.
Proof.
  unfold send, session. revert w.
  match goal with |- forall w, run ?a w = run ?b w => change (equiv a b) end.
  apply try_except_proper; [|reflexivity].
  repeat (setoid_rewrite bind_bind || setoid_rewrite ret_bind); reflexivity.
Qed.

(** C5.  What a [learn] that returned normally printed is [{"code": h}] with
    [h] the lowercase hexadecimal text, two digits a byte, of the payload the
    endpoint handed out; and for every byte sequence [bs], a [send] whose code
    argument is that text in any letter case decodes it to [bs] again and
    passes exactly [bs] to [send_data]. *)
Theorem learn_hex_send_roundtrip :
  (forall host mac devtype signal_type w t w',
      run (learn host mac devtype signal_type) w = (t, w', Ret tt) ->
      exists d w1 data,
        device_check_data d w1 = (inr data, w') /\
        printed t = [JObj [("code", JStr (bytes_hex data))]])
  /\
  (forall bs : bytes,
      all_chars is_lower_hexdigit (bytes_hex bs) = true /\
      String.length (bytes_hex bs) = (2 * List.length bs)%nat)
  /\
  (forall (bs : bytes) (code : string),
      lower code = bytes_hex bs ->
      fromhex code = Some bs /\
      forall host mac devtype w0 t0 w1 d r w2,
        run (session host mac devtype) w0 = (t0, w1, Ret d) ->
        device_send_data d bs w1 = (r, w2) ->
        calls (fst (fst (run (send host mac devtype code) w0)))
        = calls t0 ++ [CSendData d bs]).
Proof.
  split; [|split].
  - intros host mac devtype signal_type w t w' H.
    destruct (learn_ret _ _ _ _ _ _ _ H) as (d & w1 & data & _ & Hdata & Hp).
    now exists d, w1, data.
  - intros bs. destruct (bytes_hex_lowercase bs) as (H1 & _ & H3). now split.
  - intros bs code Hcode. pose proof (fromhex_hex_any_case bs code Hcode) as Hfrom.
    split; [exact Hfrom|].
    intros host mac devtype w0 t0 w1 d r w2 Hsession Hsend.
    rewrite send_from_session, run_try_except, (run_bind_ret _ _ _ _ _ _ Hsession).
    unfold bytes_fromhex. rewrite Hfrom.
    unfold run, bind, lift, ret, send_data, invoke, print, emit, sys_exit. rewrite Hsend.
    destruct r as [e|[]]; cbn; rewrite !calls_app; cbn; now rewrite ?app_nil_r.
Qed.

End Learn.

(** ** The test command *)

Section Test.
Context {W : Type} {EP : Endpoint W}.
Implicit Types (w : W) (d : device) (t : list event).

Lemma create_device_outcome host mac devtype w :
  (exists t w' d, run (create_device host mac devtype) w = (t, w', Ret d)) \/
  (exists t w' e, run (create_device host mac devtype) w = (t, w', Raise e)).
Proof.
  unfold run, create_device, bind, lift, gendevice, invoke, raise, ret.
  destruct (if startswith devtype "0x" then int devtype 16 else int devtype 10) as [e|dt];
    [right; now eexists _, _, _|].
  destruct (mac_str_to_bytes mac) as [e|mb]; [right; now eexists _, _, _|].
  cbn. destruct (broadlink_gendevice dt (host, 80%Z) mb w) as [[e|d] w1];
    [right | left]; now eexists _, _, _.
Qed.

Ltac one_response :=
  first [ left; reflexivity
        | right; left; reflexivity
        | right; right; eexists; reflexivity ].

(** C6.  [test] always returns normally, whatever the endpoint does, having
    printed one of [{"online": true}], [{"online": false}] and
    [{"online": false, "error": msg}].  When the handshake ([auth], on the
    device with its timeout set to 5) raises [e], the response is exactly
    [{"online": false}] if [e] is a socket timeout, and
    [{"online": false, "error": str(e)}] otherwise. *)
Theorem test_handshake_responses host mac devtype w0 :
  (exists t w',
      run (test host mac devtype) w0 = (t, w', Ret tt) /\
      exit_status (snd (run (test host mac devtype) w0)) = 0%Z /\
      (printed t = [JObj [("online", JBool true)]] \/
       printed t = [offline] \/
       exists msg, printed t = [offline_with msg]))
  /\
  (forall t0 w1 d e w2,
      run (create_device host mac devtype) w0 = (t0, w1, Ret d) ->
      device_auth (set_timeout d 5) w1 = (inl e, w2) ->
      run (test host mac devtype) w0 =
        (t0 ++ [Called (CAuth (set_timeout d 5)) (Some e);
                Printed (match exn_class_of e with
                         | SocketTimeout => offline
                         | _ => offline_with (str e)
                         end)],
         w2, Ret tt)).
Proof.
  split.
  - destruct (create_device_outcome host mac devtype w0)
      as [(t0 & w1 & d & Hc) | (t0 & w1 & e & Hc)].
    + destruct (quiet_counts _ (create_device_quiet _ _ _ _ _ _ _ Hc)) as (Hp0 & _).
      unfold run, test, try_except, bind in *. rewrite Hc.
      unfold auth, invoke, print, emit.
      destruct (device_auth (set_timeout d 5) w1) as [[e|[]] w2]; cbn.
      * destruct (exn_class_of e); cbn; eexists _, _;
          (split; [reflexivity|]; split; [reflexivity|]);
          rewrite !printed_app, Hp0; cbn; one_response.
      * eexists _, _. split; [reflexivity|]. split; [reflexivity|].
        rewrite !printed_app, Hp0; cbn; one_response.
    + assert (Hp0 : printed t0 = []).
      { revert Hc. unfold run, create_device, bind, lift, gendevice, invoke, raise, ret.
        destruct (if startswith devtype "0x" then int devtype 16 else int devtype 10) as [e1|dt];
          [intros H; now injection H as <- _ _|].
        destruct (mac_str_to_bytes mac) as [e2|mb]; [intros H; now injection H as <- _ _|].
        cbn. destruct (broadlink_gendevice dt (host, 80%Z) mb w0) as [[e3|d] w2];
          intros H; [now injection H as <- _ _ | discriminate H]. }
      unfold run, test, try_except, bind in *. rewrite Hc.
      unfold print, emit.
      destruct (exn_class_of e); cbn; eexists _, _;
        (split; [reflexivity|]; split; [reflexivity|]);
        rewrite !printed_app, Hp0; cbn; one_response.
  - intros t0 w1 d e w2 Hc Hauth.
    unfold run, test, try_except, bind in *. rewrite Hc.
    unfold auth, invoke, print, emit. rewrite Hauth.
    destruct (exn_class_of e); cbn; now rewrite <- !app_assoc.
Qed.

End Test.

(** ** The discover command *)

Section Discover.
Context {W : Type} {EP : Endpoint W}.
Implicit Types (w : W) (d : device) (t : list event).

Lemma discover_loop_run devices : forall result w,
  exists t w',
    run (discover_loop devices result) w
    = (t, w', Ret (result ++ map device_entry (authenticated t))) /\
    auth_attempts t = devices /\ printed t = [].
Proof.
  induction devices as [|d rest IH]; intros result w.
  - exists [], w. cbn. now rewrite app_nil_r.
  - cbn [discover_loop]. unfold run, bind, try_except, auth, invoke.
    destruct (device_auth d w) as [[e|[]] w1]; cbn.
    + destruct (IH result w1) as (t & w' & Hrun & Ha & Hp). unfold run in Hrun.
      rewrite Hrun. exists ([Called (CAuth d) (Some e)] ++ t), w'.
      rewrite auth_attempts_app, authenticated_app, printed_app, Ha, Hp.
      now repeat split.
    + destruct (IH (result ++ [device_entry d]) w1) as (t & w' & Hrun & Ha & Hp).
      unfold run in Hrun. rewrite Hrun.
      exists ([Called (CAuth d) None] ++ t), w'.
      rewrite auth_attempts_app, authenticated_app, printed_app, Ha, Hp.
      cbn. rewrite <- app_assoc. now repeat split.
Qed.

(** C9.  When [broadlink.discover] hands out [devices], [discover] calls
    [auth] on each of them once, in order, prints one array that holds the
    entries of exactly the devices whose [auth] call did not raise (nothing
    about the others), and returns normally: exit status 0. *)
Theorem discover_lists_authenticated timeout w0 devices w1 :
  broadlink_discover timeout w0 = (inr devices, w1) ->
  exists t w2,
    run (discover timeout) w0 = (t, w2, Ret tt) /\
    auth_attempts t = devices /\
    printed t = [JArr (map device_entry (authenticated t))] /\
    exit_status (snd (run (discover timeout) w0)) = 0%Z.
Proof.
  intros Hd.
  destruct (discover_loop_run devices [] w1) as (t & w2 & Hrun & Ha & Hp).
  assert (Hdisc : run (discover timeout) w0 =
                  (Called (CDiscover timeout) None :: t
                     ++ [Printed (JArr (map device_entry (authenticated t)))], w2, Ret tt)).
  { unfold run, discover, try_except, bind, discover_devices, invoke in *.
    rewrite Hd. cbn. rewrite Hrun. reflexivity. }
  eexists _, _. split; [exact Hdisc|]. split; [|split].
  - change (auth_attempts ([Called (CDiscover timeout) None] ++ t
              ++ [Printed (JArr (map device_entry (authenticated t)))]) = devices).
    rewrite !auth_attempts_app, Ha. cbn. now rewrite app_nil_r.
  - change (printed ([Called (CDiscover timeout) None] ++ t
              ++ [Printed (JArr (map device_entry (authenticated t)))])
            = [JArr (map device_entry
                 (authenticated ([Called (CDiscover timeout) None] ++ t
                    ++ [Printed (JArr (map device_entry (authenticated t)))])))]).
    rewrite !printed_app, !authenticated_app, Hp. cbn. now rewrite app_nil_r.
  - rewrite Hdisc. reflexivity.
Qed.

End Discover.

(** ** The signal class of learn *)

Section SignalClass.
Context {W : Type} {EP : Endpoint W}.
Implicit Types (w : W) (d : device) (t : list event).

Lemma ir_events_count t : forallb ir_event t = true -> count_calls is_rf_call t = O.
Proof.
  unfold count_calls. induction t as [|ev t IH]; [reflexivity|].
  cbn [forallb]. intros H. apply andb_prop in H as [Hev Ht].
  destruct ev as [c r| |]; cbn in *; auto.
  destruct (is_rf_call c); [discriminate | auto].
Qed.

Lemma capture_loop_ir n d : emits ir_event (capture_loop n d).
Proof.
  induction n as [|n IH]; cbn [capture_loop]; [apply emits_ret|].
  apply emits_bind.
  - unfold capture_poll, sleep, check_data, print.
    apply emits_bind; [now apply emits_emit|]. intros _.
    apply emits_try_except.
    + apply emits_bind; [now apply emits_invoke|].
      intros [|b bs]; auto with emits.
    + intros e. destruct (not_ready e); auto with emits.
  - intros [|]; auto with emits.
Qed.

Lemma create_device_ir host mac devtype : emits ir_event (create_device host mac devtype).
Proof. unfold create_device, gendevice. auto 6 with emits. Qed.

Lemma learn_ir_events host mac devtype signal_type :
  is_rf signal_type = false -> emits ir_event (learn host mac devtype signal_type).
Proof.
  intros Hir. unfold learn. rewrite Hir.
  apply emits_try_except.
  - apply emits_bind; [apply create_device_ir|]. intros d.
    apply emits_bind; [now apply emits_invoke|]. intros _.
    apply emits_bind; [now apply emits_invoke|]. intros _.
    apply emits_bind; [apply capture_loop_ir|].
    intros [|]; unfold print; auto with emits.
  - intros e. unfold print. auto with emits.
Qed.

(** C10.  [main] hands a fifth argument of a [learn] invocation to [learn]
    whatever it is (and ["ir"] when there is none): no value leads to the usage
    error.  A signal class whose lowercase form is not ["rf"] makes [learn] run
    exactly as with ["ir"]: no rf call of the library is made, and
    [enter_learning] follows a successful handshake at once. *)
Theorem learn_signal_class_dispatch host mac devtype :
  (forall prog signal_type w,
      run (main [prog; "learn"; host; mac; devtype; signal_type]) w
      = run (learn host mac devtype signal_type) w)
  /\
  (forall prog w,
      run (main [prog; "learn"; host; mac; devtype]) w = run (learn host mac devtype "ir") w)
  /\
  (forall signal_type,
      lower signal_type <> "rf" ->
      (forall w, run (learn host mac devtype signal_type) w = run (learn host mac devtype "ir") w)
      /\
      (forall w, count_calls is_rf_call (fst (fst (run (learn host mac devtype signal_type) w))) = O)
      /\
      (forall w0 t0 w1 d,
          run (session host mac devtype) w0 = (t0, w1, Ret d) ->
          exists r t',
            fst (fst (run (learn host mac devtype signal_type) w0))
            = t0 ++ Called (CEnterLearning d) r :: t')).
Proof.
  split; [|split].
  - reflexivity.
  - reflexivity.
  - intros signal_type Hne.
    assert (Hir : is_rf signal_type = false).
    { unfold is_rf. now apply String.eqb_neq. }
    split; [|split].
    + intros w. unfold learn. now rewrite Hir.
    + intros w. apply ir_events_count, learn_ir_events, Hir.
    + intros w0 t0 w1 d Hs.
      unfold session in Hs.
      apply run_bind_inv in Hs as (t1 & w2 & d1 & t2 & Hc & Hs & ->).
      apply run_bind_inv in Hs as (t3 & w3 & [] & t4 & Ha & Hs & ->).
      injection Hs as <- <- <-.
      unfold learn. rewrite Hir, run_try_except, (run_bind_ret _ _ _ _ _ _ Hc).
      rewrite (run_bind_ret _ _ _ _ _ _ Ha).
      rewrite run_bind. unfold enter_learning at 1.
      destruct (run (invoke (Called (CEnterLearning d1)) (device_enter_learning d1)) w3)
        as [[te we] oe] eqn:He.
      pose proof (run_invoke_trace _ _ _ _ _ _ He) as ->.
      match goal with
      | |- context [Called (CEnterLearning d1) ?r] => exists r
      end.
      destruct oe as [[]|e|c]; cbn.
      * match goal with
        | |- context [run ?m we] => destruct (run m we) as [[tl wl] ol]
        end.
        destruct ol as [[]|e|c]; cbn;
          eexists; rewrite ?app_nil_r, <- ?app_assoc; cbn [app]; reflexivity.
      * eexists; rewrite ?app_nil_r, <- ?app_assoc; cbn [app]; reflexivity.
      * eexists; rewrite ?app_nil_r, <- ?app_assoc; cbn [app]; reflexivity.
Qed.

End SignalClass.

(** ** Concrete runs against the scripted endpoint *)

Section Runs.
Import Fake.

Example fake_session :
  run (session address mac_text devtype_text) silent
  = ([Called (CGendevice 10039 (address, 80%Z) (mac remote)) None;
      Called (CAuth remote) None], silent, Ret remote).
Proof. reflexivity. Qed.

(** The third poll delivers; and thirty polls that are never ready. *)
Lemma learn_capture_poll_loop_witness :
  (exists t,
      run (learn address mac_text devtype_text "ir")
          (with_data [inl storage_error; inl read_error; inr button])
      = (t, silent, Ret tt) /\
      printed t = [JObj [("code", JStr "26000cabff")]] /\
      count_calls is_check_data t = 3%nat)
  /\
  (exists t,
      run (learn address mac_text devtype_text "ir") silent = (t, silent, Exit 1) /\
      printed t = [JObj [("error", JStr "IR learning timeout")]] /\
      count_calls is_check_data t = 30%nat /\
      exit_status (snd (run (learn address mac_text devtype_text "ir") silent)) <> 0%Z).
Proof.
  split.
  - refine (proj1 (learn_capture_poll_loop address mac_text devtype_text "ir"
                     (with_data [inl storage_error; inl read_error; inr button])
                     _ remote (with_data [inl storage_error; inl read_error; inr button]) _)
                  3%nat button (with_data [inr button]) silent _ _ _ _).
    + reflexivity.
    + lia.
    + reflexivity.
    + reflexivity.
    + discriminate.
  - assert (Hstart : run (capture_start address mac_text devtype_text "ir") silent =
              ([Called (CGendevice 10039 (address, 80%Z) (mac remote)) None;
                Called (CAuth remote) None; Called (CEnterLearning remote) None],
               silent, Ret remote)) by reflexivity.
    assert (Hpolls : not_ready_polls 30 remote silent = Some silent) by reflexivity.
    destruct (proj2 (learn_capture_poll_loop address mac_text devtype_text "ir" silent
                       _ remote silent Hstart) silent Hpolls)
      as (t & Hrun & _ & Hir & Hc & He).
    exists t. split; [exact Hrun|]. split; [|split; assumption].
    apply Hir. apply String.eqb_neq. reflexivity.
Defined.

(** Two idle polls, then the network fails. *)
Lemma learn_poll_error_aborts_witness :
  exists t,
    run (learn address mac_text devtype_text "ir")
        (with_data [inl storage_error; inr []; inl network_error; inr button])
    = (t ++ [Slept 1; Called (CCheckData remote) (Some network_error);
             Printed (JObj [("error", JStr "network unreachable")])],
       with_data [inr button], Exit 1) /\
    printed t = [] /\
    count_calls is_check_data t = 2%nat.
Proof.
  refine (learn_poll_error_aborts address mac_text devtype_text "ir"
            (with_data [inl storage_error; inr []; inl network_error; inr button])
            _ remote
            (with_data [inl storage_error; inr []; inl network_error; inr button])
            2 network_error (with_data [inl network_error; inr button])
            (with_data [inr button]) _ _ _ _ _ _).
  - reflexivity.
  - lia.
  - reflexivity.
  - reflexivity.
  - discriminate.
  - discriminate.
Defined.

(** No frequency is ever found. *)
Lemma learn_rf_frequency_timeout_witness :
  exists t_end,
    run (learn address mac_text devtype_text "RF") silent =
      ([Called (CGendevice 10039 (address, 80%Z) (mac remote)) None;
        Called (CAuth remote) None; Called (CSweepFrequency remote) None]
         ++ seek_rounds 30 remote
         ++ [Printed (error_response "No RF frequency found");
             Called (CCancelSweepFrequency remote) None]
         ++ t_end,
       silent, Exit 1) /\
    printed [Called (CGendevice 10039 (address, 80%Z) (mac remote)) None;
             Called (CAuth remote) None; Called (CSweepFrequency remote) None] = [] /\
    count_calls is_cancel_sweep
      [Called (CGendevice 10039 (address, 80%Z) (mac remote)) None;
       Called (CAuth remote) None; Called (CSweepFrequency remote) None] = O /\
    count_calls is_cancel_sweep t_end = O /\
    count_calls is_cancel_sweep (fst (fst (run (learn address mac_text devtype_text "RF") silent))) = 1%nat.
Proof.
  refine (learn_rf_frequency_timeout address mac_text devtype_text "RF" silent _ remote silent silent
            (inr tt) silent _ _ _ _).
  - reflexivity.
  - reflexivity.
  - reflexivity.
  - reflexivity.
Defined.

(** C1 as stated fails: with an endpoint that never finds a frequency the
    sweep is cancelled exactly once and the command exits with status 1, but
    the cancellation does not come before the frequency-timeout response: it
    is the event right after it. *)
Lemma learn_rf_cancel_not_before_response :
  let t := fst (fst (run (learn address mac_text devtype_text "rf") silent)) in
  no_frequency_polls 30 remote silent = Some silent /\
  snd (run (learn address mac_text devtype_text "rf") silent) = Exit 1 /\
  count_calls is_cancel_sweep t = 1%nat /\
  position (prints_error "No RF frequency found") t = Some 63%nat /\
  position is_cancel_event t = Some 64%nat /\
  ~ cancel_precedes_response t.
Proof.
  cbv zeta.
  assert (Hp : position (prints_error "No RF frequency found")
                 (fst (fst (run (learn address mac_text devtype_text "rf") silent))) = Some 63%nat)
    by (vm_compute; reflexivity).
  assert (Hc : position is_cancel_event
                 (fst (fst (run (learn address mac_text devtype_text "rf") silent))) = Some 64%nat)
    by (vm_compute; reflexivity).
  repeat split; try (vm_compute; reflexivity); try assumption.
  intros (i & j & Hi & Hj & Hlt). rewrite Hc in Hi. rewrite Hp in Hj.
  injection Hi as <-. injection Hj as <-. lia.
Qed.

(** Upper-case hexadecimal text of a captured payload, sent back. *)
Lemma learn_hex_send_roundtrip_witness :
  (exists d w1 data,
      device_check_data d w1 = (inr data, silent) /\
      printed (fst (fst (run (learn address mac_text devtype_text "ir") (with_data [inr button]))))
      = [JObj [("code", JStr (bytes_hex data))]])
  /\
  fromhex "26000CABFF" = Some button
  /\
  calls (fst (fst (run (send address mac_text devtype_text "26000CABFF") silent)))
  = [CGendevice 10039 (address, 80%Z) (mac remote); CAuth remote;
     CSendData remote button].
Proof.
  destruct learn_hex_send_roundtrip as (Hlearn & _ & Hsend).
  split; [|split].
  - refine (Hlearn address mac_text devtype_text "ir" (with_data [inr button]) _ silent _). reflexivity.
  - refine (proj1 (Hsend button "26000CABFF" _)). reflexivity.
  - refine (proj2 (Hsend button "26000CABFF" _) address mac_text devtype_text silent
              [Called (CGendevice 10039 (address, 80%Z) (mac remote)) None;
               Called (CAuth remote) None]
              silent remote (inr tt) silent _ _).
    + reflexivity.
    + reflexivity.
    + reflexivity.
Defined.

(** The handshake times out; the handshake fails otherwise. *)
Lemma test_handshake_responses_witness :
  run (test address mac_text devtype_text) (mkState (inr []) [inl timed_out] [] [] [])
  = ([Called (CGendevice 10039 (address, 80%Z) (mac remote)) None;
      Called (CAuth (set_timeout remote 5)) (Some timed_out);
      Printed (JObj [("online", JBool false)])], silent, Ret tt)
  /\
  run (test address mac_text devtype_text) (mkState (inr []) [inl network_error] [] [] [])
  = ([Called (CGendevice 10039 (address, 80%Z) (mac remote)) None;
      Called (CAuth (set_timeout remote 5)) (Some network_error);
      Printed (JObj [("online", JBool false); ("error", JStr "network unreachable")])],
     silent, Ret tt).
Proof.
  split.
  - refine (proj2 (test_handshake_responses address mac_text devtype_text
                     (mkState (inr []) [inl timed_out] [] [] []))
                  [Called (CGendevice 10039 (address, 80%Z) (mac remote)) None]
                  (mkState (inr []) [inl timed_out] [] [] []) remote timed_out silent _ _).
    + reflexivity.
    + reflexivity.
  - refine (proj2 (test_handshake_responses address mac_text devtype_text
                     (mkState (inr []) [inl network_error] [] [] []))
                  [Called (CGendevice 10039 (address, 80%Z) (mac remote)) None]
                  (mkState (inr []) [inl network_error] [] [] []) remote network_error
                  silent _ _).
    + reflexivity.
    + reflexivity.
Defined.

(** Three devices answer the broadcast, only the first authenticates. *)
Lemma discover_lists_authenticated_witness :
  exists t w2,
    run (discover 5) living_room = (t, w2, Ret tt) /\
    auth_attempts t = [remote; plug; remote] /\
    printed t = [JArr (map device_entry (authenticated t))] /\
    exit_status (snd (run (discover 5) living_room)) = 0%Z.
Proof.
  refine (discover_lists_authenticated 5 living_room [remote; plug; remote] living_room _).
  reflexivity.
Defined.

Example discover_living_room :
  printed (fst (fst (run (discover 5) living_room)))
  = [JArr [JObj [("type", JStr "0x2737"); ("model", JStr "RM4 mini");
                 ("host", JStr "192.168.1.20"); ("mac", JStr "a0:43:b0:11:22:33");
                 ("name", JStr "RM4 mini")]]].
Proof. reflexivity. Qed.

(** An unknown signal class. *)
Lemma learn_signal_class_dispatch_witness :
  (forall w : state,
      run (learn address mac_text devtype_text "infrared") w = run (learn address mac_text devtype_text "ir") w)
  /\
  (forall w : state,
      count_calls is_rf_call (fst (fst (run (learn address mac_text devtype_text "infrared") w))) = O)
  /\
  (exists r t',
      fst (fst (run (learn address mac_text devtype_text "infrared") silent))
      = [Called (CGendevice 10039 (address, 80%Z) (mac remote)) None;
         Called (CAuth remote) None] ++ Called (CEnterLearning remote) r :: t').
Proof.
  destruct (proj2 (proj2 (learn_signal_class_dispatch (EP := endpoint) address mac_text devtype_text))
              "infrared") as (H1 & H2 & H3).
  - apply String.eqb_neq. reflexivity.
  - split; [exact H1|]. split; [exact H2|].
    refine (H3 silent [Called (CGendevice 10039 (address, 80%Z) (mac remote)) None;
                       Called (CAuth remote) None] silent remote _). reflexivity.
Defined.

End Runs.

(* ================================================================== *)
(** ** From a discovered device back to a session *)

Section Entries.
Context {W : Type} {EP : Endpoint W}.
Implicit Types (w : W) (d : device).

Lemma remove_char_app (c : ascii) (s t : string) :
  remove_char c (s ++ t) = (remove_char c s ++ remove_char c t)%string.
Proof.
  induction s as [|x s IH]; cbn; [reflexivity|].
  destruct (Ascii.eqb x c); cbn; now rewrite IH.
Qed.

Lemma remove_char_absent (p : ascii -> bool) (c : ascii) (s : string) :
  p c = false -> all_chars p s = true -> remove_char c s = s.
Proof.
  intros Hc. induction s as [|x s IH]; cbn; [reflexivity|].
  intros H. apply andb_prop in H as [Hx Hs].
  destruct (Ascii.eqb_spec x c) as [->|_]; [congruence | now rewrite IH].
Qed.

Lemma append_nil_r (s : string) : (s ++ "")%string = s.
Proof. induction s as [|x s IH]; cbn; [reflexivity | now rewrite IH]. Qed.

Lemma remove_char_comm (a b : ascii) (s : string) :
  remove_char a (remove_char b s) = remove_char b (remove_char a s).
Proof.
  induction s as [|x s IH]; cbn; [reflexivity|].
  destruct (Ascii.eqb x b) eqn:Hb, (Ascii.eqb x a) eqn:Ha; cbn;
    rewrite ?Ha, ?Hb, IH; reflexivity.
Qed.

Lemma byte_hex_digits (b : byte) : all_chars is_lower_hexdigit (byte_hex b) = true.
Proof. destruct b; reflexivity. Qed.

Lemma remove_separator_join (c : ascii) (bs : bytes) :
  is_lower_hexdigit c = false ->
  remove_char c (join (String c EmptyString) (map byte_hex bs)) = bytes_hex bs.
Proof.
  intros Hc. induction bs as [|b [|b' bs] IH].
  - reflexivity.
  - cbn [map join bytes_hex]. rewrite append_nil_r.
    apply (remove_char_absent _ _ _ Hc), byte_hex_digits.
  - change (remove_char c (byte_hex b ++ String c EmptyString
                             ++ join (String c EmptyString) (map byte_hex (b' :: bs)))
            = byte_hex b ++ bytes_hex (b' :: bs))%string.
    rewrite !remove_char_app, IH.
    rewrite (remove_char_absent _ _ _ Hc (byte_hex_digits b)).
    cbn [remove_char]. rewrite Ascii.eqb_refl. reflexivity.
Qed.

(** X1.  The MAC text [discover] prints (two lowercase hexadecimal digits a
    byte, joined by colons) is read back by [mac_str_to_bytes] as the same
    bytes; so is the same text joined by dashes, or not separated at all. *)
Theorem mac_text_roundtrip (mac : bytes) :
  mac_str_to_bytes (join ":" (map byte_hex mac)) = inr mac /\
  mac_str_to_bytes (join "-" (map byte_hex mac)) = inr mac /\
  mac_str_to_bytes (bytes_hex mac) = inr mac.
Proof.
  destruct (bytes_hex_lowercase mac) as (Hdigits & Hlower & _).
  assert (Hfrom : bytes_fromhex (bytes_hex mac) = inr mac).
  { unfold bytes_fromhex. now rewrite (fromhex_hex_any_case mac (bytes_hex mac) Hlower). }
  unfold mac_str_to_bytes. repeat split.
  - rewrite (remove_separator_join ":" mac eq_refl).
    now rewrite (remove_char_absent _ "-" _ eq_refl Hdigits).
  - rewrite remove_char_comm, (remove_separator_join "-" mac eq_refl).
    now rewrite (remove_char_absent _ ":" _ eq_refl Hdigits).
  - rewrite (remove_char_absent _ ":" _ eq_refl Hdigits).
    now rewrite (remove_char_absent _ "-" _ eq_refl Hdigits).
Qed.

End Entries.

Section Flows.
Context {W : Type} {EP : Endpoint W}.
Implicit Types (w : W) (d : device) (t : list event).

(** X2.  What [discover] prints about a device is what [learn], [send] and
    [test] take: given the printed host, MAC text and type text of a device,
    they read the type text with [int] in base 16, the text starting with
    [0x] (in base 10 only for a negative type, whose text starts with a minus
    sign); if [int] raises, that exception is raised before anything is
    called; otherwise, with [n] the number read, the device is created with
    [gendevice(n, (host, 80), mac)] on the host and the MAC bytes of the
    printed device. *)
Theorem create_device_from_entry d w :
  run (create_device (fst (host d)) (join ":" (map byte_hex (mac d))) (hex (devtype d))) w
  = match int (hex (devtype d)) (if (devtype d <? 0)%Z then 10 else 16) with
    | inl e => ([], w, Raise e)
    | inr n => run (gendevice n (fst (host d), 80%Z) (mac d)) w
    end.
Proof.
  assert (Hprefix : startswith (hex (devtype d)) "0x" = negb (devtype d <? 0)%Z).
  { unfold hex. destruct (devtype d <? 0)%Z; [reflexivity|].
    generalize (NilZero.string_of_uint (N.to_hex_uint (Z.abs_N (devtype d)))).
    intros [|c digits]; reflexivity. }
  assert (Hmac : mac_str_to_bytes (join ":" (map byte_hex (mac d))) = inr (mac d)).
  { destruct (bytes_hex_lowercase (mac d)) as (Hdigits & Hlower & _).
    unfold mac_str_to_bytes, bytes_fromhex.
    rewrite (remove_separator_join ":" (mac d) eq_refl).
    rewrite (remove_char_absent _ "-" _ eq_refl Hdigits).
    now rewrite (fromhex_hex_any_case (mac d) (bytes_hex (mac d)) Hlower). }
  unfold create_device. rewrite Hprefix, Hmac.
  destruct (devtype d <? 0)%Z; cbn [negb];
    (destruct (int (hex (devtype d)) _) as [e|n]; [reflexivity|]);
    unfold run, bind, lift, ret;
    destruct (gendevice n (fst (host d), 80%Z) (mac d) w) as [[t w1] o];
    reflexivity.
Qed.

(** X3.  When [broadlink.discover] itself raises, [discover] prints the
    error's text as [{"error": ...}] and exits with status 1; [auth] is not
    called on anything. *)
Theorem discover_library_failure timeout w e w' :
  broadlink_discover timeout w = (inl e, w') ->
  run (discover timeout) w =
    ([Called (CDiscover timeout) (Some e); Printed (JObj [("error", JStr (str e))])],
     w', Exit 1)
  /\ auth_attempts (fst (fst (run (discover timeout) w))) = [].
Proof.
  intros H.
  assert (Hrun : run (discover timeout) w =
                 ([Called (CDiscover timeout) (Some e);
                   Printed (JObj [("error", JStr (str e))])],
                  w', Exit 1)).
  { unfold run, discover, try_except, bind, discover_devices, invoke. now rewrite H. }
  split; [exact Hrun | now rewrite Hrun].
Qed.

Lemma seek_loop_prefix k d w w2 :
  no_frequency_polls k d w = Some w2 ->
  forall n, run (seek_loop (k + n) d) w =
            let '(t, w', o) := run (seek_loop n d) w2 in (seek_rounds k d ++ t, w', o).
Proof.
  revert w. induction k as [|k IH]; intros w; cbn [no_frequency_polls].
  - intros H n. injection H as <-. cbn [Nat.add seek_rounds app].
    now destruct (run (seek_loop n d) w) as [[t w'] o].
  - destruct (device_check_frequency d w) as [[e|[|]] w1] eqn:Hc; try discriminate.
    intros H n. specialize (IH w1 H n).
    cbn [Nat.add seek_loop seek_rounds].
    unfold run, bind, sleep, emit, check_frequency, invoke in *. rewrite Hc. cbn.
    rewrite IH. now destruct (seek_loop n d w2) as [[t w'] o].
Qed.

Lemma seek_rounds_quiet k d : quiet (seek_rounds k d).
Proof.
  induction k as [|k IH]; [apply quiet_nil|].
  apply (quiet_app [_] (_ :: _)); [apply quiet_slept|].
  apply (quiet_app [_] _); [now apply quiet_called | exact IH].
Qed.

(** X4.  In an rf [learn], an error raised by [check_frequency] (of whatever
    class, the two not-ready classes included) after [k < 30] polls without a
    frequency ends the command at once: [{"error": str(e)}] is printed, the
    exit status is 1, and the sweep is left uncancelled: no call of
    [cancel_sweep_frequency] in the whole run. *)
Theorem learn_frequency_poll_error host mac devtype signal_type w0 t0 d w1 k w2 e w3 :
  is_rf signal_type = true ->
  run (seek_start host mac devtype) w0 = (t0, w1, Ret d) ->
  (k < 30)%nat ->
  no_frequency_polls k d w1 = Some w2 ->
  device_check_frequency d w2 = (inl e, w3) ->
  run (learn host mac devtype signal_type) w0 =
    (t0 ++ seek_rounds k d
        ++ [Slept 1; Called (CCheckFrequency d) (Some e);
            Printed (JObj [("error", JStr (str e))])],
     w3, Exit 1)
  /\ count_calls is_cancel_sweep (fst (fst (run (learn host mac devtype signal_type) w0))) = O.
Proof.
  intros Hrf Hstart Hk Hpolls Herr.
  destruct (quiet_counts _ (seek_start_quiet _ _ _ _ _ _ _ Hstart)) as (_ & _ & Hc0).
  destruct (quiet_counts _ (seek_rounds_quiet k d)) as (_ & _ & Hc1).
  assert (Hseek : run (seek_loop 30 d) w1 =
                  (seek_rounds k d ++ [Slept 1; Called (CCheckFrequency d) (Some e)],
                   w3, Raise e)).
  { replace 30%nat with (k + S (30 - S k))%nat by lia.
    rewrite (seek_loop_prefix _ _ _ _ Hpolls). cbn [seek_loop].
    unfold run, bind, sleep, emit, check_frequency, invoke. now rewrite Herr. }
  assert (Hrun : run (learn host mac devtype signal_type) w0 =
    (t0 ++ seek_rounds k d
        ++ [Slept 1; Called (CCheckFrequency d) (Some e); Printed (error_response (str e))],
     w3, Exit 1)).
  { rewrite (learn_from_seek _ _ _ _ _ Hrf), run_try_except.
    rewrite (run_bind_ret _ _ _ _ _ _ Hstart), run_bind, Hseek. cbn.
    now rewrite <- !app_assoc. }
  split; [exact Hrun|]. rewrite Hrun. cbn [fst].
  rewrite !count_calls_app, Hc0, Hc1. reflexivity.
Qed.

(** X5.  The rf path when it works: after [k < 30] polls without a frequency
    the next [check_frequency] answers true; [learn] then calls
    [find_rf_packet] once, never [cancel_sweep_frequency], and starts the
    capture loop; a non-empty payload on its first poll is printed as
    [{"code": <its lowercase hex>}] and the command returns normally. *)
Theorem learn_rf_capture host mac devtype signal_type w0 t0 d w1 k w2 w3 w4 payload w5 :
  is_rf signal_type = true ->
  run (seek_start host mac devtype) w0 = (t0, w1, Ret d) ->
  (k < 30)%nat ->
  no_frequency_polls k d w1 = Some w2 ->
  device_check_frequency d w2 = (inr true, w3) ->
  device_find_rf_packet d w3 = (inr tt, w4) ->
  device_check_data d w4 = (inr payload, w5) ->
  payload <> [] ->
  run (learn host mac devtype signal_type) w0 =
    (t0 ++ seek_rounds k d
        ++ [Slept 1; Called (CCheckFrequency d) None; Called (CFindRfPacket d) None;
            Slept 1; Called (CCheckData d) None;
            Printed (JObj [("code", JStr (bytes_hex payload))])],
     w5, Ret tt).
Proof.
  intros Hrf Hstart Hk Hpolls Hfound Hfind Hdata Hne.
  assert (Hseek : run (seek_loop 30 d) w1 =
                  (seek_rounds k d ++ [Slept 1; Called (CCheckFrequency d) None],
                   w3, Ret true)).
  { replace 30%nat with (k + S (30 - S k))%nat by lia.
    rewrite (seek_loop_prefix _ _ _ _ Hpolls). cbn [seek_loop].
    unfold run, bind, sleep, emit, check_frequency, invoke. now rewrite Hfound. }
  rewrite (learn_from_seek _ _ _ _ _ Hrf), run_try_except.
  rewrite (run_bind_ret _ _ _ _ _ _ Hstart), (run_bind_ret _ _ _ _ _ _ Hseek).
  cbn [negb]. rewrite run_bind. unfold run at 1, ret at 1. cbn iota.
  rewrite run_bind. unfold find_rf_packet at 1, run at 1, invoke at 1. rewrite Hfind.
  cbn iota. change (capture_loop 30 d) with
    (returned <- capture_poll d ;; if returned then ret true else capture_loop 29 d).
  rewrite run_bind, (run_bind_ret _ _ _ _ _ _ (capture_poll_data _ _ _ _ Hdata Hne)).
  cbn. now rewrite <- !app_assoc.
Qed.

(** X6.  A poll that returns an empty payload counts as not ready.  Once
    [learn] has reached its capture loop: a non-empty payload after [k < 30]
    idle polls (recognised not-ready errors or empty payloads, in any mix) is
    printed as [{"code": <its lowercase hex>}] after [k + 1] polls; thirty idle
    polls end in [{"error": "IR learning timeout"}] (for rf,
    [{"error": "RF learning timeout"}]) and exit status 1. *)
Theorem learn_idle_polls host mac devtype signal_type w0 t0 d w1 :
  run (capture_start host mac devtype signal_type) w0 = (t0, w1, Ret d) ->
  (forall k payload w2 w3,
      (k < 30)%nat ->
      idle_polls k d w1 = Some w2 ->
      device_check_data d w2 = (inr payload, w3) ->
      payload <> [] ->
      exists t,
        run (learn host mac devtype signal_type) w0 = (t, w3, Ret tt) /\
        printed t = [JObj [("code", JStr (bytes_hex payload))]] /\
        count_calls is_check_data t = S k)
  /\
  (forall w2,
      idle_polls 30 d w1 = Some w2 ->
      exists t,
        run (learn host mac devtype signal_type) w0 = (t, w2, Exit 1) /\
        (lower signal_type = "rf" ->
         printed t = [JObj [("error", JStr "RF learning timeout")]]) /\
        (lower signal_type <> "rf" ->
         printed t = [JObj [("error", JStr "IR learning timeout")]]) /\
        count_calls is_check_data t = 30%nat).
Proof.
  intros Hstart.
  destruct (quiet_counts _ (capture_start_quiet _ _ _ _ _ _ _ _ Hstart)) as (Hp0 & Hc0 & _).
  split.
  - intros k payload w2 w3 Hk Hidle Hdata Hne.
    destruct (capture_loop_captures 30 k d w1 w2 payload w3 Hk Hidle Hdata Hne)
      as (t & Hrun & Hp & Hc).
    exists (t0 ++ t ++ []). split; [|split].
    + rewrite learn_from_capture, run_try_except, (run_bind_ret _ _ _ _ _ _ Hstart).
      rewrite (run_bind_ret _ _ _ _ _ _ Hrun). reflexivity.
    + rewrite app_nil_r, printed_app, Hp0, Hp. reflexivity.
    + rewrite app_nil_r, count_calls_app, Hc0, Hc. reflexivity.
  - intros w2 Hidle.
    destruct (capture_loop_times_out 30 d w1 w2 Hidle) as (t & Hrun & Hp & Hc).
    exists (t0 ++ t ++ [Printed (error_response (timeout_message signal_type))]).
    split; [|split; [|split]].
    + rewrite learn_from_capture, run_try_except, (run_bind_ret _ _ _ _ _ _ Hstart).
      rewrite (run_bind_ret _ _ _ _ _ _ Hrun). reflexivity.
    + intros Hrf. rewrite !printed_app, Hp0, Hp.
      unfold timeout_message, is_rf. rewrite Hrf. reflexivity.
    + intros Hir. rewrite !printed_app, Hp0, Hp.
      unfold timeout_message, is_rf. apply String.eqb_neq in Hir. rewrite Hir. reflexivity.
    + rewrite !count_calls_app, Hc0, Hc. cbn. lia.
Qed.

End Flows.

(** ** One response per command *)

Section Responses.
Context {W : Type} {EP : Endpoint W}.
Implicit Types (w : W) (d : device) (t : list event).

(** Run a computation symbolically: case analysis on the innermost answer the
    goal still inspects. *)
Ltac answer_next :=
  match goal with
  | |- context [match ?x with _ => _ end] =>
      lazymatch x with
      | context [match _ with _ => _ end] => fail
      | _ => destruct x eqn:?
      end
  end.

Lemma send_shapes host mac devtype code w :
  let t := fst (fst (run (send host mac devtype code) w)) in
  let o := snd (run (send host mac devtype code) w) in
  (o = Ret tt /\ printed t = [JObj [("success", JBool true)]] /\
   exists d bs, fromhex code = Some bs /\ In (Called (CSendData d bs) None) t)
  \/
  (o = Exit 1 /\
   (exists msg, printed t = [JObj [("success", JBool false); ("error", JStr msg)]]) /\
   forall d bs, ~ In (Called (CSendData d bs) None) t).
Proof.
  cbv zeta.
  unfold run, send, try_except, bind, create_device, gendevice, auth, send_data, print,
    emit, invoke, lift, raise, ret, sys_exit, mac_str_to_bytes, bytes_fromhex.
  repeat (answer_next; cbn);
    first [ left; split; [reflexivity|]; split; [reflexivity|];
            eexists _, _; split; [eassumption || reflexivity | cbn; tauto]
          | right; split; [reflexivity|]; split; [eexists; reflexivity|];
            cbn; intros ? ? Hin; repeat destruct Hin as [Hin|Hin]; try discriminate Hin;
            try contradiction ].
Qed.

Lemma seek_loop_outcome n d w t w' (o : outcome bool) :
  run (seek_loop n d) w = (t, w', o) ->
  printed t = [] /\ forall c, o <> Exit c.
Proof.
  intros H. split; [apply (quiet_counts _ (seek_loop_quiet _ _ _ _ _ _ H))|].
  revert w t w' o H. induction n as [|n IH]; intros w t w' o; cbn [seek_loop].
  - intros H c. injection H as _ _ <-. discriminate.
  - unfold run, bind, sleep, emit, check_frequency, invoke.
    destruct (device_check_frequency d w) as [[e|[|]] w1]; cbn.
    + intros H c. injection H as _ _ <-. discriminate.
    + intros H c. injection H as _ _ <-. discriminate.
    + destruct (seek_loop n d w1) as [[t1 w2] o1] eqn:Hrest. intros H c.
      injection H as _ _ <-. exact (IH w1 t1 w2 o1 Hrest c).
Qed.

Lemma capture_poll_outcome d w t w' (o : outcome bool) :
  run (capture_poll d) w = (t, w', o) ->
  match o with
  | Ret true => exists data, data <> [] /\ printed t = [code_response data]
  | Ret false | Raise _ => printed t = []
  | Exit _ => False
  end.
Proof.
  unfold run, capture_poll, bind, try_except, sleep, emit, check_data, invoke, print.
  destruct (device_check_data d w) as [[e|[|b bs]] w1]; cbn.
  - destruct (not_ready e); cbn; intros H; now injection H as <- _ <-.
  - intros H. now injection H as <- _ <-.
  - intros H. injection H as <- _ <-. exists (b :: bs). now split.
Qed.

Lemma capture_loop_outcome n d w t w' (o : outcome bool) :
  run (capture_loop n d) w = (t, w', o) ->
  match o with
  | Ret true => exists data, data <> [] /\ printed t = [code_response data]
  | Ret false | Raise _ => printed t = []
  | Exit _ => False
  end.
Proof.
  revert w t w' o. induction n as [|n IH]; intros w t w' o; cbn [capture_loop].
  - intros H. now injection H as <- _ <-.
  - rewrite run_bind.
    destruct (run (capture_poll d) w) as [[t1 w1] o1] eqn:Hpoll.
    apply capture_poll_outcome in Hpoll. destruct o1 as [[|]|e|c].
    + intros H. injection H as <- _ <-. now rewrite app_nil_r.
    + destruct (run (capture_loop n d) w1) as [[t2 w2] o2] eqn:Hrest.
      apply IH in Hrest. intros H. injection H as <- _ <-.
      rewrite printed_app, Hpoll. exact Hrest.
    + intros H. now injection H as <- _ <-.
    + contradiction.
Qed.

Lemma printed_called c r t : printed (Called c r :: t) = printed t.
Proof. reflexivity. Qed.

Lemma printed_slept n t : printed (Slept n :: t) = printed t.
Proof. reflexivity. Qed.

Lemma printed_printed j t : printed (Printed j :: t) = j :: printed t.
Proof. reflexivity. Qed.

Lemma printed_nil : printed [] = [].
Proof. reflexivity. Qed.

Lemma learn_shapes host mac devtype signal_type w :
  let t := fst (fst (run (learn host mac devtype signal_type) w)) in
  let o := snd (run (learn host mac devtype signal_type) w) in
  (o = Ret tt /\ exists data, data <> [] /\ printed t = [code_response data])
  \/
  (o = Exit 1 /\ exists msg, printed t = [error_response msg])
  \/
  (o = Exit 1 /\ is_rf signal_type = true /\
   exists d e,
     In (Called (CCancelSweepFrequency d) (Some e)) t /\
     printed t = [error_response "No RF frequency found"; error_response (str e)]).
Proof.
  cbv zeta. unfold learn. generalize 30%nat. intros n.
  unfold create_device, mac_str_to_bytes, bytes_fromhex.
  unfold gendevice, auth, sweep_frequency, cancel_sweep_frequency, find_rf_packet,
    enter_learning, print.
  unfold run, try_except, bind, emit, invoke, lift, raise, ret, sys_exit.
  repeat first
    [ match goal with
      | |- context [seek_loop ?k ?d ?w0] =>
          let H := fresh "Hseek" in
          destruct (seek_loop k d w0) as [[? ?] [[|]|?|?]] eqn:H;
          apply seek_loop_outcome in H; destruct H as [H ?];
          [ | | | exfalso;
                  match goal with Hx : forall c, _ <> _ |- _ => exact (Hx _ eq_refl) end ]
      | |- context [capture_loop ?k ?d ?w0] =>
          let H := fresh "Hcap" in
          destruct (capture_loop k d w0) as [[? ?] [[|]|?|?]] eqn:H;
          apply capture_loop_outcome in H; [ | | | contradiction ]
      end
    | answer_next ];
    cbn [fst snd negb];
    rewrite ?printed_app, ?printed_called, ?printed_slept, ?printed_printed, ?printed_nil.
  all: repeat match goal with
              | H : printed _ = _ |- _ => rewrite H; clear H
              | H : exists _, _ |- _ => destruct H as (? & ? & ?)
              end.
  all: rewrite ?printed_app, ?printed_called, ?printed_slept, ?printed_printed, ?printed_nil;
    cbn [app].
  all: first
    [ left; split; [reflexivity|]; eexists; split; [eassumption|];
      repeat match goal with H : printed _ = _ |- _ => rewrite H end; reflexivity
    | right; left; split; [reflexivity|]; eexists; reflexivity
    | right; right; split; [reflexivity|]; split; [reflexivity|];
      eexists _, _; split; [|reflexivity];
      rewrite ?in_app_iff; cbn; tauto ].
Qed.

Lemma test_shapes host mac devtype w :
  snd (run (test host mac devtype) w) = Ret tt /\
  List.length (printed (fst (fst (run (test host mac devtype) w)))) = 1%nat.
Proof.
  unfold test, create_device, mac_str_to_bytes, bytes_fromhex.
  unfold gendevice, auth, print.
  unfold run, try_except, bind, emit, invoke, lift, raise, ret.
  repeat (answer_next; cbn); now split.
Qed.

Lemma discover_shapes timeout w :
  (snd (run (discover timeout) w) = Ret tt \/ snd (run (discover timeout) w) = Exit 1) /\
  List.length (printed (fst (fst (run (discover timeout) w)))) = 1%nat.
Proof.
  unfold run, discover, try_except, bind, discover_devices, invoke, print, emit, sys_exit.
  destruct (broadlink_discover timeout w) as [[e|devices] w1]; cbn; [now split; [right|]|].
  destruct (discover_loop_run devices [] w1) as (t & w2 & Hrun & _ & Hp).
  unfold run in Hrun. rewrite Hrun. cbn. split; [now left|].
  change (Called (CDiscover timeout) None
            :: t ++ [Printed (JArr (map device_entry (authenticated t)))])
    with ([Called (CDiscover timeout) None] ++ t
            ++ [Printed (JArr (map device_entry (authenticated t)))]).
  now rewrite !printed_app, Hp.
Qed.

(** X7.  [send] prints exactly one response and never lets an exception
    escape.  If it returns normally, the response is [{"success": true}], the
    code was valid hexadecimal text and [send_data] was called with its bytes
    and returned.  Otherwise it exits with status 1, the response is
    [{"success": false, "error": ...}], and no [send_data] call returned. *)
Theorem send_responses host mac devtype code w t w' o :
  run (send host mac devtype code) w = (t, w', o) ->
  (o = Ret tt /\ printed t = [JObj [("success", JBool true)]] /\
   exists d bs, fromhex code = Some bs /\ In (Called (CSendData d bs) None) t)
  \/
  (o = Exit 1 /\
   (exists msg, printed t = [JObj [("success", JBool false); ("error", JStr msg)]]) /\
   forall d bs, ~ In (Called (CSendData d bs) None) t).
Proof.
  intros Hrun. pose proof (send_shapes host mac devtype code w) as H.
  cbv zeta in H. rewrite Hrun in H. exact H.
Qed.

(** X8.  [learn] never lets an exception escape and ends in one of three
    ways: it returns normally after printing one captured code; it exits with
    status 1 after printing one error; or (rf only) it exits with status 1
    after printing two errors, the frequency timeout and then the text of the
    exception that [cancel_sweep_frequency] raised. *)
Theorem learn_responses host mac devtype signal_type w t w' o :
  run (learn host mac devtype signal_type) w = (t, w', o) ->
  (o = Ret tt /\ exists data, data <> [] /\ printed t = [code_response data])
  \/
  (o = Exit 1 /\ exists msg, printed t = [error_response msg])
  \/
  (o = Exit 1 /\ is_rf signal_type = true /\
   exists d e,
     In (Called (CCancelSweepFrequency d) (Some e)) t /\
     printed t = [error_response "No RF frequency found"; error_response (str e)]).
Proof.
  intros Hrun. pose proof (learn_shapes host mac devtype signal_type w) as H.
  cbv zeta in H. rewrite Hrun in H. exact H.
Qed.

Lemma lower_ascii_idempotent (c : ascii) : lower_ascii (lower_ascii c) = lower_ascii c.
Proof. destruct c as [[] [] [] [] [] [] [] []]; reflexivity. Qed.

Lemma lower_idempotent (s : string) : lower (lower s) = lower s.
Proof.
  induction s as [|c s IH]; cbn; [reflexivity|].
  now rewrite lower_ascii_idempotent, IH.
Qed.

(** X9.  Failures of [main] in front of every handler: with no command, with
    too few arguments for [learn] (fewer than 3), [send] (fewer than 4) or
    [test] (fewer than 3), and with a command in ASCII that is none of the
    four, the run consists of one printed [{"error": ...}] (the usage text,
    or [Unknown command: <the command in lowercase>]) and exit status 1; the
    library is not called and the network is as it was.  (A command with
    characters outside ASCII is left out: [lower] does not describe
    [str.lower] on it.) *)
Theorem main_refuses argv w :
  ((List.length argv < 2)%nat ->
   run (main argv) w =
     ([Printed (JObj [("error", JStr "Usage: broadlink_bridge.py <command> [args...]")])],
      w, Exit 1))
  /\
  ((2 <= List.length argv < 5)%nat -> lower (argv_at argv 1) = "learn" ->
   run (main argv) w =
     ([Printed (JObj [("error", JStr "Usage: learn <host> <mac> <devtype> [ir|rf]")])],
      w, Exit 1))
  /\
  ((2 <= List.length argv < 6)%nat -> lower (argv_at argv 1) = "send" ->
   run (main argv) w =
     ([Printed (JObj [("error", JStr "Usage: send <host> <mac> <devtype> <code>")])],
      w, Exit 1))
  /\
  ((2 <= List.length argv < 5)%nat -> lower (argv_at argv 1) = "test" ->
   run (main argv) w =
     ([Printed (JObj [("error", JStr "Usage: test <host> <mac> <devtype>")])], w, Exit 1))
  /\
  ((2 <= List.length argv)%nat ->
   isascii (argv_at argv 1) = true ->
   lower (argv_at argv 1) <> "discover" -> lower (argv_at argv 1) <> "learn" ->
   lower (argv_at argv 1) <> "send" -> lower (argv_at argv 1) <> "test" ->
   run (main argv) w =
     ([Printed (JObj [("error", JStr ("Unknown command: " ++ lower (argv_at argv 1)))])],
      w, Exit 1)).
Proof.
  unfold main. repeat split.
  - intros H. apply Nat.ltb_lt in H. now rewrite H.
  - intros [H2 H5] Hcmd. apply Nat.ltb_ge in H2. apply Nat.ltb_lt in H5.
    now rewrite H2, Hcmd, H5.
  - intros [H2 H6] Hcmd. apply Nat.ltb_ge in H2. apply Nat.ltb_lt in H6.
    now rewrite H2, Hcmd, H6.
  - intros [H2 H5] Hcmd. apply Nat.ltb_ge in H2. apply Nat.ltb_lt in H5.
    now rewrite H2, Hcmd, H5.
  - intros H2 _ Hd Hl Hs Ht. apply Nat.ltb_ge in H2. rewrite H2.
    apply String.eqb_neq in Hd, Hl, Hs, Ht. now rewrite Hd, Hl, Hs, Ht.
Qed.

(** X10.  The command name is matched without regard to letter case: [main]
    runs the same with the command as given and with the command in
    lowercase. *)
Theorem main_command_case prog command args w :
  run (main (prog :: command :: args)) w = run (main (prog :: lower command :: args)) w.
Proof.
  unfold main, argv_at. cbn [nth List.length]. now rewrite lower_idempotent.
Qed.

(** X11.  The timeout argument of [discover]: without one, [discover(5)] is
    run; one that [int] reads as [n] gives [discover(n)]; one that [int]
    rejects is not caught by anything: [main] ends with that exception after
    printing nothing and calling nothing, exit status 1. *)
Theorem main_discover_timeout prog command w :
  lower command = "discover" ->
  run (main [prog; command]) w = run (discover 5) w
  /\
  (forall text rest n,
      int text 10 = inr n ->
      run (main (prog :: command :: text :: rest)) w = run (discover n) w)
  /\
  (forall text rest e,
      int text 10 = inl e ->
      run (main (prog :: command :: text :: rest)) w = ([], w, Raise e) /\
      exit_status (snd (run (main (prog :: command :: text :: rest)) w)) = 1%Z).
Proof.
  intros Hcmd. split; [|split].
  - unfold main, argv_at. cbn [nth List.length Nat.ltb Nat.leb]. rewrite Hcmd.
    cbn [String.eqb Ascii.eqb Bool.eqb]. cbn.
    unfold run, bind, ret. now destruct (discover 5 w) as [[t w'] o].
  - intros text rest n Hint.
    unfold main, argv_at. cbn [nth List.length Nat.ltb Nat.leb]. rewrite Hcmd, Hint.
    cbn. unfold run, bind, lift, ret. now destruct (discover n w) as [[t w'] o].
  - intros text rest e Hint.
    assert (Hrun : run (main (prog :: command :: text :: rest)) w = ([], w, Raise e)).
    { unfold main, argv_at. cbn [nth List.length Nat.ltb Nat.leb]. rewrite Hcmd, Hint.
      reflexivity. }
    split; [exact Hrun | now rewrite Hrun].
Qed.

(** X12.  Whatever its arguments and whatever the network does, [main] ends
    in one of three ways: exit status 0 with exactly one JSON value printed;
    exit status 1 with one JSON value printed, or two (the rf frequency
    timeout after which the sweep cannot be cancelled); or, for [discover] with a timeout argument that [int]
    rejects, with that exception uncaught and nothing printed. *)
Theorem main_responses argv w t w' o :
  run (main argv) w = (t, w', o) ->
  (o = Ret tt /\ List.length (printed t) = 1%nat)
  \/
  (o = Exit 1 /\ (List.length (printed t) = 1%nat \/ List.length (printed t) = 2%nat))
  \/
  (exists e, o = Raise e /\ t = [] /\
             lower (argv_at argv 1) = "discover" /\ int (argv_at argv 2) 10 = inl e).
Proof.
  unfold main.
  destruct (List.length argv <? 2)%nat; [intros H; injection H as <- _ <-; right; left; auto|].
  destruct (String.eqb_spec (lower (argv_at argv 1)) "discover") as [Hd|_].
  { destruct (2 <? List.length argv)%nat.
    - destruct (int (argv_at argv 2) 10) as [e|n] eqn:Hint.
      + intros H. injection H as <- _ <-. right; right. now exists e.
      + rewrite run_bind. unfold lift, ret, run at 1. cbn iota.
        pose proof (discover_shapes n w) as [Ho Hp].
        destruct (run (discover n) w) as [[t1 w1] o1]. cbn in Ho, Hp.
        intros H. injection H as <- _ <-. destruct Ho as [-> | ->]; auto.
    - rewrite run_bind. unfold ret, run at 1. cbn iota.
      pose proof (discover_shapes 5 w) as [Ho Hp].
      destruct (run (discover 5) w) as [[t1 w1] o1]. cbn in Ho, Hp.
      intros H. injection H as <- _ <-. destruct Ho as [-> | ->]; auto. }
  destruct (String.eqb (lower (argv_at argv 1)) "learn").
  { destruct (List.length argv <? 5)%nat;
      [intros H; injection H as <- _ <-; right; left; auto|].
    intros H.
    pose proof (learn_shapes (argv_at argv 2) (argv_at argv 3) (argv_at argv 4)
                  (if (5 <? List.length argv)%nat then argv_at argv 5 else "ir") w) as Hs.
    cbv zeta in Hs. rewrite H in Hs. cbn [fst snd] in Hs.
    destruct Hs as [(-> & data & _ & ->) | [(-> & msg & ->) | (-> & _ & d & e & _ & ->)]];
      auto. }
  destruct (String.eqb (lower (argv_at argv 1)) "send").
  { destruct (List.length argv <? 6)%nat;
      [intros H; injection H as <- _ <-; right; left; auto|].
    intros H.
    pose proof (send_shapes (argv_at argv 2) (argv_at argv 3) (argv_at argv 4)
                  (argv_at argv 5) w) as Hs.
    cbv zeta in Hs. rewrite H in Hs. cbn [fst snd] in Hs.
    destruct Hs as [(-> & -> & _) | (-> & (msg & ->) & _)]; auto. }
  destruct (String.eqb (lower (argv_at argv 1)) "test").
  { destruct (List.length argv <? 5)%nat;
      [intros H; injection H as <- _ <-; right; left; auto|].
    intros H.
    pose proof (test_shapes (argv_at argv 2) (argv_at argv 3) (argv_at argv 4) w) as [Ho Hp].
    rewrite H in Ho, Hp. cbn [fst snd] in Ho, Hp. subst o. auto. }
  intros H. injection H as <- _ <-. right; left. auto.
Qed.

End Responses.

(** ** More concrete runs *)

Section MoreRuns.
Import Fake.

Lemma create_device_from_entry_witness :
  run (create_device address "a0:43:b0:11:22:33" "0x2737") silent
  = run (gendevice 10039 (address, 80%Z) (mac remote)) silent.
Proof.
  exact (create_device_from_entry remote silent).
Defined.

Lemma discover_library_failure_witness :
  run (discover 5) offline_network =
    ([Called (CDiscover 5) (Some network_error);
      Printed (JObj [("error", JStr "network unreachable")])], offline_network, Exit 1)
  /\ auth_attempts (fst (fst (run (discover 5) offline_network))) = [].
Proof.
  refine (discover_library_failure 5 offline_network network_error offline_network _).
  reflexivity.
Defined.

(** The second frequency poll raises an error of a not-ready class. *)
Lemma learn_frequency_poll_error_witness :
  run (learn address mac_text devtype_text "rf")
      (with_frequency [inr false; inl storage_error] []) =
    ([Called (CGendevice 10039 (address, 80%Z) (mac remote)) None;
      Called (CAuth remote) None; Called (CSweepFrequency remote) None]
       ++ seek_rounds 1 remote
       ++ [Slept 1; Called (CCheckFrequency remote) (Some storage_error);
           Printed (JObj [("error", JStr "the storage is full")])],
     silent, Exit 1)
  /\ count_calls is_cancel_sweep
       (fst (fst (run (learn address mac_text devtype_text "rf")
                      (with_frequency [inr false; inl storage_error] [])))) = O.
Proof.
  refine (learn_frequency_poll_error address mac_text devtype_text "rf"
            (with_frequency [inr false; inl storage_error] [])
            [Called (CGendevice 10039 (address, 80%Z) (mac remote)) None;
             Called (CAuth remote) None; Called (CSweepFrequency remote) None]
            remote (with_frequency [inr false; inl storage_error] [])
            1 (with_frequency [inl storage_error] []) storage_error silent _ _ _ _ _).
  - reflexivity.
  - reflexivity.
  - lia.
  - reflexivity.
  - reflexivity.
Defined.

(** The frequency is found on the third poll, the packet on the first. *)
Lemma learn_rf_capture_witness :
  run (learn address mac_text devtype_text "rf")
      (with_frequency [inr false; inr false; inr true] [inr button]) =
    ([Called (CGendevice 10039 (address, 80%Z) (mac remote)) None;
      Called (CAuth remote) None; Called (CSweepFrequency remote) None]
       ++ seek_rounds 2 remote
       ++ [Slept 1; Called (CCheckFrequency remote) None; Called (CFindRfPacket remote) None;
           Slept 1; Called (CCheckData remote) None;
           Printed (JObj [("code", JStr "26000cabff")])],
     silent, Ret tt).
Proof.
  refine (learn_rf_capture address mac_text devtype_text "rf"
            (with_frequency [inr false; inr false; inr true] [inr button])
            [Called (CGendevice 10039 (address, 80%Z) (mac remote)) None;
             Called (CAuth remote) None; Called (CSweepFrequency remote) None]
            remote (with_frequency [inr false; inr false; inr true] [inr button])
            2 (with_frequency [inr true] [inr button]) (with_data [inr button])
            (with_data [inr button]) button silent _ _ _ _ _ _ _ _).
  - reflexivity.
  - reflexivity.
  - lia.
  - reflexivity.
  - reflexivity.
  - reflexivity.
  - reflexivity.
  - discriminate.
Defined.

(** An empty payload, a not-ready error, then the code; and thirty empty
    payloads. *)
Lemma learn_idle_polls_witness :
  (exists t,
      run (learn address mac_text devtype_text "ir")
          (with_data [inr []; inl read_error; inr button]) = (t, silent, Ret tt) /\
      printed t = [JObj [("code", JStr "26000cabff")]] /\
      count_calls is_check_data t = 3%nat)
  /\
  (exists t,
      run (learn address mac_text devtype_text "ir") (with_data (repeat (inr []) 30))
      = (t, silent, Exit 1) /\
      printed t = [JObj [("error", JStr "IR learning timeout")]] /\
      count_calls is_check_data t = 30%nat).
Proof.
  split.
  - refine (proj1 (learn_idle_polls address mac_text devtype_text "ir"
                     (with_data [inr []; inl read_error; inr button]) _ remote
                     (with_data [inr []; inl read_error; inr button]) _)
                  2%nat button (with_data [inr button]) silent _ _ _ _).
    + reflexivity.
    + lia.
    + reflexivity.
    + reflexivity.
    + discriminate.
  - assert (Hstart : run (capture_start address mac_text devtype_text "ir")
                         (with_data (repeat (inr []) 30)) =
              ([Called (CGendevice 10039 (address, 80%Z) (mac remote)) None;
                Called (CAuth remote) None; Called (CEnterLearning remote) None],
               with_data (repeat (inr []) 30), Ret remote)) by reflexivity.
    assert (Hidle : idle_polls 30 remote (with_data (repeat (inr []) 30)) = Some silent)
      by reflexivity.
    destruct (proj2 (learn_idle_polls address mac_text devtype_text "ir"
                       (with_data (repeat (inr []) 30)) _ remote
                       (with_data (repeat (inr []) 30)) Hstart) silent Hidle)
      as (t & Hrun & _ & Hir & Hc).
    exists t. split; [exact Hrun|]. split; [|exact Hc].
    apply Hir. apply String.eqb_neq. reflexivity.
Defined.

(** A code with an odd number of digits. *)
Lemma send_responses_witness :
  printed (fst (fst (run (send address mac_text devtype_text "260") silent)))
  = [JObj [("success", JBool false);
           ("error", JStr "non-hexadecimal number found in fromhex() arg")]]
  /\ forall d bs,
       ~ In (Called (CSendData d bs) None)
            (fst (fst (run (send address mac_text devtype_text "260") silent))).
Proof.
  assert (Hrun : run (send address mac_text devtype_text "260") silent =
            ([Called (CGendevice 10039 (address, 80%Z) (mac remote)) None;
              Called (CAuth remote) None;
              Printed (JObj [("success", JBool false);
                             ("error", JStr "non-hexadecimal number found in fromhex() arg")])],
             silent, Exit 1)) by reflexivity.
  destruct (send_responses address mac_text devtype_text "260" silent _ _ _ Hrun)
    as [(Ho & _) | (_ & _ & Hnone)].
  - discriminate Ho.
  - split; [reflexivity | exact Hnone].
Defined.

(** No frequency is found and the sweep cannot be cancelled: two errors. *)
Lemma learn_responses_witness :
  exists d e,
    In (Called (CCancelSweepFrequency d) (Some e))
       (fst (fst (run (learn address mac_text devtype_text "rf") stuck_sweep))) /\
    printed (fst (fst (run (learn address mac_text devtype_text "rf") stuck_sweep)))
    = [error_response "No RF frequency found"; error_response (str e)].
Proof.
  assert (Hrun : run (learn address mac_text devtype_text "rf") stuck_sweep =
            (fst (fst (run (learn address mac_text devtype_text "rf") stuck_sweep)),
             silent, Exit 1)) by reflexivity.
  destruct (learn_responses address mac_text devtype_text "rf" stuck_sweep _ _ _ Hrun)
    as [(Ho & _) | [(_ & msg & Hp) | (_ & _ & H)]].
  - discriminate Ho.
  - vm_compute in Hp. discriminate Hp.
  - exact H.
Defined.

Lemma main_refuses_witness :
  run (main ["broadlink_bridge.py"]) silent =
    ([Printed (JObj [("error", JStr "Usage: broadlink_bridge.py <command> [args...]")])],
     silent, Exit 1)
  /\
  run (main ["broadlink_bridge.py"; "Learn"; address]) silent =
    ([Printed (JObj [("error", JStr "Usage: learn <host> <mac> <devtype> [ir|rf]")])],
     silent, Exit 1)
  /\
  run (main ["broadlink_bridge.py"; "send"; address; mac_text; devtype_text]) silent =
    ([Printed (JObj [("error", JStr "Usage: send <host> <mac> <devtype> <code>")])],
     silent, Exit 1)
  /\
  run (main ["broadlink_bridge.py"; "TEST"]) silent =
    ([Printed (JObj [("error", JStr "Usage: test <host> <mac> <devtype>")])], silent, Exit 1)
  /\
  run (main ["broadlink_bridge.py"; "Forget"; address]) silent =
    ([Printed (JObj [("error", JStr "Unknown command: forget")])], silent, Exit 1).
Proof.
  split; [|split; [|split; [|split]]].
  - refine (proj1 (main_refuses ["broadlink_bridge.py"] silent) _). cbn. lia.
  - refine (proj1 (proj2 (main_refuses ["broadlink_bridge.py"; "Learn"; address] silent))
              _ _); [cbn; lia | reflexivity].
  - refine (proj1 (proj2 (proj2 (main_refuses
              ["broadlink_bridge.py"; "send"; address; mac_text; devtype_text] silent)))
              _ _); [cbn; lia | reflexivity].
  - refine (proj1 (proj2 (proj2 (proj2 (main_refuses ["broadlink_bridge.py"; "TEST"] silent))))
              _ _); [cbn; lia | reflexivity].
  - refine (proj2 (proj2 (proj2 (proj2 (main_refuses
              ["broadlink_bridge.py"; "Forget"; address] silent))))
              _ _ _ _ _ _); [cbn; lia | reflexivity | | | | ];
      apply String.eqb_neq; reflexivity.
Defined.

Lemma main_discover_timeout_witness :
  run (main (EP := picky) ["broadlink_bridge.py"; "Discover"]) offline_network
  = run (discover (EP := picky) 5) offline_network
  /\
  run (main (EP := picky) ["broadlink_bridge.py"; "Discover"; "10"]) offline_network
  = run (discover (EP := picky) 10) offline_network
  /\
  run (main (EP := picky) ["broadlink_bridge.py"; "Discover"; "ten"]) offline_network
  = ([], offline_network, Raise (mkExn ValueError "invalid literal for int() with base 10")).
Proof.
  destruct (main_discover_timeout (EP := picky) "broadlink_bridge.py" "Discover"
              offline_network eq_refl) as (H5 & Hn & He).
  split; [exact H5|]. split.
  - exact (Hn "10" [] 10%Z eq_refl).
  - exact (proj1 (He "ten" [] _ eq_refl)).
Defined.

Lemma main_responses_witness :
  List.length
    (printed (fst (fst (run (main ["broadlink_bridge.py"; "learn"; address; mac_text;
                                   devtype_text; "rf"]) stuck_sweep)))) = 2%nat.
Proof.
  assert (Hrun : run (main ["broadlink_bridge.py"; "learn"; address; mac_text;
                            devtype_text; "rf"]) stuck_sweep =
            (fst (fst (run (main ["broadlink_bridge.py"; "learn"; address; mac_text;
                                  devtype_text; "rf"]) stuck_sweep)),
             silent, Exit 1)) by reflexivity.
  destruct (main_responses _ _ _ _ _ Hrun)
    as [(Ho & _) | [(_ & [H1 | H2]) | (e & Ho & _)]].
  - discriminate Ho.
  - vm_compute in H1. discriminate H1.
  - exact H2.
  - discriminate Ho.
Defined.

End MoreRuns.

End BroadlinkFacts.

(* ================================================================== *)
(** * The Impress controller: properties *)
(* ================================================================== *)

Module ImpressFacts.
Import Py PyFacts Impress.
Local Open Scope py_scope.

Lemma responses_app (a b : list event) : printed (a ++ b) = printed a ++ printed b.
Proof. apply flat_map_app. Qed.

(** Decide the string comparisons of the dispatch once the command is
    known. *)
Ltac dispatch :=
  repeat match goal with
         | |- context [String.eqb ?a ?b] =>
             let v := eval vm_compute in (String.eqb a b) in
             change (String.eqb a b) with v
         end;
  cbv iota.

Section Open.
Context {W : Type} {OF : Office W}.
Implicit Types (w : W) (t : list event).

(** What [get_uno_context] leaves in the trace when it finds no session. *)
Lemma get_uno_context_none w t w' :
  run get_uno_context w = (t, w', Ret None) ->
  t = [] \/ exists e, t = [Called CResolve (Some e)].
Proof.
  unfold run, get_uno_context. destruct HAS_UNO; cbn.
  - unfold try_except, bind, invoke. destruct (uno_resolve w) as [[e|ctx] w1]; cbn.
    + intros H. injection H as <- _. right. now exists e.
    + discriminate.
  - intros H. injection H as <- _. now left.
Qed.

Lemma get_uno_context_silent w t w' o :
  run get_uno_context w = (t, w', o) -> printed t = [].
Proof.
  unfold run, get_uno_context. destruct HAS_UNO; cbn.
  - unfold try_except, bind, invoke. destruct (uno_resolve w) as [[e|ctx] w1]; cbn;
      intros H; now injection H as <- _ _.
  - intros H. now injection H as <- _ _.
Qed.

(** C8.  An [open] request whose path (the empty string when the key is
    missing) does not exist is answered with [success: false] and
    [File not found: <path>]; that response is the only event of the command:
    no session was resolved, nothing was launched, and the machine is as it
    was. *)
Theorem open_missing_file cmd w :
  command cmd = "open" ->
  path_exists (of_option "" (file_path cmd)) w = false ->
  run (handle_command cmd) w =
    ([Printed (JObj [("success", JBool false);
                     ("error", JStr ("File not found: " ++ of_option "" (file_path cmd)))])],
     w, Ret tt).
Proof.
  intros Hcmd Hmissing. unfold handle_command. rewrite Hcmd. dispatch.
  unfold run, bind, os_path_exists, observe. rewrite Hmissing. reflexivity.
Qed.

(** C7.  An [open] request for an existing [path], when [get_uno_context]
    finds no session: [subprocess.Popen] is called with
    [soffice --impress --accept=... path]; if that call returns, the response is
    [{"success": true}], if it raises, a failure response; in both cases the
    response follows the call at once, with no further look at the
    application. *)
Theorem open_launches_without_session cmd path w t1 w1 r w2 :
  command cmd = "open" ->
  file_path cmd = Some path ->
  path_exists path w = true ->
  run get_uno_context w = (t1, w1, Ret None) ->
  subprocess_Popen
    ["soffice"; "--impress"; "--accept=socket,host=localhost,port=2002;urp;"; path] w1
  = (r, w2) ->
  run (handle_command cmd) w =
    (t1 ++ [Called (CPopen ["soffice"; "--impress";
                            "--accept=socket,host=localhost,port=2002;urp;"; path])
                   (raised_of r);
            Printed (match r with
                     | inr _ => JObj [("success", JBool true)]
                     | inl _ => launch_failure
                     end)],
     w2, Ret tt)
  /\ Forall (fun c => c = CResolve) (calls t1).
Proof.
  intros Hcmd Hpath Hexists Hctx Hspawn. split.
  - unfold handle_command. rewrite Hcmd, Hpath. dispatch. cbn [of_option].
    unfold os_path_exists, observe. rewrite run_bind. unfold run at 1. rewrite Hexists.
    cbn [negb]. rewrite (run_bind_ret _ _ _ _ _ _ Hctx).
    assert (Hcmdline : launch_command path =
                       ["soffice"; "--impress";
                        "--accept=socket,host=localhost,port=2002;urp;"; path]).
    { destruct path; [discriminate Hexists | reflexivity]. }
    unfold launch_libreoffice_with_socket. rewrite Hcmdline.
    unfold run, bind, try_except, invoke, respond, emit. rewrite Hspawn.
    destruct r as [e|[]]; cbn; now rewrite ?app_nil_r.
  - apply get_uno_context_none in Hctx as [-> | (e & ->)]; cbn; auto.
Qed.

End Open.

Section Status.
Context {W : Type} {OF : Office W}.
Implicit Types (w : W) (t : list event).

Ltac answer_call :=
  match goal with
  | |- context [match ?x with _ => _ end] =>
      lazymatch x with
      | context [match _ with _ => _ end] => fail
      | _ => destruct x
      end
  end; cbn.

Lemma get_presentation_silent d w t w' o :
  run (get_presentation d) w = (t, w', o) -> printed t = [].
Proof.
  unfold get_presentation, getCurrentComponent, getPresentation.
  unfold run, try_except, bind, invoke, ret.
  repeat answer_call; intros H; now injection H as <- _ _.
Qed.

Lemma get_slideshow_controller_silent d w t w' o :
  run (get_slideshow_controller d) w = (t, w', o) -> printed t = [].
Proof.
  unfold get_slideshow_controller, getCurrentComponent, getPresentation, isRunning,
    getController.
  unfold run, try_except, bind, invoke, ret.
  repeat answer_call; intros H; now injection H as <- _ _.
Qed.

(** The run has been computed: name its trace and read the response off. *)
Ltac answered :=
  eexists; (split; [reflexivity|]);
  repeat rewrite responses_app;
  repeat match goal with H : printed _ = [] |- _ => rewrite H end;
  cbn;
  solve [ reflexivity
        | match goal with |- context [str ?e] => destruct (str e); reflexivity end ].

(** C3, as the code has it.  A [get_status] request with a session and a
    desktop is answered by exactly one response, which is fixed by what the
    reads answer in this run:
    - the read of the current document raises [e]: [success: false], with
      [str(e)] as error when that is not empty;
    - there is no document: [success: true] with the record
      [false, null, null, false];
    - there is one: [total_slides] is the page count, and null when
      [getDrawPages] or [getCount] raises, which never makes the response a
      failure.  When [get_presentation] finds nothing (also because a read in
      it raised) or [isRunning] answers false, the record is
      [false, null, total, false].  When [isRunning] raises [e], the response
      is the failure with [str(e)].  When it answers true and
      [get_slideshow_controller] finds nothing, the record is
      [true, null, total, false]; with a controller whose position is [i] and
      whose paused flag is [b] it is [true, i + 1, total, b]; and when either
      of these two reads raises [e], the response is the failure with
      [str(e)]. *)
Theorem get_status_best_effort cmd w0 t0 w1 ctx d w2 :
  command cmd = "get_status" ->
  run get_uno_context w0 = (t0, w1, Ret (Some ctx)) ->
  uno_create_desktop ctx w1 = (inr d, w2) ->
  let answers (j : json) (w : W) :=
    exists t, run (handle_command cmd) w0 = (t, w, Ret tt) /\ printed t = [j] in
  let failed (e : exn) :=
    JObj (("success", JBool false)
          :: match str e with
             | EmptyString => []
             | msg => [("error", JStr msg)]
             end) in
  let status (active : bool) (current total : json) (blanked : bool) :=
    JObj [("success", JBool true);
          ("data", JObj [("slideshow_active", JBool active);
                         ("current_slide", current);
                         ("total_slides", total);
                         ("blanked", JBool blanked)])] in
  (forall e w3,
      uno_getCurrentComponent d w2 = (inl e, w3) ->
      answers (failed e) w3)
  /\
  (forall w3,
      uno_getCurrentComponent d w2 = (inr None, w3) ->
      answers (status false JNull JNull false) w3)
  /\
  (forall doc w3 total w4 tp w5 p,
      uno_getCurrentComponent d w2 = (inr (Some doc), w3) ->
      ((exists e, uno_getDrawPages doc w3 = (inl e, w4)) /\ total = JNull
       \/
       (exists pages w e, uno_getDrawPages doc w3 = (inr pages, w) /\
                          uno_getCount pages w = (inl e, w4)) /\ total = JNull
       \/
       (exists pages w n, uno_getDrawPages doc w3 = (inr pages, w) /\
                          uno_getCount pages w = (inr n, w4) /\ total = JInt n)) ->
      run (get_presentation d) w4 = (tp, w5, Ret p) ->
      (p = None -> answers (status false JNull total false) w5)
      /\
      (forall pr, p = Some pr ->
         (forall e w6, uno_isRunning pr w5 = (inl e, w6) -> answers (failed e) w6)
         /\
         (forall w6, uno_isRunning pr w5 = (inr false, w6) ->
                     answers (status false JNull total false) w6)
         /\
         (forall w6 tc w7 c,
             uno_isRunning pr w5 = (inr true, w6) ->
             run (get_slideshow_controller d) w6 = (tc, w7, Ret c) ->
             (c = None -> answers (status true JNull total false) w7)
             /\
             (forall k, c = Some k ->
                (forall e w8, uno_getCurrentSlideIndex k w7 = (inl e, w8) ->
                              answers (failed e) w8)
                /\
                (forall i w8,
                    uno_getCurrentSlideIndex k w7 = (inr i, w8) ->
                    (forall e w9, uno_isPaused k w8 = (inl e, w9) -> answers (failed e) w9)
                    /\
                    (forall b w9, uno_isPaused k w8 = (inr b, w9) ->
                                  answers (status true (JInt (i + 1)) total b) w9)))))).
Proof.
  intros Hcmd Hctx Hdesk. cbv zeta.
  pose proof (get_uno_context_silent _ _ _ _ Hctx) as Hq0.
  assert (Hstart : forall k : desktop -> M W event unit,
             run (ctx' <- get_uno_context ;;
                  match ctx' with
                  | None => respond false
                              (Some "LibreOffice is not running or UNO socket not available") []
                  | Some c => d' <- get_desktop c ;; k d'
                  end) w0
             = let '(t, w, o) := run (k d) w2 in
               (t0 ++ [Called (CCreateDesktop ctx) None] ++ t, w, o)).
  { intros k. rewrite (run_bind_ret _ _ _ _ _ _ Hctx).
    unfold get_desktop. unfold run, bind, invoke. rewrite Hdesk.
    now destruct (k d w2) as [[t w] o]. }
  unfold handle_command. rewrite Hcmd. dispatch. rewrite Hstart.
  unfold getCurrentComponent, isRunning, respond.
  unfold run, try_except, bind, invoke, emit, ret.
  split; [|split].
  - intros e w3 Hdoc. rewrite Hdoc. cbv beta iota zeta.
    eexists. split; [reflexivity|].
    rewrite !responses_app, Hq0. now destruct (str e).
  - intros w3 Hdoc. rewrite Hdoc. cbv beta iota zeta.
    eexists. split; [reflexivity|].
    rewrite !responses_app, Hq0. reflexivity.
  - intros doc w3 total w4 tp w5 p Hdoc Hcount Hp.
    pose proof (get_presentation_silent _ _ _ _ _ Hp) as Hqp.
    unfold run in Hp. rewrite Hdoc. cbv beta iota zeta.
    destruct Hcount as [[(e & Hpages) ->]
                       |[[(pages & w & e & Hpages & Hn) ->]
                        |(pages & w & n & Hpages & Hn & ->)]];
      rewrite Hpages; cbv beta iota zeta; try (rewrite Hn; cbv beta iota zeta);
      rewrite Hp; cbv beta iota zeta.
    all: split; [intros ->; cbv beta iota zeta; answered|].
    all: intros pr ->; cbv beta iota zeta; split; [|split].
    all: try (intros e' w6 Hrun; rewrite Hrun; cbv beta iota zeta; answered).
    all: try (intros w6 Hrun; rewrite Hrun; cbv beta iota zeta; answered).
    all: intros w6 tc w7 c Hrun Hc;
      pose proof (get_slideshow_controller_silent _ _ _ _ _ Hc) as Hqc;
      unfold run in Hc; rewrite Hrun; cbv beta iota zeta; rewrite Hc; cbv beta iota zeta.
    all: split; [intros ->; cbv beta iota zeta; answered|].
    all: intros k ->; cbv beta iota zeta; split.
    all: try (intros e' w8 Hi; rewrite Hi; cbv beta iota zeta; answered).
    all: intros i w8 Hi; rewrite Hi; cbv beta iota zeta; split.
    all: try (intros e' w9 Hb; rewrite Hb; cbv beta iota zeta; answered).
    all: intros b w9 Hb; rewrite Hb; cbv beta iota zeta; answered.
Qed.

End Status.

(** ** Concrete runs on the scripted machine *)

Section Runs.
Import Fake.

(** The file is not there. *)
Lemma open_missing_file_witness :
  run (handle_command (OF := office presenting) (request "open" (Some "/tmp/gone.odp"))) tt =
    ([Printed (JObj [("success", JBool false);
                     ("error", JStr "File not found: /tmp/gone.odp")])], tt, Ret tt).
Proof.
  refine (open_missing_file (OF := office presenting)
            (request "open" (Some "/tmp/gone.odp")) tt _ _).
  - reflexivity.
  - reflexivity.
Defined.

(** LibreOffice is not running: the spawn works, the spawn fails. *)
Lemma open_launches_without_session_witness :
  serve (closed (inr tt)) (request "open" (Some sermon)) =
    ([Called CResolve (Some no_connect);
      Called (CPopen ["soffice"; "--impress";
                      "--accept=socket,host=localhost,port=2002;urp;"; sermon]) None;
      Printed (JObj [("success", JBool true)])], Ret tt)
  /\
  serve (closed (inl no_soffice)) (request "open" (Some sermon)) =
    ([Called CResolve (Some no_connect);
      Called (CPopen ["soffice"; "--impress";
                      "--accept=socket,host=localhost,port=2002;urp;"; sermon])
             (Some no_soffice);
      Printed launch_failure], Ret tt).
Proof.
  split.
  - unfold serve.
    rewrite (proj1 (open_launches_without_session (OF := office (closed (inr tt)))
                      (request "open" (Some sermon)) sermon tt
                      [Called CResolve (Some no_connect)] tt (inr tt) tt
                      eq_refl eq_refl eq_refl eq_refl eq_refl)).
    reflexivity.
  - unfold serve.
    rewrite (proj1 (open_launches_without_session (OF := office (closed (inl no_soffice)))
                      (request "open" (Some sermon)) sermon tt
                      [Called CResolve (Some no_connect)] tt (inl no_soffice) tt
                      eq_refl eq_refl eq_refl eq_refl eq_refl)).
    reflexivity.
Defined.

(** C3 as stated fails: the session and the desktop are there, every read
    through them raises, and the response is [success: false]. *)
Lemma get_status_fails_with_session :
  run (get_uno_context (OF := office failing)) tt
  = ([Called CResolve None], tt, Ret (Some (Context 1))) /\
  serve failing (request "get_status" None) =
    ([Called CResolve None; Called (CCreateDesktop (Context 1)) None;
      Called (CGetCurrentComponent (Desktop 2)) (Some disposed);
      Printed (JObj [("success", JBool false);
                     ("error", JStr "Binary URP bridge disposed during call")])],
     Ret tt) /\
  ~ (exists j, printed (fst (serve failing (request "get_status" None))) = [j] /\
               is_success_with_data j).
Proof.
  split; [reflexivity|]. split; [reflexivity|].
  intros (j & Hj & data & ->). vm_compute in Hj. discriminate Hj.
Qed.

(** Four machines: every read fails; the page count and the presentation
    cannot be read; the page count cannot be read while a blanked slideshow
    runs; the paused flag cannot be read. *)
Lemma get_status_best_effort_witness :
  (exists t,
      run (handle_command (OF := office failing) (request "get_status" None)) tt
      = (t, tt, Ret tt) /\
      printed t = [JObj [("success", JBool false);
                         ("error", JStr "Binary URP bridge disposed during call")]])
  /\
  (exists t,
      run (handle_command (OF := office unreadable) (request "get_status" None)) tt
      = (t, tt, Ret tt) /\
      printed t = [JObj [("success", JBool true);
                         ("data", JObj [("slideshow_active", JBool false);
                                        ("current_slide", JNull);
                                        ("total_slides", JNull);
                                        ("blanked", JBool false)])]])
  /\
  (exists t,
      run (handle_command (OF := office uncounted) (request "get_status" None)) tt
      = (t, tt, Ret tt) /\
      printed t = [JObj [("success", JBool true);
                         ("data", JObj [("slideshow_active", JBool true);
                                        ("current_slide", JInt 3);
                                        ("total_slides", JNull);
                                        ("blanked", JBool true)])]])
  /\
  (exists t,
      run (handle_command (OF := office stalled) (request "get_status" None)) tt
      = (t, tt, Ret tt) /\
      printed t = [JObj [("success", JBool false);
                         ("error", JStr "Binary URP bridge disposed during call")]]).
Proof.
  split; [|split; [|split]].
  - pose proof (get_status_best_effort (OF := office failing)
                  (request "get_status" None) tt [Called CResolve None] tt
                  (Context 1) (Desktop 2) tt eq_refl eq_refl eq_refl) as H.
    cbv zeta in H. destruct H as (H & _).
    exact (H disposed tt eq_refl).
  - pose proof (get_status_best_effort (OF := office unreadable)
                  (request "get_status" None) tt [Called CResolve None] tt
                  (Context 1) (Desktop 2) tt eq_refl eq_refl eq_refl) as H.
    cbv zeta in H. destruct H as (_ & _ & H).
    assert (Hp : run (get_presentation (OF := office unreadable) (Desktop 2)) tt =
                 ([Called (CGetCurrentComponent (Desktop 2)) None;
                   Called (CGetPresentation (Document 3)) (Some disposed)], tt, Ret None))
      by reflexivity.
    refine (proj1 (H (Document 3) tt JNull tt _ tt None eq_refl _ Hp) eq_refl).
    left. split; [|reflexivity]. exists disposed. reflexivity.
  - pose proof (get_status_best_effort (OF := office uncounted)
                  (request "get_status" None) tt [Called CResolve None] tt
                  (Context 1) (Desktop 2) tt eq_refl eq_refl eq_refl) as H.
    cbv zeta in H. destruct H as (_ & _ & H).
    assert (Hp : run (get_presentation (OF := office uncounted) (Desktop 2)) tt =
                 (presentation_trace, tt, Ret (Some (Presentation 5)))) by reflexivity.
    assert (Hc : run (get_slideshow_controller (OF := office uncounted) (Desktop 2)) tt =
                 (lookup_trace, tt, Ret (Some (Controller 6)))) by reflexivity.
    assert (Hcount :
              (exists e, uno_getDrawPages (Office := office uncounted) (Document 3) tt
                         = (inl e, tt)) /\ JNull = JNull
              \/
              (exists pages w e,
                  uno_getDrawPages (Office := office uncounted) (Document 3) tt
                  = (inr pages, w) /\
                  uno_getCount (Office := office uncounted) pages w = (inl e, tt))
              /\ JNull = JNull
              \/
              (exists pages w n,
                  uno_getDrawPages (Office := office uncounted) (Document 3) tt
                  = (inr pages, w) /\
                  uno_getCount (Office := office uncounted) pages w = (inr n, tt) /\
                  JNull = JInt n)).
    { right. left. split; [|reflexivity]. exists (DrawPages 4), tt, disposed. now split. }
    destruct (H (Document 3) tt JNull tt _ tt _ eq_refl Hcount Hp) as (_ & H1).
    destruct (H1 (Presentation 5) eq_refl) as (_ & _ & H2).
    destruct (H2 tt _ tt _ eq_refl Hc) as (_ & H3).
    destruct (H3 (Controller 6) eq_refl) as (_ & H4).
    destruct (H4 2%Z tt eq_refl) as (_ & H5).
    exact (H5 true tt eq_refl).
  - pose proof (get_status_best_effort (OF := office stalled)
                  (request "get_status" None) tt [Called CResolve None] tt
                  (Context 1) (Desktop 2) tt eq_refl eq_refl eq_refl) as H.
    cbv zeta in H. destruct H as (_ & _ & H).
    assert (Hp : run (get_presentation (OF := office stalled) (Desktop 2)) tt =
                 (presentation_trace, tt, Ret (Some (Presentation 5)))) by reflexivity.
    assert (Hc : run (get_slideshow_controller (OF := office stalled) (Desktop 2)) tt =
                 (lookup_trace, tt, Ret (Some (Controller 6)))) by reflexivity.
    assert (Hcount :
              (exists e, uno_getDrawPages (Office := office stalled) (Document 3) tt
                         = (inl e, tt)) /\ JInt 12 = JNull
              \/
              (exists pages w e,
                  uno_getDrawPages (Office := office stalled) (Document 3) tt
                  = (inr pages, w) /\
                  uno_getCount (Office := office stalled) pages w = (inl e, tt))
              /\ JInt 12 = JNull
              \/
              (exists pages w n,
                  uno_getDrawPages (Office := office stalled) (Document 3) tt
                  = (inr pages, w) /\
                  uno_getCount (Office := office stalled) pages w = (inr n, tt) /\
                  JInt 12 = JInt n)).
    { right. right. exists (DrawPages 4), tt, 12%Z. now repeat split. }
    destruct (H (Document 3) tt (JInt 12) tt _ tt _ eq_refl Hcount Hp) as (_ & H1).
    destruct (H1 (Presentation 5) eq_refl) as (_ & _ & H2).
    destruct (H2 tt _ tt _ eq_refl Hc) as (_ & H3).
    destruct (H3 (Controller 6) eq_refl) as (_ & H4).
    destruct (H4 2%Z tt eq_refl) as (H5 & _).
    exact (H5 disposed tt eq_refl).
Defined.

Example get_status_unreadable :
  printed (fst (serve unreadable (request "get_status" None)))
  = [JObj [("success", JBool true); ("data", status_record false None None false)]].
Proof. reflexivity. Qed.

Example get_status_presenting :
  printed (fst (serve presenting (request "get_status" None)))
  = [JObj [("success", JBool true);
           ("data", status_record true (Some 3%Z) (Some 12%Z) false)]].
Proof. reflexivity. Qed.

End Runs.

(* ================================================================== *)
(** ** Every command, every machine *)

Section Discipline.
Context {W : Type} {OF : Office W}.
Implicit Types (w : W) (t : list event).

Ltac answer_next :=
  match goal with
  | |- context [match ?x with _ => _ end] =>
      lazymatch x with
      | context [match _ with _ => _ end] => fail
      | _ => destruct x eqn:?
      end
  end.

Ltac unfold_script :=
  unfold handle_command, with_controller, no_slideshow, os_path_exists,
    launch_libreoffice_with_socket;
  unfold get_uno_context, get_desktop, get_presentation, get_slideshow_controller;
  unfold getCurrentComponent, getPresentation, isRunning, getController, respond;
  unfold run, try_except, bind, emit, invoke, observe, ret, sys_exit.

(** How a command can end. *)
Lemma handle_command_shapes cmd w :
  let t := fst (fst (run (handle_command cmd) w)) in
  let o := snd (run (handle_command cmd) w) in
  (o = Ret tt /\ List.length (printed t) = 1%nat)
  \/
  (o = Exit 0 /\ command cmd = "quit" /\ t = [Printed (JObj [("success", JBool true)])])
  \/
  (exists e ctx,
      o = Raise e /\ printed t = [] /\
      last t (Slept 0) = Called (CCreateDesktop ctx) (Some e)).
Proof.
  cbv zeta. unfold_script.
  repeat (answer_next; cbn);
    first [ left; split; reflexivity
          | right; left; split; [reflexivity|]; split; [|reflexivity];
            now apply String.eqb_eq
          | right; right; eexists _, _; split; [reflexivity|]; split; reflexivity ].
Qed.

(** X13.  On a request as [cmd_data] holds it ([file_path] a string when
    present, the slide numbers integers when present), [handle_command]
    answers with exactly one response and returns, with two exceptions:
    [quit] prints [{"success": true}] and exits with status 0; and an
    exception raised while the desktop is created ([get_desktop], which no
    handler of [handle_command] guards) escapes with nothing printed, the
    failed call being the last event.  Requests with values of other types
    are not covered: on a [file_path] that is null or no string,
    [os.path.exists] (line 131, outside every [try]) can raise as well. *)
Theorem handle_command_responses cmd w t w' o :
  run (handle_command cmd) w = (t, w', o) ->
  (o = Ret tt /\ List.length (printed t) = 1%nat)
  \/
  (o = Exit 0 /\ command cmd = "quit" /\ t = [Printed (JObj [("success", JBool true)])])
  \/
  (exists e ctx,
      o = Raise e /\ printed t = [] /\
      last t (Slept 0) = Called (CCreateDesktop ctx) (Some e)).
Proof.
  intros Hrun. pose proof (handle_command_shapes cmd w) as H.
  cbv zeta in H. rewrite Hrun in H. exact H.
Qed.

(** X14.  The lookups never raise: [get_uno_context], [get_presentation] and
    [get_slideshow_controller] always return (a handle or [None]), and
    [launch_libreoffice_with_socket] always returns a truth value; none of
    them prints. *)
Theorem lookups_never_raise w :
  (exists t w' r, run get_uno_context w = (t, w', Ret r) /\ printed t = []) /\
  (forall d, exists t w' r, run (get_presentation d) w = (t, w', Ret r) /\ printed t = []) /\
  (forall d, exists t w' r,
      run (get_slideshow_controller d) w = (t, w', Ret r) /\ printed t = []) /\
  (forall path, exists t w' r,
      run (launch_libreoffice_with_socket path) w = (t, w', Ret r) /\ printed t = []).
Proof.
  repeat split; intros;
    unfold launch_libreoffice_with_socket, get_uno_context, get_presentation,
      get_slideshow_controller;
    unfold getCurrentComponent, getPresentation, isRunning, getController;
    unfold run, try_except, bind, emit, invoke, ret;
    repeat (answer_next; cbn); eexists _, _, _; split; reflexivity.
Qed.

(** With a session and a desktop, the commands after [open] run their own
    part. *)
Lemma with_desktop w0 t0 w1 ctx d w2 (k : desktop -> M W event unit) :
  run get_uno_context w0 = (t0, w1, Ret (Some ctx)) ->
  uno_create_desktop ctx w1 = (inr d, w2) ->
  run (ctx' <- get_uno_context ;;
       match ctx' with
       | None => respond false
                   (Some "LibreOffice is not running or UNO socket not available") []
       | Some c => d' <- get_desktop c ;; k d'
       end) w0
  = let '(t, w, o) := run (k d) w2 in
    (t0 ++ [Called (CCreateDesktop ctx) None] ++ t, w, o).
Proof.
  intros Hctx Hdesk. rewrite (run_bind_ret _ _ _ _ _ _ Hctx).
  unfold get_desktop. unfold run, bind, invoke. rewrite Hdesk.
  now destruct (k d w2) as [[t w] o].
Qed.

(** Decide the dispatch for a command that is none of the given names. *)
Ltac not_named Hnot :=
  repeat match goal with
         | |- context [String.eqb (command ?c) ?n] =>
             replace (String.eqb (command c) n) with false
               by (symmetry; apply String.eqb_neq;
                   let E := fresh in intros E; apply Hnot; rewrite E; cbn; tauto)
         end.

(** X15.  [is_running] always answers [success: true]; [running] tells
    whether [get_uno_context] found a session; nothing but the lookup
    happens. *)
Theorem is_running_response cmd w t0 w1 ctx :
  command cmd = "is_running" ->
  run get_uno_context w = (t0, w1, Ret ctx) ->
  run (handle_command cmd) w =
    (t0 ++ [Printed (JObj [("success", JBool true);
                           ("running", JBool (match ctx with Some _ => true | None => false end))])],
     w1, Ret tt).
Proof.
  intros Hcmd Hctx. unfold handle_command. rewrite Hcmd. dispatch.
  rewrite (run_bind_ret _ _ _ _ _ _ Hctx). reflexivity.
Qed.

(** X16.  Without a session, every command other than [quit], [is_running]
    and [open] (a name [handle_command] does not know included) is answered
    with [LibreOffice is not running or UNO socket not available]; nothing
    happens after the lookup. *)
Theorem command_without_session cmd w t0 w1 :
  ~ In (command cmd) ["quit"; "is_running"; "open"] ->
  run get_uno_context w = (t0, w1, Ret None) ->
  run (handle_command cmd) w = (t0 ++ [Printed not_running_response], w1, Ret tt).
Proof.
  intros Hnot Hctx. unfold handle_command. not_named Hnot. cbv iota.
  rewrite (run_bind_ret _ _ _ _ _ _ Hctx). reflexivity.
Qed.

(** X17.  With a session and a desktop, a name that is none of the twelve
    commands is answered with [Unknown command: <name>]. *)
Theorem unknown_command cmd w0 t0 w1 ctx d w2 :
  ~ In (command cmd) known_commands ->
  run get_uno_context w0 = (t0, w1, Ret (Some ctx)) ->
  uno_create_desktop ctx w1 = (inr d, w2) ->
  run (handle_command cmd) w0 =
    (t0 ++ [Called (CCreateDesktop ctx) None;
            Printed (JObj [("success", JBool false);
                           ("error", JStr ("Unknown command: " ++ command cmd))])],
     w2, Ret tt).
Proof.
  intros Hnot Hctx Hdesk. unfold handle_command, known_commands in *.
  not_named Hnot. cbv iota.
  rewrite (run_bind_ret _ _ _ _ _ _ Hctx).
  unfold get_desktop. unfold run, bind, invoke, respond, emit. rewrite Hdesk. cbn.
  reflexivity.
Qed.

(** Both sides are the same trace, bracketed differently. *)
Ltac same_trace :=
  repeat (rewrite <- app_assoc || rewrite <- app_comm_cons || rewrite app_nil_r);
  cbn [app]; reflexivity.

Lemma respond_failure (msg : string) w :
  run (respond false (Some msg) []) w = ([Printed (failure_response msg)], w, Ret tt).
Proof. destruct msg; reflexivity. Qed.

(** X18.  The six slideshow commands, when [get_slideshow_controller] finds
    no running slideshow: the answer is [No slideshow active], and nothing is
    called after the lookup. *)
Theorem slideshow_command_without_show cmd w0 t0 w1 ctx d w2 tc w3 :
  In (command cmd) slideshow_commands ->
  run get_uno_context w0 = (t0, w1, Ret (Some ctx)) ->
  uno_create_desktop ctx w1 = (inr d, w2) ->
  run (get_slideshow_controller d) w2 = (tc, w3, Ret None) ->
  run (handle_command cmd) w0 =
    (t0 ++ [Called (CCreateDesktop ctx) None] ++ tc
        ++ [Printed (JObj [("success", JBool false); ("error", JStr "No slideshow active")])],
     w3, Ret tt).
Proof.
  intros Hin Hctx Hdesk Hc. unfold slideshow_commands in Hin. cbn [In] in Hin.
  unfold handle_command.
  destruct Hin as [<-|[<-|[<-|[<-|[<-|[<-|[]]]]]]]; dispatch;
    rewrite (with_desktop _ _ _ _ _ _ _ Hctx Hdesk);
    unfold with_controller; rewrite run_try_except, (run_bind_ret _ _ _ _ _ _ Hc);
    cbn; same_trace.
Qed.

(** X19.  [goto_slide] with a running slideshow: the slide number (1 when the
    request has none) is turned into the 0-based index [number - 1] for
    [gotoSlideIndex]; the answer is [success: true] when that call returns and
    a failure with the error's text when it raises. *)
Theorem goto_slide_index cmd w0 t0 w1 ctx d w2 tc w3 c r w4 :
  command cmd = "goto_slide" ->
  run get_uno_context w0 = (t0, w1, Ret (Some ctx)) ->
  uno_create_desktop ctx w1 = (inr d, w2) ->
  run (get_slideshow_controller d) w2 = (tc, w3, Ret (Some c)) ->
  uno_gotoSlideIndex c (of_option 1 (slide_number cmd) - 1)%Z w3 = (r, w4) ->
  run (handle_command cmd) w0 =
    (t0 ++ [Called (CCreateDesktop ctx) None] ++ tc
        ++ [Called (CGotoSlideIndex c (of_option 1 (slide_number cmd) - 1)%Z) (raised_of r);
            Printed (match r with
                     | inr _ => success_response
                     | inl e => failure_response (str e)
                     end)],
     w4, Ret tt).
Proof.
  intros Hcmd Hctx Hdesk Hc Hgo. unfold handle_command. rewrite Hcmd. dispatch.
  rewrite (with_desktop _ _ _ _ _ _ _ Hctx Hdesk).
  unfold with_controller. rewrite run_try_except, (run_bind_ret _ _ _ _ _ _ Hc).
  unfold run, bind, invoke. rewrite Hgo.
  destruct r as [e|[]]; cbv beta iota.
  - pose proof (respond_failure (str e) w4) as Hr. unfold run in Hr. rewrite Hr.
    cbn. same_trace.
  - cbn. same_trace.
Qed.

(** X20.  [start_slideshow].  Without a presentation document the answer is
    [No presentation document open] and nothing is started.  With a starting
    slide [n], the presentation is started, the script sleeps half a second
    and looks the controller up: if there is none, the answer is still
    [success: true] and no slide is selected; if there is one,
    [gotoSlideIndex(n - 1)%Z] is called on it. *)
Theorem start_slideshow_from_slide cmd w0 t0 w1 ctx d w2 tp w3 :
  command cmd = "start_slideshow" ->
  run get_uno_context w0 = (t0, w1, Ret (Some ctx)) ->
  uno_create_desktop ctx w1 = (inr d, w2) ->
  (run (get_presentation d) w2 = (tp, w3, Ret None) ->
   run (handle_command cmd) w0 =
     (t0 ++ [Called (CCreateDesktop ctx) None] ++ tp
         ++ [Printed (JObj [("success", JBool false);
                            ("error", JStr "No presentation document open")])],
      w3, Ret tt))
  /\
  (forall p n w4 tc w5,
      run (get_presentation d) w2 = (tp, w3, Ret (Some p)) ->
      from_slide cmd = Some n ->
      uno_start p w3 = (inr tt, w4) ->
      run (get_slideshow_controller d) w4 = (tc, w5, Ret None) ->
      run (handle_command cmd) w0 =
        (t0 ++ [Called (CCreateDesktop ctx) None] ++ tp
            ++ [Called (CStart p) None; Slept 500] ++ tc ++ [Printed success_response],
         w5, Ret tt))
  /\
  (forall p n w4 tc w5 c r w6,
      run (get_presentation d) w2 = (tp, w3, Ret (Some p)) ->
      from_slide cmd = Some n ->
      uno_start p w3 = (inr tt, w4) ->
      run (get_slideshow_controller d) w4 = (tc, w5, Ret (Some c)) ->
      uno_gotoSlideIndex c (n - 1)%Z w5 = (r, w6) ->
      run (handle_command cmd) w0 =
        (t0 ++ [Called (CCreateDesktop ctx) None] ++ tp
            ++ [Called (CStart p) None; Slept 500] ++ tc
            ++ [Called (CGotoSlideIndex c (n - 1)%Z) (raised_of r);
                Printed (match r with
                         | inr _ => success_response
                         | inl e => failure_response (str e)
                         end)],
         w6, Ret tt)).
Proof.
  intros Hcmd Hctx Hdesk. unfold handle_command. rewrite Hcmd. dispatch.
  rewrite (with_desktop _ _ _ _ _ _ _ Hctx Hdesk). split; [|split].
  - intros Hp. rewrite run_try_except, (run_bind_ret _ _ _ _ _ _ Hp).
    cbn. same_trace.
  - intros p n w4 tc w5 Hp Hfrom Hstart Hc.
    rewrite run_try_except, (run_bind_ret _ _ _ _ _ _ Hp), Hfrom.
    rewrite !run_bind. unfold invoke at 1, run at 1. rewrite Hstart. cbn iota.
    rewrite run_bind. unfold emit at 1, run at 1. cbn iota.
    rewrite run_bind, Hc. cbn. same_trace.
  - intros p n w4 tc w5 c r w6 Hp Hfrom Hstart Hc Hgo.
    rewrite run_try_except, (run_bind_ret _ _ _ _ _ _ Hp), Hfrom.
    rewrite !run_bind. unfold invoke at 1, run at 1. rewrite Hstart. cbn iota.
    rewrite run_bind. unfold emit at 1, run at 1. cbn iota.
    rewrite run_bind, Hc. unfold run, invoke. rewrite Hgo.
    destruct r as [e|[]]; cbv beta iota.
    + pose proof (respond_failure (str e) w6) as Hr. unfold run in Hr. rewrite Hr.
      cbn. same_trace.
    + cbn. same_trace.
Qed.

(** X21.  [stop_slideshow] answers [success: true] without calling [end] when
    there is no presentation document, and when the presentation is not
    running. *)
Theorem stop_slideshow_idle cmd w0 t0 w1 ctx d w2 tp w3 :
  command cmd = "stop_slideshow" ->
  run get_uno_context w0 = (t0, w1, Ret (Some ctx)) ->
  uno_create_desktop ctx w1 = (inr d, w2) ->
  (run (get_presentation d) w2 = (tp, w3, Ret None) ->
   run (handle_command cmd) w0 =
     (t0 ++ [Called (CCreateDesktop ctx) None] ++ tp ++ [Printed success_response],
      w3, Ret tt))
  /\
  (forall p w4,
      run (get_presentation d) w2 = (tp, w3, Ret (Some p)) ->
      uno_isRunning p w3 = (inr false, w4) ->
      run (handle_command cmd) w0 =
        (t0 ++ [Called (CCreateDesktop ctx) None] ++ tp
            ++ [Called (CIsRunning p) None; Printed success_response],
         w4, Ret tt)).
Proof.
  intros Hcmd Hctx Hdesk. unfold handle_command. rewrite Hcmd. dispatch.
  rewrite (with_desktop _ _ _ _ _ _ _ Hctx Hdesk). split.
  - intros Hp. rewrite run_try_except, (run_bind_ret _ _ _ _ _ _ Hp).
    cbn. same_trace.
  - intros p w4 Hp Hrun.
    rewrite run_try_except, (run_bind_ret _ _ _ _ _ _ Hp).
    unfold isRunning, run, bind, invoke. rewrite Hrun. cbn.
    now rewrite <- ?app_assoc.
Qed.

(** X22.  [open] of an existing file with a session: the desktop is asked to
    load [file://<path>]; the answer is [success: true] when that returns and
    a failure with the error's text when it raises.  Here a failure to create
    the desktop is answered the same way instead of escaping. *)
Theorem open_with_session cmd path w0 t0 w1 ctx :
  command cmd = "open" ->
  file_path cmd = Some path ->
  path_exists path w0 = true ->
  run get_uno_context w0 = (t0, w1, Ret (Some ctx)) ->
  (forall d w2 r w3,
      uno_create_desktop ctx w1 = (inr d, w2) ->
      uno_loadComponentFromURL d ("file://" ++ path) w2 = (r, w3) ->
      run (handle_command cmd) w0 =
        (t0 ++ [Called (CCreateDesktop ctx) None;
                Called (CLoadComponentFromURL d ("file://" ++ path)) (raised_of r);
                Printed (match r with
                         | inr _ => success_response
                         | inl e => failure_response (str e)
                         end)],
         w3, Ret tt))
  /\
  (forall e w2,
      uno_create_desktop ctx w1 = (inl e, w2) ->
      run (handle_command cmd) w0 =
        (t0 ++ [Called (CCreateDesktop ctx) (Some e); Printed (failure_response (str e))],
         w2, Ret tt)).
Proof.
  intros Hcmd Hpath Hexists Hctx.
  assert (Hopen : forall k : context -> M W event unit,
             run (present <- os_path_exists path ;;
                  if negb present
                  then respond false (Some ("File not found: " ++ path)%string) []
                  else ctx' <- get_uno_context ;;
                       match ctx' with
                       | None =>
                           launched <- launch_libreoffice_with_socket path ;;
                           if launched then respond true None []
                           else respond false (Some "Failed to launch LibreOffice") []
                       | Some c => k c
                       end) w0
             = let '(t, w, o) := run (k ctx) w1 in (t0 ++ t, w, o)).
  { intros k. unfold os_path_exists, observe. rewrite run_bind. unfold run at 1.
    rewrite Hexists. cbn [negb]. rewrite (run_bind_ret _ _ _ _ _ _ Hctx).
    now destruct (run (k ctx) w1) as [[t w] o]. }
  unfold handle_command. rewrite Hcmd, Hpath. dispatch. cbn [of_option].
  rewrite Hopen. split.
  - intros d w2 r w3 Hdesk Hload.
    unfold get_desktop. unfold run, try_except, bind, invoke. rewrite Hdesk, Hload.
    destruct r as [e|[]]; cbv beta iota.
    + pose proof (respond_failure (str e) w3) as Hr. unfold run in Hr. rewrite Hr.
      cbn. reflexivity.
    + reflexivity.
  - intros e w2 Hdesk.
    unfold get_desktop. unfold run, try_except, bind, invoke. rewrite Hdesk.
    cbv beta iota.
    pose proof (respond_failure (str e) w2) as Hr. unfold run in Hr. rewrite Hr.
    cbn. reflexivity.
Qed.

End Discipline.

(** ** The main loop *)

Ltac other_name Hnot :=
  repeat match goal with
         | |- context [String.eqb (command ?c) ?n] =>
             replace (String.eqb (command c) n) with false
               by (symmetry; apply String.eqb_neq;
                   let E := fresh in intros E; apply Hnot; rewrite E; cbn; tauto)
         end.

(** X23.  An exception raised while the desktop is created, which escapes
    [handle_command], is caught by the loop of [main]: the line is answered
    with [Unexpected error: <text>] and the loop goes on. *)
Theorem desktop_failure_reported {W : Type} {OF : Office W} (loads : string -> decoded)
  line cmd (w0 : W) t0 w1 ctx e w2 :
  loads line = Object cmd ->
  ~ In (command cmd) ["quit"; "is_running"; "open"] ->
  run get_uno_context w0 = (t0, w1, Ret (Some ctx)) ->
  uno_create_desktop ctx w1 = (inl e, w2) ->
  run (serve_line loads line) w0 =
    (t0 ++ [Called (CCreateDesktop ctx) (Some e);
            Printed (JObj [("success", JBool false);
                           ("error", JStr ("Unexpected error: " ++ str e))])],
     w2, Ret tt).
Proof.
  intros Hloads Hnot Hctx Hdesk. unfold serve_line. rewrite Hloads, run_try_except.
  unfold handle_command. other_name Hnot. cbv iota.
  rewrite (run_bind_ret _ _ _ _ _ _ Hctx).
  unfold get_desktop. unfold run, bind, invoke. rewrite Hdesk. cbn.
  now rewrite <- app_assoc.
Qed.

Section Loop.
Context {W : Type} {OF : Office W}.
Variable strip : string -> string.
Variable loads : string -> decoded.
Implicit Types (w : W) (t : list event).

Lemma serve_line_shapes line w :
  exists t w' o,
    run (serve_line loads line) w = (t, w', o) /\
    ((o = Ret tt /\ List.length (printed t) = 1%nat) \/
     (o = Exit 0 /\ t = [Printed success_response] /\
      exists cmd, loads line = Object cmd /\ command cmd = "quit")).
Proof.
  unfold serve_line. destruct (loads line) as [cmd|msg|e] eqn:Hloads.
  - rewrite run_try_except.
    pose proof (handle_command_shapes cmd w) as H. cbv zeta in H.
    destruct (run (handle_command cmd) w) as [[t w'] o]. cbn [fst snd] in H.
    destruct H as [(-> & Hp) | [(-> & Hq & ->) | (e & ctx & -> & Hp & _)]].
    + eexists _, _, _. split; [reflexivity|]. now left.
    + eexists _, _, _. split; [reflexivity|]. right. repeat split. now exists cmd.
    + cbn. eexists _, _, _. split; [reflexivity|]. left. split; [reflexivity|].
      now rewrite responses_app, Hp.
  - eexists _, _, _. split; [reflexivity|]. now left.
  - eexists _, _, _. split; [reflexivity|]. now left.
Qed.


(** X25.  [quit] ends the loop: the first line that asks to quit is answered
    with [{"success": true}] and the process exits with status 0; every line
    before it got its response, and the lines after it are never looked at. *)
Theorem main_stops_at_quit before line after w :
  forallb (goes_on strip loads) before = true ->
  is_quit strip loads line = true ->
  exists t w',
    run (main strip loads (before ++ line :: after)) w = (t ++ [Printed success_response], w', Exit 0) /\
    List.length (printed t) = List.length (filter (answered strip) before) /\
    run (main strip loads (before ++ line :: after)) w
    = run (main strip loads (before ++ [line])) w.
Proof.
  intros Hgo Hquit. revert w. induction before as [|l rest IH]; intros w.
  - unfold is_quit, is_blank in Hquit.
    destruct (strip line) as [|c s] eqn:Hstrip; [discriminate Hquit|].
    cbn [negb andb] in Hquit.
    destruct (loads (String c s)) as [cmd| |] eqn:Hloads; try discriminate Hquit.
    apply String.eqb_eq in Hquit.
    assert (Hserve : run (serve_line loads (String c s)) w
                     = ([Printed success_response], w, Exit 0)).
    { unfold serve_line. rewrite Hloads, run_try_except.
      unfold handle_command. rewrite Hquit. reflexivity. }
    change ([] ++ line :: after) with (line :: after). change ([] ++ [line]) with [line].
    cbn [main]. rewrite Hstrip, !run_bind, Hserve. exists [], w. now repeat split.
  - cbn [forallb] in Hgo. apply andb_prop in Hgo as [Hl Hrest].
    unfold goes_on, is_quit, answered, is_blank in *.
    change ((l :: rest) ++ line :: after) with (l :: (rest ++ line :: after)).
    change ((l :: rest) ++ [line]) with (l :: (rest ++ [line])).
    cbn [main filter]. destruct (strip l) as [|c s] eqn:Hstrip.
    + cbn [negb]. exact (IH Hrest w).
    + cbn [negb List.length]. rewrite !run_bind.
      destruct (serve_line_shapes (String c s) w)
        as (t1 & w1 & o1 & Hrun & [(-> & Hp) | (-> & _ & cmd & Hloads & Hq)]).
      * rewrite Hrun. destruct (IH Hrest w1) as (t2 & w2 & Hrun2 & Hp2 & Hsame).
        rewrite <- Hsame, Hrun2. exists (t1 ++ t2), w2.
        rewrite responses_app, length_app, Hp, Hp2, <- app_assoc. now repeat split.
      * rewrite Hloads, Hq in Hl. discriminate Hl.
Qed.

End Loop.

(** ** More concrete runs *)

Section MoreRuns.
Import Fake.

(** The desktop cannot be created: the exception escapes [handle_command]. *)
Lemma handle_command_responses_witness :
  exists e ctx,
    snd (run (handle_command (OF := office no_desktop) (request "next" None)) tt) = Raise e /\
    printed (fst (fst (run (handle_command (OF := office no_desktop)
                              (request "next" None)) tt))) = [] /\
    last (fst (fst (run (handle_command (OF := office no_desktop) (request "next" None)) tt)))
         (Slept 0) = Called (CCreateDesktop ctx) (Some e).
Proof.
  assert (Hrun : run (handle_command (OF := office no_desktop) (request "next" None)) tt =
                 ([Called CResolve None; Called (CCreateDesktop (Context 1)) (Some disposed)],
                  tt, Raise disposed)) by reflexivity.
  destruct (handle_command_responses (OF := office no_desktop) _ _ _ _ _ Hrun)
    as [(Ho & _) | [(Ho & _) | (e & ctx & Ho & Hp & Hl)]];
    [discriminate Ho | discriminate Ho |].
  exists e, ctx. rewrite Hrun. now repeat split.
Defined.

Lemma is_running_response_witness :
  run (handle_command (OF := office (closed (inr tt))) (request "is_running" None)) tt =
    ([Called CResolve (Some no_connect);
      Printed (JObj [("success", JBool true); ("running", JBool false)])], tt, Ret tt)
  /\
  run (handle_command (OF := office presenting) (request "is_running" None)) tt =
    ([Called CResolve None;
      Printed (JObj [("success", JBool true); ("running", JBool true)])], tt, Ret tt).
Proof.
  split.
  - refine (is_running_response (OF := office (closed (inr tt)))
              (request "is_running" None) tt [Called CResolve (Some no_connect)] tt None _ _);
      reflexivity.
  - refine (is_running_response (OF := office presenting)
              (request "is_running" None) tt [Called CResolve None] tt
              (Some (Context 1)) _ _); reflexivity.
Defined.

(** A name the script does not know, without a session. *)
Lemma command_without_session_witness :
  run (handle_command (OF := office (closed (inr tt))) (request "dance" None)) tt =
    ([Called CResolve (Some no_connect); Printed not_running_response], tt, Ret tt).
Proof.
  refine (command_without_session (OF := office (closed (inr tt)))
            (request "dance" None) tt [Called CResolve (Some no_connect)] tt _ _).
  - cbn. intros [H|[H|[H|[]]]]; discriminate H.
  - reflexivity.
Defined.

Lemma unknown_command_witness :
  run (handle_command (OF := office presenting) (request "dance" None)) tt =
    ([Called CResolve None; Called (CCreateDesktop (Context 1)) None;
      Printed (JObj [("success", JBool false); ("error", JStr "Unknown command: dance")])],
     tt, Ret tt).
Proof.
  refine (unknown_command (OF := office presenting) (request "dance" None) tt
            [Called CResolve None] tt (Context 1) (Desktop 2) tt _ _ _).
  - cbn. intros H. repeat (destruct H as [H|H]; [discriminate H|]). exact H.
  - reflexivity.
  - reflexivity.
Defined.

Lemma slideshow_command_without_show_witness :
  run (handle_command (OF := office idle) (request "white_screen" None)) tt =
    ([Called CResolve None; Called (CCreateDesktop (Context 1)) None;
      Called (CGetCurrentComponent (Desktop 2)) None;
      Called (CGetPresentation (Document 3)) None;
      Called (CIsRunning (Presentation 5)) None;
      Printed (JObj [("success", JBool false); ("error", JStr "No slideshow active")])],
     tt, Ret tt).
Proof.
  refine (slideshow_command_without_show (OF := office idle) (request "white_screen" None)
            tt [Called CResolve None] tt (Context 1) (Desktop 2) tt
            [Called (CGetCurrentComponent (Desktop 2)) None;
             Called (CGetPresentation (Document 3)) None;
             Called (CIsRunning (Presentation 5)) None] tt _ _ _ _).
  - cbn. tauto.
  - reflexivity.
  - reflexivity.
  - reflexivity.
Defined.

(** Slide 5 is index 4; no slide number is index 0. *)
Lemma goto_slide_index_witness :
  run (handle_command (OF := office presenting) (mkCmd "goto_slide" None None (Some 5%Z))) tt =
    ([Called CResolve None; Called (CCreateDesktop (Context 1)) None] ++ lookup_trace
       ++ [Called (CGotoSlideIndex (Controller 6) 4) None; Printed success_response],
     tt, Ret tt)
  /\
  run (handle_command (OF := office presenting) (request "goto_slide" None)) tt =
    ([Called CResolve None; Called (CCreateDesktop (Context 1)) None] ++ lookup_trace
       ++ [Called (CGotoSlideIndex (Controller 6) 0) None; Printed success_response],
     tt, Ret tt).
Proof.
  split.
  - refine (goto_slide_index (OF := office presenting) (mkCmd "goto_slide" None None (Some 5%Z))
              tt [Called CResolve None] tt (Context 1) (Desktop 2) tt lookup_trace tt
              (Controller 6) (inr tt) tt _ _ _ _ _); reflexivity.
  - refine (goto_slide_index (OF := office presenting) (request "goto_slide" None)
              tt [Called CResolve None] tt (Context 1) (Desktop 2) tt lookup_trace tt
              (Controller 6) (inr tt) tt _ _ _ _ _); reflexivity.
Defined.

(** No document; a show that is not up after the wait; a show that is. *)
Lemma start_slideshow_from_slide_witness :
  run (handle_command (OF := office empty_desk) (request "start_slideshow" None)) tt =
    ([Called CResolve None; Called (CCreateDesktop (Context 1)) None;
      Called (CGetCurrentComponent (Desktop 2)) None;
      Printed (JObj [("success", JBool false);
                     ("error", JStr "No presentation document open")])], tt, Ret tt)
  /\
  run (handle_command (OF := office idle) (mkCmd "start_slideshow" None (Some 3%Z) None)) tt =
    ([Called CResolve None; Called (CCreateDesktop (Context 1)) None] ++ presentation_trace
       ++ [Called (CStart (Presentation 5)) None; Slept 500]
       ++ [Called (CGetCurrentComponent (Desktop 2)) None;
           Called (CGetPresentation (Document 3)) None;
           Called (CIsRunning (Presentation 5)) None]
       ++ [Printed success_response], tt, Ret tt)
  /\
  run (handle_command (OF := office presenting)
         (mkCmd "start_slideshow" None (Some 3%Z) None)) tt =
    ([Called CResolve None; Called (CCreateDesktop (Context 1)) None] ++ presentation_trace
       ++ [Called (CStart (Presentation 5)) None; Slept 500] ++ lookup_trace
       ++ [Called (CGotoSlideIndex (Controller 6) 2) None; Printed success_response],
     tt, Ret tt).
Proof.
  split; [|split].
  - refine (proj1 (start_slideshow_from_slide (OF := office empty_desk)
                     (request "start_slideshow" None) tt [Called CResolve None] tt
                     (Context 1) (Desktop 2) tt
                     [Called (CGetCurrentComponent (Desktop 2)) None] tt _ _ _) _);
      reflexivity.
  - refine (proj1 (proj2 (start_slideshow_from_slide (OF := office idle)
                     (mkCmd "start_slideshow" None (Some 3%Z) None) tt [Called CResolve None]
                     tt (Context 1) (Desktop 2) tt presentation_trace tt _ _ _))
                  (Presentation 5) 3%Z tt
                  [Called (CGetCurrentComponent (Desktop 2)) None;
                   Called (CGetPresentation (Document 3)) None;
                   Called (CIsRunning (Presentation 5)) None] tt _ _ _ _); reflexivity.
  - refine (proj2 (proj2 (start_slideshow_from_slide (OF := office presenting)
                     (mkCmd "start_slideshow" None (Some 3%Z) None) tt [Called CResolve None]
                     tt (Context 1) (Desktop 2) tt presentation_trace tt _ _ _))
                  (Presentation 5) 3%Z tt lookup_trace tt (Controller 6) (inr tt) tt
                  _ _ _ _ _); reflexivity.
Defined.

Lemma stop_slideshow_idle_witness :
  run (handle_command (OF := office empty_desk) (request "stop_slideshow" None)) tt =
    ([Called CResolve None; Called (CCreateDesktop (Context 1)) None;
      Called (CGetCurrentComponent (Desktop 2)) None; Printed success_response], tt, Ret tt)
  /\
  run (handle_command (OF := office idle) (request "stop_slideshow" None)) tt =
    ([Called CResolve None; Called (CCreateDesktop (Context 1)) None] ++ presentation_trace
       ++ [Called (CIsRunning (Presentation 5)) None; Printed success_response], tt, Ret tt).
Proof.
  split.
  - refine (proj1 (stop_slideshow_idle (OF := office empty_desk)
                     (request "stop_slideshow" None) tt [Called CResolve None] tt
                     (Context 1) (Desktop 2) tt
                     [Called (CGetCurrentComponent (Desktop 2)) None] tt _ _ _) _);
      reflexivity.
  - refine (proj2 (stop_slideshow_idle (OF := office idle)
                     (request "stop_slideshow" None) tt [Called CResolve None] tt
                     (Context 1) (Desktop 2) tt presentation_trace tt _ _ _)
                  (Presentation 5) tt _ _); reflexivity.
Defined.

Lemma open_with_session_witness :
  run (handle_command (OF := office presenting) (request "open" (Some sermon))) tt =
    ([Called CResolve None; Called (CCreateDesktop (Context 1)) None;
      Called (CLoadComponentFromURL (Desktop 2) "file:///home/church/sermon.odp") None;
      Printed success_response], tt, Ret tt)
  /\
  run (handle_command (OF := office no_desktop) (request "open" (Some sermon))) tt =
    ([Called CResolve None; Called (CCreateDesktop (Context 1)) (Some disposed);
      Printed (failure_response "Binary URP bridge disposed during call")], tt, Ret tt).
Proof.
  split.
  - refine (proj1 (open_with_session (OF := office presenting) (request "open" (Some sermon))
                     sermon tt [Called CResolve None] tt (Context 1) _ _ _ _)
                  (Desktop 2) tt (inr tt) tt _ _); reflexivity.
  - refine (proj2 (open_with_session (OF := office no_desktop) (request "open" (Some sermon))
                     sermon tt [Called CResolve None] tt (Context 1) _ _ _ _)
                  disposed tt _); reflexivity.
Defined.

Lemma desktop_failure_reported_witness :
  run (serve_line (OF := office no_desktop) parse "get_status") tt =
    ([Called CResolve None; Called (CCreateDesktop (Context 1)) (Some disposed);
      Printed (JObj [("success", JBool false);
                     ("error",
                      JStr "Unexpected error: Binary URP bridge disposed during call")])],
     tt, Ret tt).
Proof.
  refine (desktop_failure_reported (OF := office no_desktop) parse "get_status"
            (request "get_status" None) tt [Called CResolve None] tt (Context 1) disposed tt
            _ _ _ _).
  - reflexivity.
  - cbn. intros [H|[H|[H|[]]]]; discriminate H.
  - reflexivity.
  - reflexivity.
Defined.


(** The line after [quit] is not served. *)
Lemma main_stops_at_quit_witness :
  exists t w',
    run (main (OF := office presenting) trim parse (service ++ "quit" :: ["next"])) tt
    = (t ++ [Printed success_response], w', Exit 0) /\
    List.length (printed t) = 3%nat /\
    run (main (OF := office presenting) trim parse (service ++ "quit" :: ["next"])) tt
    = run (main (OF := office presenting) trim parse (service ++ ["quit"])) tt.
Proof.
  refine (main_stops_at_quit (OF := office presenting) trim parse service "quit" ["next"] tt
            _ _); reflexivity.
Defined.

End MoreRuns.

End ImpressFacts.
